(** * systime: tick widening and drift-free millisecond / second accumulation

    Shallow embedding of the two packagings found in the repository:

    - [Fused]: [systime.c] / [systime.h]  (one translation unit, fused
      snapshot [systime3], seconds offset);
    - [Split]: [systime_tick.c], [systime_ms.c], [systime_sec.c] and the
      macros of [systime_tick.h] (three layers, direct seconds set).

    C's [unsigned] and [uint32_t] are 32-bit words (every example in the
    source comments says "unsigned is 32 bits"); they are modelled as [Z]
    with the wrap-around written out through [wrap]. *)

From Stdlib Require Import ZArith Lia Bool List.
Import ListNotations.
Local Open Scope Z_scope.

(** ** Machine words *)

Definition UINT_BITS : Z := 32.
Definition UINT_MOD : Z := 2 ^ UINT_BITS.

(** Conversion to [unsigned]: reduction modulo 2^32. *)
Definition wrap (z : Z) : Z := z mod UINT_MOD.

Arguments wrap : simpl never.

(* Keep [simpl] from unfolding integer arithmetic on symbolic operands. *)
#[local] Arguments Z.add : simpl never.
#[local] Arguments Z.sub : simpl never.
#[local] Arguments Z.mul : simpl never.
#[local] Arguments Z.div : simpl never.
#[local] Arguments Z.modulo : simpl never.
#[local] Arguments Z.pow : simpl never.
#[local] Arguments Z.land : simpl never.
#[local] Arguments Z.shiftl : simpl never.
#[local] Arguments Z.gtb : simpl never.
#[local] Arguments Z.geb : simpl never.
#[local] Arguments Z.ltb : simpl never.
#[local] Arguments Z.eqb : simpl never.

Definition is_uint (z : Z) : Prop := 0 <= z < UINT_MOD.

(** ** Outcomes of a call

    A C call either returns, is still inside a loop when the step budget
    of the model is used up, or has no defined behaviour (division by
    zero, call through a null function pointer, over-wide shift). *)

Inductive outcome (A : Type) : Type :=
| Done (a : A)
| Timeout
| Fault.
Arguments Done {A} a.
Arguments Timeout {A}.
Arguments Fault {A}.

Definition bind {A B : Type} (c : outcome A) (k : A -> outcome B) : outcome B :=
  match c with
  | Done a => k a
  | Timeout => Timeout
  | Fault => Fault
  end.

Notation "x <- c ;; k" := (bind c (fun x => k))
  (at level 61, c at next level, right associativity).
Notation "' pat <- c ;; k" := (bind c (fun x => match x with pat => k end))
  (at level 61, pat pattern, c at next level, right associativity).

Definition returns {A : Type} (c : outcome A) : Prop := exists a, c = Done a.

(** The same call seen through a change [g] of the state it ends in. *)
Definition on_state {A S : Type} (g : S -> S) (c : outcome (A * S))
  : outcome (A * S) :=
  '(a, st) <- c ;; Done (a, g st).

(** ** The hardware source

    The timer-read callback [fcn] takes no argument and returns an
    [unsigned]: the k-th call (counted from the start of the run) returns
    [wrap (src k)]. *)

Definition hwsrc : Type := nat -> Z.

(** The source reads the same value on every call from the k-th on: the
    hardware reading is fixed. *)
Definition steady (src : hwsrc) (k : nat) : Prop :=
  forall j, (k <= j)%nat -> wrap (src j) = wrap (src k).

(** ** Catch-up loops

    [while ((now - last) > chunk) { last += chunk; acc += step; }] *)
Fixpoint catchup_gt (fuel : nat) (now chunk step last acc : Z)
  : outcome (Z * Z) :=
  if wrap (now - last) >? chunk then
    match fuel with
    | O => Timeout
    | S fuel' =>
        catchup_gt fuel' now chunk step (wrap (last + chunk)) (wrap (acc + step))
    end
  else Done (last, acc).

(** Number of iterations of [catchup_gt] on residual [r]. *)
Definition iters_gt (r chunk : Z) : Z :=
  if r =? 0 then 0 else (r - 1) / chunk.

(** Periods of [per] the catch-up of either build counts on residual [r]:
    the quotient in the divide build, the rounds of the loop otherwise. *)
Definition counted (div_inst : bool) (r per : Z) : Z :=
  if div_inst then r / per else iters_gt r per.

(** The integer-divide alternative:
    [diff = (now - last) / per; acc += diff; last += diff * per;] *)
Definition catchup_div (now per last acc : Z) : outcome (Z * Z) :=
  if per =? 0 then Fault
  else
    let diff := wrap (now - last) / per in
    Done (wrap (last + wrap (diff * per)), wrap (acc + diff)).

(** [(1UL << hw_bits) - 1], stored into an [unsigned].  C defines the
    shift only when [hw_bits] is below the width of [unsigned long], which
    is [ulong_bits] on the target; for a wider shift the language gives
    the expression no value, whatever a given compiler makes of it, and
    the call is given no result here. *)
Definition mask_of (ulong_bits hw_bits : Z) : outcome Z :=
  if hw_bits <? ulong_bits then Done (wrap (Z.shiftl 1 hw_bits - 1)) else Fault.

(** * The fused packaging: [systime.c] and [systime.h] *)

Module Fused.

(** [systime3_t] *)
Record systime3_t : Type := mk_systime3 {
  t_sec : Z;      (* uint32_t sec *)
  t_msec : Z;     (* unsigned msec *)
  t_ticks : Z     (* unsigned ticks *)
}.

(** The file-scope statics of [systime.c], together with the number of
    samples the hardware source has delivered so far. *)
Record state : Type := mkState {
  hw_reads : nat;
  ticks : Z;
  tickmult : Z;
  mask : Z;
  ticks1ms : Z;
  ticks10ms : Z;                 (* only without SYSTIME_HAVE_DIV_INST *)
  ticks100ms : Z;                (* only without SYSTIME_HAVE_DIV_INST *)
  milisec : Z;
  sec : Z;
  sec_offset : Z;
  use_hw_systicks : bool;
  last_timer_ticks : Z;
  last_systime_ticks : Z;
  last_ms : Z;
  systickshw : option hwsrc      (* None is the null function pointer *)
}.

(** Statics before any call: zero-initialised. *)
Definition boot : state :=
  mkState 0%nat 0 0 0 0 0 0 0 0 0 false 0 0 0 None.

Definition set_hw_reads (v : nat) (s : state) : state :=
  mkState v (ticks s) (tickmult s) (mask s) (ticks1ms s) (ticks10ms s)
    (ticks100ms s) (milisec s) (sec s) (sec_offset s) (use_hw_systicks s)
    (last_timer_ticks s) (last_systime_ticks s) (last_ms s) (systickshw s).
Definition set_ticks (v : Z) (s : state) : state :=
  mkState (hw_reads s) v (tickmult s) (mask s) (ticks1ms s) (ticks10ms s)
    (ticks100ms s) (milisec s) (sec s) (sec_offset s) (use_hw_systicks s)
    (last_timer_ticks s) (last_systime_ticks s) (last_ms s) (systickshw s).
Definition set_tickmult (v : Z) (s : state) : state :=
  mkState (hw_reads s) (ticks s) v (mask s) (ticks1ms s) (ticks10ms s)
    (ticks100ms s) (milisec s) (sec s) (sec_offset s) (use_hw_systicks s)
    (last_timer_ticks s) (last_systime_ticks s) (last_ms s) (systickshw s).
Definition set_mask (v : Z) (s : state) : state :=
  mkState (hw_reads s) (ticks s) (tickmult s) v (ticks1ms s) (ticks10ms s)
    (ticks100ms s) (milisec s) (sec s) (sec_offset s) (use_hw_systicks s)
    (last_timer_ticks s) (last_systime_ticks s) (last_ms s) (systickshw s).
Definition set_ticks1ms (v : Z) (s : state) : state :=
  mkState (hw_reads s) (ticks s) (tickmult s) (mask s) v (ticks10ms s)
    (ticks100ms s) (milisec s) (sec s) (sec_offset s) (use_hw_systicks s)
    (last_timer_ticks s) (last_systime_ticks s) (last_ms s) (systickshw s).
Definition set_ticks10ms (v : Z) (s : state) : state :=
  mkState (hw_reads s) (ticks s) (tickmult s) (mask s) (ticks1ms s) v
    (ticks100ms s) (milisec s) (sec s) (sec_offset s) (use_hw_systicks s)
    (last_timer_ticks s) (last_systime_ticks s) (last_ms s) (systickshw s).
Definition set_ticks100ms (v : Z) (s : state) : state :=
  mkState (hw_reads s) (ticks s) (tickmult s) (mask s) (ticks1ms s) (ticks10ms s)
    v (milisec s) (sec s) (sec_offset s) (use_hw_systicks s)
    (last_timer_ticks s) (last_systime_ticks s) (last_ms s) (systickshw s).
Definition set_milisec (v : Z) (s : state) : state :=
  mkState (hw_reads s) (ticks s) (tickmult s) (mask s) (ticks1ms s) (ticks10ms s)
    (ticks100ms s) v (sec s) (sec_offset s) (use_hw_systicks s)
    (last_timer_ticks s) (last_systime_ticks s) (last_ms s) (systickshw s).
Definition set_sec (v : Z) (s : state) : state :=
  mkState (hw_reads s) (ticks s) (tickmult s) (mask s) (ticks1ms s) (ticks10ms s)
    (ticks100ms s) (milisec s) v (sec_offset s) (use_hw_systicks s)
    (last_timer_ticks s) (last_systime_ticks s) (last_ms s) (systickshw s).
Definition set_sec_offset (v : Z) (s : state) : state :=
  mkState (hw_reads s) (ticks s) (tickmult s) (mask s) (ticks1ms s) (ticks10ms s)
    (ticks100ms s) (milisec s) (sec s) v (use_hw_systicks s)
    (last_timer_ticks s) (last_systime_ticks s) (last_ms s) (systickshw s).
Definition set_use_hw_systicks (v : bool) (s : state) : state :=
  mkState (hw_reads s) (ticks s) (tickmult s) (mask s) (ticks1ms s) (ticks10ms s)
    (ticks100ms s) (milisec s) (sec s) (sec_offset s) v
    (last_timer_ticks s) (last_systime_ticks s) (last_ms s) (systickshw s).
Definition set_last_timer_ticks (v : Z) (s : state) : state :=
  mkState (hw_reads s) (ticks s) (tickmult s) (mask s) (ticks1ms s) (ticks10ms s)
    (ticks100ms s) (milisec s) (sec s) (sec_offset s) (use_hw_systicks s)
    v (last_systime_ticks s) (last_ms s) (systickshw s).
Definition set_last_systime_ticks (v : Z) (s : state) : state :=
  mkState (hw_reads s) (ticks s) (tickmult s) (mask s) (ticks1ms s) (ticks10ms s)
    (ticks100ms s) (milisec s) (sec s) (sec_offset s) (use_hw_systicks s)
    (last_timer_ticks s) v (last_ms s) (systickshw s).
Definition set_last_ms (v : Z) (s : state) : state :=
  mkState (hw_reads s) (ticks s) (tickmult s) (mask s) (ticks1ms s) (ticks10ms s)
    (ticks100ms s) (milisec s) (sec s) (sec_offset s) (use_hw_systicks s)
    (last_timer_ticks s) (last_systime_ticks s) v (systickshw s).
Definition set_systickshw (v : option hwsrc) (s : state) : state :=
  mkState (hw_reads s) (ticks s) (tickmult s) (mask s) (ticks1ms s) (ticks10ms s)
    (ticks100ms s) (milisec s) (sec s) (sec_offset s) (use_hw_systicks s)
    (last_timer_ticks s) (last_systime_ticks s) (last_ms s) v.

(** Every [unsigned] and [uint32_t] static holds a 32-bit value. *)
Definition wf (s : state) : Prop :=
  is_uint (ticks s) /\ is_uint (tickmult s) /\ is_uint (mask s) /\
  is_uint (ticks1ms s) /\ is_uint (ticks10ms s) /\ is_uint (ticks100ms s) /\
  is_uint (milisec s) /\ is_uint (sec s) /\ is_uint (sec_offset s) /\
  is_uint (last_timer_ticks s) /\ is_uint (last_systime_ticks s) /\
  is_uint (last_ms s).

(** The call [systickshw()]. *)
Definition call_systickshw (st : state) : outcome (Z * state) :=
  match systickshw st with
  | None => Fault
  | Some fcn => Done (wrap (fcn (hw_reads st)), set_hw_reads (S (hw_reads st)) st)
  end.

(** [unsigned systicks(void)] *)
Definition systicks (st : state) : outcome (Z * state) :=
  if use_hw_systicks st then call_systickshw st
  else
    '(now, st) <- call_systickshw st ;;
    let diff := Z.land (wrap (now - last_timer_ticks st)) (mask st) in
    let st := set_ticks (wrap (ticks st + wrap (diff * tickmult st))) st in
    let st := set_last_timer_ticks now st in
    Done (ticks st, st).

(** [void systime_init(fcn, hw_bits, tick_multiplier, ticks_for_1ms)];
    [div_inst] says whether SYSTIME_HAVE_DIV_INST is defined. *)
Definition systime_init (div_inst : bool) (ulong_bits : Z) (fcn : option hwsrc)
    (hw_bits tick_multiplier ticks_for_1ms : Z) (st : state) : outcome state :=
  st <- (if (hw_bits =? 8 * 4) && (tick_multiplier =? 1)
         then Done (set_use_hw_systicks true st)
         else
           m <- mask_of ulong_bits hw_bits ;;
           Done (set_mask m (set_use_hw_systicks false st))) ;;
  let st := set_tickmult tick_multiplier st in
  let st := set_systickshw fcn st in
  let st := set_ticks1ms ticks_for_1ms st in
  let st := if div_inst then st
            else set_ticks100ms (wrap (100 * ticks_for_1ms))
                   (set_ticks10ms (wrap (10 * ticks_for_1ms)) st) in
  '(_, st) <- systicks st ;;
  Done st.

(** The accumulation part of [systime3]: both alternatives of the
    [#if defined(SYSTIME_HAVE_DIV_INST)] block. *)
Definition accumulate (div_inst : bool) (fuel : nat) (now : Z) (st : state)
  : outcome state :=
  if div_inst then
    '(l, m) <- catchup_div now (ticks1ms st) (last_systime_ticks st) (milisec st) ;;
    let st := set_last_systime_ticks l (set_milisec m st) in
    '(lm, s) <- catchup_div (milisec st) 1000 (last_ms st) (sec st) ;;
    Done (set_last_ms lm (set_sec s st))
  else
    '(l, m) <- catchup_gt fuel now (ticks100ms st) 100 (last_systime_ticks st) (milisec st) ;;
    '(l, m) <- catchup_gt fuel now (ticks10ms st) 10 l m ;;
    '(l, m) <- catchup_gt fuel now (ticks1ms st) 1 l m ;;
    let st := set_last_systime_ticks l (set_milisec m st) in
    '(lm, s) <- catchup_gt fuel (milisec st) 1000 1 (last_ms st) (sec st) ;;
    Done (set_last_ms lm (set_sec s st)).

(** The store through [t], guarded by [if(t)]: the argument is the struct
    [t] points to, [None] for a null pointer; the result is that struct
    after the call. *)
Definition fill (t : option systime3_t) (s ms tk : Z) : option systime3_t :=
  match t with
  | None => None
  | Some _ => Some (mk_systime3 s ms tk)
  end.

(** [unsigned systime3(systime3_t* t)] *)
Definition systime3 (div_inst : bool) (fuel : nat) (t : option systime3_t)
    (st : state) : outcome (Z * option systime3_t * state) :=
  '(now, st) <- (if use_hw_systicks st then call_systickshw st else systicks st) ;;
  st <- accumulate div_inst fuel now st ;;
  Done (milisec st,
        fill t (wrap (sec st + sec_offset st)) (milisec st) now,
        st).

(** [unsigned systimelast3(systime3_t* t)] *)
Definition systimelast3 (t : option systime3_t) (st : state)
  : Z * option systime3_t * state :=
  (milisec st,
   fill t (wrap (sec st + sec_offset st)) (milisec st) (last_systime_ticks st),
   st).

(** A local [systime3_t t;] before it is filled. *)
Definition local_t : systime3_t := mk_systime3 0 0 0.

(** [uint32_t systime(void)] *)
Definition systime (div_inst : bool) (fuel : nat) (st : state)
  : outcome (Z * state) :=
  '(_, t, st) <- systime3 div_inst fuel (Some local_t) st ;;
  match t with
  | Some t => Done (t_sec t, st)
  | None => Fault
  end.

(** [uint32_t systimelast(void)] *)
Definition systimelast (st : state) : Z * state :=
  let '(_, t, st) := systimelast3 (Some local_t) st in
  (match t with Some t => t_sec t | None => 0 end, st).

(** [void systime_adj(uint32_t adj)] *)
Definition systime_adj (adj : Z) (st : state) : state :=
  set_sec_offset (wrap (sec_offset st + adj)) st.

(** [static inline unsigned systime_ms(void)] of [systime.h] *)
Definition systime_ms (div_inst : bool) (fuel : nat) (st : state)
  : outcome (Z * state) :=
  '(ms, _, st) <- systime3 div_inst fuel None st ;;
  Done (ms, st).

(** [static inline unsigned systimelast_ms(void)] *)
Definition systimelast_ms (st : state) : Z * state :=
  let '(ms, _, st) := systimelast3 None st in (ms, st).

(** [static inline void systime_set(uint32_t now)] *)
Definition systime_set (div_inst : bool) (fuel : nat) (now : Z) (st : state)
  : outcome state :=
  '(cur, st) <- systime div_inst fuel st ;;
  Done (systime_adj (wrap (now - cur)) st).

End Fused.

(** * The layered packaging: [systime_tick.c], [systime_ms.c],
      [systime_sec.c] and [systime_tick.h] *)

Module Split.

(** What [systime_tick_current] can point to: [systime_tick_internal], or
    whatever [fcn] was given to [systime_tick_init]. *)
Inductive tick_fn : Type :=
| tick_internal
| tick_fcn (fcn : option hwsrc).

(** The statics of the three translation units, together with the number
    of samples the hardware source has delivered so far. *)
Record state : Type := mkState {
  hw_reads : nat;
  (* systime_tick.c *)
  systickshw : option hwsrc;     (* None is the null function pointer *)
  systime_tick_current : tick_fn;
  last_timer_ticks : Z;
  systime_curr_ticks : Z;
  mask : Z;
  tickmult : Z;
  (* systime_ms.c *)
  lastsystime_ticks : Z;
  ticks1ms : Z;
  ticks50ms : Z;                 (* only without SYSTEM_TIME_HAVE_DIV_INST *)
  systime_curr_ms : Z;
  (* systime_sec.c *)
  systime_curr_sec : Z;
  last_ms : Z
}.

(** Statics before any call: [ticks1ms = 10000],
    [systime_tick_current = &systime_tick_internal], the rest zero. *)
Definition boot : state :=
  mkState 0%nat None tick_internal 0 0 0 0 0 10000 0 0 0 0.

Definition set_hw_reads (v : nat) (s : state) : state :=
  mkState v (systickshw s) (systime_tick_current s) (last_timer_ticks s) (systime_curr_ticks s)
    (mask s) (tickmult s) (lastsystime_ticks s) (ticks1ms s)
    (ticks50ms s) (systime_curr_ms s) (systime_curr_sec s) (last_ms s).
Definition set_systickshw (v : option hwsrc) (s : state) : state :=
  mkState (hw_reads s) v (systime_tick_current s) (last_timer_ticks s) (systime_curr_ticks s)
    (mask s) (tickmult s) (lastsystime_ticks s) (ticks1ms s)
    (ticks50ms s) (systime_curr_ms s) (systime_curr_sec s) (last_ms s).
Definition set_systime_tick_current (v : tick_fn) (s : state) : state :=
  mkState (hw_reads s) (systickshw s) v (last_timer_ticks s) (systime_curr_ticks s)
    (mask s) (tickmult s) (lastsystime_ticks s) (ticks1ms s)
    (ticks50ms s) (systime_curr_ms s) (systime_curr_sec s) (last_ms s).
Definition set_last_timer_ticks (v : Z) (s : state) : state :=
  mkState (hw_reads s) (systickshw s) (systime_tick_current s) v (systime_curr_ticks s)
    (mask s) (tickmult s) (lastsystime_ticks s) (ticks1ms s)
    (ticks50ms s) (systime_curr_ms s) (systime_curr_sec s) (last_ms s).
Definition set_systime_curr_ticks (v : Z) (s : state) : state :=
  mkState (hw_reads s) (systickshw s) (systime_tick_current s) (last_timer_ticks s) v
    (mask s) (tickmult s) (lastsystime_ticks s) (ticks1ms s)
    (ticks50ms s) (systime_curr_ms s) (systime_curr_sec s) (last_ms s).
Definition set_mask (v : Z) (s : state) : state :=
  mkState (hw_reads s) (systickshw s) (systime_tick_current s) (last_timer_ticks s) (systime_curr_ticks s)
    v (tickmult s) (lastsystime_ticks s) (ticks1ms s)
    (ticks50ms s) (systime_curr_ms s) (systime_curr_sec s) (last_ms s).
Definition set_tickmult (v : Z) (s : state) : state :=
  mkState (hw_reads s) (systickshw s) (systime_tick_current s) (last_timer_ticks s) (systime_curr_ticks s)
    (mask s) v (lastsystime_ticks s) (ticks1ms s)
    (ticks50ms s) (systime_curr_ms s) (systime_curr_sec s) (last_ms s).
Definition set_lastsystime_ticks (v : Z) (s : state) : state :=
  mkState (hw_reads s) (systickshw s) (systime_tick_current s) (last_timer_ticks s) (systime_curr_ticks s)
    (mask s) (tickmult s) v (ticks1ms s)
    (ticks50ms s) (systime_curr_ms s) (systime_curr_sec s) (last_ms s).
Definition set_ticks1ms (v : Z) (s : state) : state :=
  mkState (hw_reads s) (systickshw s) (systime_tick_current s) (last_timer_ticks s) (systime_curr_ticks s)
    (mask s) (tickmult s) (lastsystime_ticks s) v
    (ticks50ms s) (systime_curr_ms s) (systime_curr_sec s) (last_ms s).
Definition set_ticks50ms (v : Z) (s : state) : state :=
  mkState (hw_reads s) (systickshw s) (systime_tick_current s) (last_timer_ticks s) (systime_curr_ticks s)
    (mask s) (tickmult s) (lastsystime_ticks s) (ticks1ms s)
    v (systime_curr_ms s) (systime_curr_sec s) (last_ms s).
Definition set_systime_curr_ms (v : Z) (s : state) : state :=
  mkState (hw_reads s) (systickshw s) (systime_tick_current s) (last_timer_ticks s) (systime_curr_ticks s)
    (mask s) (tickmult s) (lastsystime_ticks s) (ticks1ms s)
    (ticks50ms s) v (systime_curr_sec s) (last_ms s).
Definition set_systime_curr_sec (v : Z) (s : state) : state :=
  mkState (hw_reads s) (systickshw s) (systime_tick_current s) (last_timer_ticks s) (systime_curr_ticks s)
    (mask s) (tickmult s) (lastsystime_ticks s) (ticks1ms s)
    (ticks50ms s) (systime_curr_ms s) v (last_ms s).
Definition set_last_ms (v : Z) (s : state) : state :=
  mkState (hw_reads s) (systickshw s) (systime_tick_current s) (last_timer_ticks s) (systime_curr_ticks s)
    (mask s) (tickmult s) (lastsystime_ticks s) (ticks1ms s)
    (ticks50ms s) (systime_curr_ms s) (systime_curr_sec s) v.

(** Every [unsigned] static holds a 32-bit value. *)
Definition wf (s : state) : Prop :=
  is_uint (last_timer_ticks s) /\ is_uint (systime_curr_ticks s) /\
  is_uint (mask s) /\ is_uint (tickmult s) /\
  is_uint (lastsystime_ticks s) /\ is_uint (ticks1ms s) /\
  is_uint (ticks50ms s) /\ is_uint (systime_curr_ms s) /\
  is_uint (systime_curr_sec s) /\ is_uint (last_ms s).

(** A call through a pointer to the hardware source. *)
Definition call_fcn (fcn : option hwsrc) (st : state) : outcome (Z * state) :=
  match fcn with
  | None => Fault
  | Some f => Done (wrap (f (hw_reads st)), set_hw_reads (S (hw_reads st)) st)
  end.

(** [static unsigned systime_tick_internal(void)] *)
Definition systime_tick_internal (st : state) : outcome (Z * state) :=
  '(now, st) <- call_fcn (systickshw st) st ;;
  let diff := Z.land (wrap (now - last_timer_ticks st)) (mask st) in
  let st := set_systime_curr_ticks
              (wrap (systime_curr_ticks st + wrap (diff * tickmult st))) st in
  let st := set_last_timer_ticks now st in
  Done (systime_curr_ticks st, st).

(** [unsigned systime_tick(void)] *)
Definition systime_tick (st : state) : outcome (Z * state) :=
  match systime_tick_current st with
  | tick_internal => systime_tick_internal st
  | tick_fcn fcn => call_fcn fcn st
  end.

(** The hardware source the next [systime_tick()] reads. *)
Definition source (st : state) : option hwsrc :=
  match systime_tick_current st with
  | tick_internal => systickshw st
  | tick_fcn fcn => fcn
  end.

(** [void systime_tick_init(fcn, hw_bits, tick_multiplier)] *)
Definition systime_tick_init (ulong_bits : Z) (fcn : option hwsrc)
    (hw_bits tick_multiplier : Z) (st : state) : outcome state :=
  st <- (if (hw_bits =? 8 * 4) && (tick_multiplier =? 1)
         then Done (set_systime_tick_current (tick_fcn fcn) st)
         else
           let st := set_systime_tick_current tick_internal st in
           let st := set_tickmult tick_multiplier st in
           let st := set_systickshw fcn st in
           m <- mask_of ulong_bits hw_bits ;;
           Done (set_mask m st)) ;;
  '(_, st) <- systime_tick st ;;
  Done st.

(** [unsigned systime_ms(void)]; [div_inst] says whether
    SYSTEM_TIME_HAVE_DIV_INST is defined. *)
Definition systime_ms (div_inst : bool) (fuel : nat) (st : state)
  : outcome (Z * state) :=
  '(now, st) <- systime_tick st ;;
  '(l, m) <- (if div_inst then
                catchup_div now (ticks1ms st) (lastsystime_ticks st) (systime_curr_ms st)
              else
                '(l, m) <- catchup_gt fuel now (ticks50ms st) 50
                             (lastsystime_ticks st) (systime_curr_ms st) ;;
                catchup_gt fuel now (ticks1ms st) 1 l m) ;;
  let st := set_lastsystime_ticks l (set_systime_curr_ms m st) in
  Done (systime_curr_ms st, st).

(** [void systime_time_init(unsigned ticks_for_1ms)] *)
Definition systime_time_init (div_inst : bool) (fuel : nat)
    (ticks_for_1ms : Z) (st : state) : outcome state :=
  let st := set_ticks1ms ticks_for_1ms st in
  let st := if div_inst then st
            else set_ticks50ms (wrap (50 * ticks_for_1ms)) st in
  '(_, st) <- systime_ms div_inst fuel st ;;
  Done st.

(** [while((systime_ms() - last_ms) >= 1000) { last_ms += 1000;
    systime_curr_sec++; }]: the test queries the millisecond layer anew
    on every round. *)
Fixpoint systime_sec_loop (ms_fuel fuel : nat) (st : state) : outcome state :=
  '(ms, st) <- systime_ms false ms_fuel st ;;
  if wrap (ms - last_ms st) >=? 1000 then
    match fuel with
    | O => Timeout
    | S fuel' =>
        let st := set_last_ms (wrap (last_ms st + 1000)) st in
        let st := set_systime_curr_sec (wrap (systime_curr_sec st + 1)) st in
        systime_sec_loop ms_fuel fuel' st
    end
  else Done st.

(** [unsigned systime_sec(void)] *)
Definition systime_sec (div_inst : bool) (fuel : nat) (st : state)
  : outcome (Z * state) :=
  if div_inst then
    '(ms, st) <- systime_ms true fuel st ;;
    '(lm, s) <- catchup_div ms 1000 (last_ms st) (systime_curr_sec st) ;;
    let st := set_last_ms lm (set_systime_curr_sec s st) in
    Done (systime_curr_sec st, st)
  else
    st <- systime_sec_loop fuel fuel st ;;
    Done (systime_curr_sec st, st).

(** [void systime_sec_set(unsigned current_time)] *)
Definition systime_sec_set (div_inst : bool) (fuel : nat) (current_time : Z)
    (st : state) : outcome state :=
  '(now, st) <- systime_sec div_inst fuel st ;;
  if now >? current_time then
    Done (set_systime_curr_sec
            (wrap (systime_curr_sec st - wrap (now - current_time))) st)
  else
    Done (set_systime_curr_sec
            (wrap (systime_curr_sec st + wrap (current_time - now))) st).

(** The macros of [systime_tick.h]. *)

(** [#define systime_tick_elapsed(start) (systime_tick() - (start))] *)
Definition systime_tick_elapsed (start : Z) (st : state) : outcome (Z * state) :=
  '(n, st) <- systime_tick st ;; Done (wrap (n - start), st).

(** [#define systime_tick_expired(start, interval)
      ((systime_tick() - (start)) >= (interval))]: the left operand is an
    [unsigned], so the comparison is made in [unsigned] and an [int]
    [interval] is converted to it ([wrap interval]); likewise in the two
    other [expired] macros. *)
Definition systime_tick_expired (start interval : Z) (st : state)
  : outcome (bool * state) :=
  '(n, st) <- systime_tick st ;;
  Done (wrap (n - start) >=? wrap interval, st).

(** [#define systime_ms_elapsed(start) (systime_ms() - (start))] *)
Definition systime_ms_elapsed (div_inst : bool) (fuel : nat) (start : Z)
    (st : state) : outcome (Z * state) :=
  '(n, st) <- systime_ms div_inst fuel st ;; Done (wrap (n - start), st).

(** [#define systime_ms_expired(start, interval)
      ((systime_ms() - (start)) >= (interval))] *)
Definition systime_ms_expired (div_inst : bool) (fuel : nat)
    (start interval : Z) (st : state) : outcome (bool * state) :=
  '(n, st) <- systime_ms div_inst fuel st ;;
  Done (wrap (n - start) >=? wrap interval, st).

(** [#define systime_sec_elapsed(start) (systime_sec() - (start))] *)
Definition systime_sec_elapsed (div_inst : bool) (fuel : nat) (start : Z)
    (st : state) : outcome (Z * state) :=
  '(n, st) <- systime_sec div_inst fuel st ;; Done (wrap (n - start), st).

(** [#define systime_sec_expired(start, interval)
      ((systime_sec() - (start)) >= (interval))] *)
Definition systime_sec_expired (div_inst : bool) (fuel : nat)
    (start interval : Z) (st : state) : outcome (bool * state) :=
  '(n, st) <- systime_sec div_inst fuel st ;;
  Done (wrap (n - start) >=? wrap interval, st).

End Split.

(** * Test benches

    Drivers that install a source delivering a given list of samples
    (zero afterwards) and poll the library. *)

Definition samples (l : list Z) : hwsrc := fun k => nth k l 0.

(** A source that delivers the samples [l] and then holds the reading
    [v]. *)
Definition held (l : list Z) (v : Z) : hwsrc := fun k => nth k l v.

(** A timer that advances by 1000 ticks between any two reads. *)
Definition racing : hwsrc := fun k => 1000 * Z.of_nat k.

(** [n] consecutive calls of the query [q], results in call order. *)
Fixpoint poll {S A : Type} (q : S -> outcome (A * S)) (n : nat) (st : S)
  : outcome (list A * S) :=
  match n with
  | O => Done ([], st)
  | S n' =>
      '(a, st) <- q st ;;
      '(l, st) <- poll q n' st ;;
      Done (a :: l, st)
  end.

(** [systime_init(fcn, hw_bits, mult, tpm)] on a 32-bit-long target, then
    [n] calls of [systicks()].  The first sample is taken by the init. *)
Definition fused_tick_sequence (stream : list Z) (hw_bits mult tpm : Z) (n : nat)
  : outcome (list Z) :=
  st <- Fused.systime_init false 32 (Some (samples stream)) hw_bits mult tpm Fused.boot ;;
  '(l, _) <- poll Fused.systicks n st ;;
  Done l.

(** [systime_tick_init(fcn, hw_bits, mult)], then [n] calls of
    [systime_tick()].  The first sample is taken by the init. *)
Definition split_tick_sequence (stream : list Z) (hw_bits mult : Z) (n : nat)
  : outcome (list Z) :=
  st <- Split.systime_tick_init 32 (Some (samples stream)) hw_bits mult Split.boot ;;
  '(l, _) <- poll Split.systime_tick n st ;;
  Done l.

(** A 32-bit timer with multiplier 1 (the widener passes the samples
    through, so [stream] is the wide tick stream), [systime_time_init(tpm)],
    then [n] calls of [systime_ms()].  The two inits take the first two
    samples. *)
Definition split_ms_sequence (div_inst : bool) (fuel : nat) (stream : list Z)
    (tpm : Z) (n : nat) : outcome (list Z) :=
  st <- Split.systime_tick_init 32 (Some (samples stream)) 32 1 Split.boot ;;
  st <- Split.systime_time_init div_inst fuel tpm st ;;
  '(l, _) <- poll (Split.systime_ms div_inst fuel) n st ;;
  Done l.

(** The same with [n] calls of [systime_sec()]. *)
Definition split_sec_sequence (div_inst : bool) (fuel : nat) (stream : list Z)
    (tpm : Z) (n : nat) : outcome (list Z) :=
  st <- Split.systime_tick_init 32 (Some (samples stream)) 32 1 Split.boot ;;
  st <- Split.systime_time_init div_inst fuel tpm st ;;
  '(l, _) <- poll (Split.systime_sec div_inst fuel) n st ;;
  Done l.

(** [systime_init(fcn, 32, 1, tpm)], then [n] calls of [systime3(&t)];
    each call contributes the pair (milliseconds returned, [t.sec]).  The
    init takes the first sample. *)
Definition fused_ms_sec_sequence (div_inst : bool) (fuel : nat) (stream : list Z)
    (tpm : Z) (n : nat) : outcome (list (Z * Z)) :=
  st <- Fused.systime_init div_inst 32 (Some (samples stream)) 32 1 tpm Fused.boot ;;
  '(l, _) <- poll (fun st =>
                     '(ms, t, st) <- Fused.systime3 div_inst fuel (Some Fused.local_t) st ;;
                     Done ((ms, match t with Some t => Fused.t_sec t | None => 0 end), st))
                  n st ;;
  Done l.

(** The statics of systime.c and of systime_tick.c in the 16-bit scenario,
    after the samples 0, 0, 500, 65500 have been read. *)
Definition fused_before_wrap : Fused.state :=
  Fused.mkState 4%nat 65500 1 65535 1000 10000 100000 0 0 0 false 65500 0 0
    (Some (samples [0; 0; 500; 65500; 300])).

Definition split_before_wrap : Split.state :=
  Split.mkState 4%nat (Some (samples [0; 0; 500; 65500; 300])) Split.tick_internal
    65500 65500 65535 1 0 10000 0 0 0 0.

(** A 16-bit timer with multiplier 1 and [tpm] ticks per millisecond,
    both layers initialised; the inits take the first two samples. *)
Definition split_started (div_inst : bool) (fuel : nat) (src : hwsrc)
    (tpm : Z) : outcome Split.state :=
  st <- Split.systime_tick_init 32 (Some src) 16 1 Split.boot ;;
  Split.systime_time_init div_inst fuel tpm st.

(** Both packagings on a 16-bit timer with multiplier 1 and 1000 ticks
    per millisecond, two samples of 0 taken, the timer reading 5000 from
    now on. *)
Definition fused_running : Fused.state :=
  Fused.mkState 2%nat 0 1 65535 1000 10000 100000 0 0 0 false 0 0 0
    (Some (held [0; 0] 5000)).

Definition split_running : Split.state :=
  Split.mkState 2%nat (Some (held [0; 0] 5000)) Split.tick_internal
    0 0 65535 1 0 1000 50000 0 0 0.

(** The states of the layered packaging, one tick per millisecond, polled
    against [racing]: at the next sample the tick residual will be 1001,
    and the millisecond count stands 999 past [last_ms]. *)
Definition racing_inv (st : Split.state) : Prop :=
  Split.systime_tick_current st = Split.tick_fcn (Some racing) /\
  Split.ticks1ms st = 1 /\
  Split.ticks50ms st = 50 /\
  is_uint (Split.lastsystime_ticks st) /\
  is_uint (Split.systime_curr_ms st) /\
  wrap (wrap (racing (Split.hw_reads st)) - Split.lastsystime_ticks st) = 1001 /\
  wrap (Split.systime_curr_ms st - Split.last_ms st) = 999.

(** The two packagings on a 16-bit timer with multiplier 1 and 1000 ticks
    per millisecond, two samples of 0 taken: the fused one with the timer
    reading [reading] from now on, the layered one with [ms] milliseconds
    counted and the timer reading 5000 from now on. *)
Definition fused_reading (reading : Z) : Fused.state :=
  Fused.mkState 2%nat 0 1 65535 1000 10000 100000 0 0 0 false 0 0 0
    (Some (held [0; 0] reading)).

Definition split_counted (ms : Z) : Split.state :=
  Split.mkState 2%nat (Some (held [0; 0] 5000)) Split.tick_internal
    0 0 65535 1 0 1000 50000 ms 0 0.

(** * Facts

    ** Word arithmetic *)

Lemma UINT_MOD_eq : UINT_MOD = 4294967296.
Proof. reflexivity. Qed.

Lemma wrap_range (z : Z) : 0 <= wrap z < 4294967296.
Proof. unfold wrap. rewrite UINT_MOD_eq. apply Z.mod_pos_bound. lia. Qed.

Lemma wrap_small (z : Z) : 0 <= z < 4294967296 -> wrap z = z.
Proof. intros H. unfold wrap. rewrite UINT_MOD_eq. apply Z.mod_small. lia. Qed.

Lemma wrap_wrap (z : Z) : wrap (wrap z) = wrap z.
Proof. apply wrap_small, wrap_range. Qed.

Lemma wrap_add_l (a b : Z) : wrap (wrap a + b) = wrap (a + b).
Proof. unfold wrap. apply Zplus_mod_idemp_l. Qed.

Lemma wrap_add_r (a b : Z) : wrap (a + wrap b) = wrap (a + b).
Proof. unfold wrap. apply Zplus_mod_idemp_r. Qed.

Lemma wrap_sub_l (a b : Z) : wrap (wrap a - b) = wrap (a - b).
Proof. unfold wrap. apply Zminus_mod_idemp_l. Qed.

Lemma wrap_sub_r (a b : Z) : wrap (a - wrap b) = wrap (a - b).
Proof. unfold wrap. apply Zminus_mod_idemp_r. Qed.

Lemma wrap_mul_l (a b : Z) : wrap (wrap a * b) = wrap (a * b).
Proof. unfold wrap. apply Zmult_mod_idemp_l. Qed.

Lemma wrap_mul_r (a b : Z) : wrap (a * wrap b) = wrap (a * b).
Proof. unfold wrap. apply Zmult_mod_idemp_r. Qed.

(** The residual seen after advancing [last] by [d <= residual]. *)
Lemma residual_advance (now last d : Z) :
  0 <= d <= wrap (now - last) ->
  wrap (now - wrap (last + d)) = wrap (now - last) - d.
Proof.
  intros H. pose proof (wrap_range (now - last)) as R.
  rewrite wrap_sub_r.
  replace (now - (last + d)) with ((now - last) - d) by lia.
  rewrite <- wrap_sub_l. apply wrap_small. lia.
Qed.


Create Rewrite HintDb wrap.
#[global] Hint Rewrite wrap_wrap wrap_add_l wrap_add_r wrap_sub_l wrap_sub_r
  wrap_mul_l wrap_mul_r : wrap.

(** ** Closed forms of the loops *)

Lemma iters_gt_nonneg (r chunk : Z) : 0 <= r -> 0 < chunk -> 0 <= iters_gt r chunk.
Proof.
  intros Hr Hc. unfold iters_gt. destruct (r =? 0) eqn:E; [lia|].
  apply Z.eqb_neq in E. apply Z.div_pos; lia.
Qed.

Lemma iters_gt_stop (r chunk : Z) :
  0 <= r <= chunk -> iters_gt r chunk = 0.
Proof.
  intros H. unfold iters_gt. destruct (r =? 0) eqn:E; [reflexivity|].
  apply Z.eqb_neq in E. apply Z.div_small. lia.
Qed.

Lemma iters_gt_step (r chunk : Z) :
  0 < chunk < r -> iters_gt r chunk = iters_gt (r - chunk) chunk + 1.
Proof.
  intros H. unfold iters_gt.
  destruct (r =? 0) eqn:E1; [apply Z.eqb_eq in E1; lia|].
  destruct (r - chunk =? 0) eqn:E2; [apply Z.eqb_eq in E2; lia|].
  replace (r - 1) with ((r - chunk - 1) + 1 * chunk) by lia.
  rewrite Z.div_add by lia. reflexivity.
Qed.

Lemma iters_gt_bound (r chunk : Z) :
  0 <= r -> 0 < chunk -> iters_gt r chunk * chunk <= r /\ iters_gt r chunk <= r / chunk.
Proof.
  intros Hr Hc. unfold iters_gt. destruct (r =? 0) eqn:E.
  - apply Z.eqb_eq in E. subst r. rewrite Z.div_0_l by lia. lia.
  - apply Z.eqb_neq in E. split.
    + pose proof (Z.mul_div_le (r - 1) chunk Hc). lia.
    + apply Z.div_le_mono; lia.
Qed.

(** What is left after the loop: at most one chunk, and never zero unless
    the residual was zero to begin with. *)
Lemma iters_gt_rest (r chunk : Z) :
  0 <= r -> 0 < chunk ->
  0 <= r - iters_gt r chunk * chunk <= chunk /\
  (0 < r -> 0 < r - iters_gt r chunk * chunk).
Proof.
  intros Hr Hc. unfold iters_gt. destruct (r =? 0) eqn:E.
  - apply Z.eqb_eq in E. lia.
  - apply Z.eqb_neq in E.
    pose proof (Z.div_mod (r - 1) chunk ltac:(lia)) as D.
    pose proof (Z.mod_pos_bound (r - 1) chunk Hc) as B.
    nia.
Qed.

Lemma catchup_gt_closed (fuel : nat) (now chunk step : Z) :
  0 < chunk ->
  forall last acc,
    is_uint last -> is_uint acc ->
    iters_gt (wrap (now - last)) chunk <= Z.of_nat fuel ->
    catchup_gt fuel now chunk step last acc =
    Done (wrap (last + iters_gt (wrap (now - last)) chunk * chunk),
          wrap (acc + iters_gt (wrap (now - last)) chunk * step)).
Proof.
  intros Hc. induction fuel as [|f IH]; intros last acc Hl Ha Hn;
    pose proof (wrap_range (now - last)) as R; simpl.
  - destruct (wrap (now - last) >? chunk) eqn:G.
    + apply Z.gtb_lt in G. rewrite iters_gt_step in Hn by lia.
      pose proof (iters_gt_nonneg (wrap (now - last) - chunk) chunk). lia.
    + assert (wrap (now - last) <= chunk) by (rewrite Z.gtb_ltb in G; apply Z.ltb_ge in G; lia).
      rewrite iters_gt_stop by lia. rewrite !Z.mul_0_l, !Z.add_0_r.
      unfold is_uint in *. rewrite UINT_MOD_eq in *. rewrite !wrap_small by lia. reflexivity.
  - destruct (wrap (now - last) >? chunk) eqn:G.
    + apply Z.gtb_lt in G.
      assert (E : wrap (now - wrap (last + chunk)) = wrap (now - last) - chunk)
        by (apply residual_advance; lia).
      rewrite IH.
      * rewrite E. rewrite (iters_gt_step (wrap (now - last)) chunk) by lia.
        autorewrite with wrap. f_equal. f_equal; f_equal; lia.
      * unfold is_uint. rewrite UINT_MOD_eq. apply wrap_range.
      * unfold is_uint. rewrite UINT_MOD_eq. apply wrap_range.
      * rewrite E. rewrite iters_gt_step in Hn by lia. lia.
    + assert (wrap (now - last) <= chunk) by (rewrite Z.gtb_ltb in G; apply Z.ltb_ge in G; lia).
      rewrite iters_gt_stop by lia. rewrite !Z.mul_0_l, !Z.add_0_r.
      unfold is_uint in *. rewrite UINT_MOD_eq in *. rewrite !wrap_small by lia. reflexivity.
Qed.

(** A loop whose test is already false does nothing, whatever the budget. *)
Lemma catchup_gt_idle (fuel : nat) (now chunk step last acc : Z) :
  wrap (now - last) <= chunk ->
  catchup_gt fuel now chunk step last acc = Done (last, acc).
Proof.
  intros H. destruct fuel; simpl;
    destruct (wrap (now - last) >? chunk) eqn:G; try reflexivity;
    apply Z.gtb_lt in G; lia.
Qed.

(** Whenever the loop exits, at most one chunk is left, and the residual
    has not grown. *)
Lemma catchup_gt_post (fuel : nat) (now chunk step : Z) :
  forall last acc l a,
    catchup_gt fuel now chunk step last acc = Done (l, a) ->
    wrap (now - l) <= chunk /\ wrap (now - l) <= wrap (now - last).
Proof.
  induction fuel as [|f IH]; intros last acc l a; simpl;
    destruct (wrap (now - last) >? chunk) eqn:G; intros E; try discriminate.
  - injection E as <- <-. rewrite Z.gtb_ltb in G. apply Z.ltb_ge in G. lia.
  - apply Z.gtb_lt in G. apply IH in E.
    pose proof (wrap_range (now - l)).
    rewrite residual_advance in E by lia. lia.
  - injection E as <- <-. rewrite Z.gtb_ltb in G. apply Z.ltb_ge in G. lia.
Qed.

(** With a zero chunk and a non-zero residual the loop never exits. *)
Lemma catchup_gt_diverges (fuel : nat) (now step : Z) :
  forall last acc,
    0 < wrap (now - last) ->
    catchup_gt fuel now 0 step last acc = Timeout.
Proof.
  induction fuel as [|f IH]; intros last acc H; simpl;
    destruct (wrap (now - last) >? 0) eqn:G;
    try (rewrite Z.gtb_ltb in G; apply Z.ltb_ge in G; lia).
  - reflexivity.
  - apply IH. rewrite residual_advance by lia. lia.
Qed.

(** The divide alternative leaves the remainder of the residual. *)
Lemma catchup_div_closed (now per last acc : Z) :
  0 < per ->
  catchup_div now per last acc =
    Done (wrap (last + wrap (now - last) / per * per),
          wrap (acc + wrap (now - last) / per)) /\
  wrap (now - wrap (last + wrap (now - last) / per * per))
    = wrap (now - last) mod per.
Proof.
  intros Hp. pose proof (wrap_range (now - last)) as R.
  pose proof (Z.mul_div_le (wrap (now - last)) per Hp) as M.
  assert (0 <= wrap (now - last) / per) by (apply Z.div_pos; lia).
  split.
  - unfold catchup_div. destruct (per =? 0) eqn:E; [apply Z.eqb_eq in E; lia|].
    rewrite wrap_add_r. reflexivity.
  - rewrite residual_advance by nia.
    rewrite (Z.mod_eq (wrap (now - last)) per) by lia. lia.
Qed.

(** ** The tick widener *)

Lemma land_mask (x W : Z) :
  0 <= W <= 32 -> Z.land (wrap x) (2 ^ W - 1) = x mod 2 ^ W.
Proof.
  intros HW. replace (2 ^ W - 1) with (Z.ones W)
    by (rewrite Z.ones_equiv; lia).
  rewrite Z.land_ones by lia. unfold wrap, UINT_MOD, UINT_BITS.
  apply Z.mod_mod_divide. exists (2 ^ (32 - W)).
  rewrite <- Z.pow_add_r by lia. f_equal. lia.
Qed.

Lemma fused_systicks_step (st : Fused.state) (src : hwsrc) (W : Z) :
  0 <= W <= 32 ->
  Fused.use_hw_systicks st = false ->
  Fused.systickshw st = Some src ->
  Fused.mask st = 2 ^ W - 1 ->
  exists st',
    Fused.systicks st = Done (Fused.ticks st', st') /\
    Fused.ticks st' =
      wrap (Fused.ticks st + Fused.tickmult st *
              ((wrap (src (Fused.hw_reads st)) - Fused.last_timer_ticks st) mod 2 ^ W)) /\
    Fused.last_timer_ticks st' = wrap (src (Fused.hw_reads st)).
Proof.
  intros HW Hu Hs Hm. unfold Fused.systicks, Fused.call_systickshw.
  rewrite Hu, Hs. simpl.
  eexists (Fused.set_last_timer_ticks _ (Fused.set_ticks _ (Fused.set_hw_reads _ st))).
  split; [reflexivity|]. simpl.
  rewrite Hm, land_mask by lia. rewrite wrap_add_r. split; [|reflexivity].
  f_equal. lia.
Qed.

Lemma split_systime_tick_step (st : Split.state) (src : hwsrc) (W : Z) :
  0 <= W <= 32 ->
  Split.systime_tick_current st = Split.tick_internal ->
  Split.systickshw st = Some src ->
  Split.mask st = 2 ^ W - 1 ->
  exists st',
    Split.systime_tick st = Done (Split.systime_curr_ticks st', st') /\
    Split.systime_curr_ticks st' =
      wrap (Split.systime_curr_ticks st + Split.tickmult st *
              ((wrap (src (Split.hw_reads st)) - Split.last_timer_ticks st) mod 2 ^ W)) /\
    Split.last_timer_ticks st' = wrap (src (Split.hw_reads st)).
Proof.
  intros HW Hu Hs Hm.
  unfold Split.systime_tick, Split.systime_tick_internal, Split.call_fcn.
  rewrite Hu, Hs. simpl.
  eexists (Split.set_last_timer_ticks _
             (Split.set_systime_curr_ticks _ (Split.set_hw_reads _ st))).
  split; [reflexivity|]. simpl.
  rewrite Hm, land_mask by lia. rewrite wrap_add_r. split; [|reflexivity].
  f_equal. lia.
Qed.

(** C4.  Outside pass-through mode (mask [2^W - 1], [W <= 32]) every query
    of the widener, [systicks] of systime.c and [systime_tick] of
    systime_tick.c alike, reads one raw sample, adds
    [multiplier * ((raw_now - last_raw) mod 2^W)] to the wide tick counter
    (in 32-bit unsigned arithmetic) and stores the sample as [last_raw].
    With a 16-bit timer and multiplier 1, the raw samples 0, 500, 65500,
    300, one per query, give the wide ticks 0, 500, 65500, 65836. *)
Theorem C4_widener_adds_modular_delta
    (fs : Fused.state) (ss : Split.state) (src : hwsrc) (W : Z) :
  0 <= W <= 32 ->
  Fused.use_hw_systicks fs = false ->
  Fused.systickshw fs = Some src ->
  Fused.mask fs = 2 ^ W - 1 ->
  Split.systime_tick_current ss = Split.tick_internal ->
  Split.systickshw ss = Some src ->
  Split.mask ss = 2 ^ W - 1 ->
  (exists fs',
      Fused.systicks fs = Done (Fused.ticks fs', fs') /\
      Fused.ticks fs' =
        wrap (Fused.ticks fs + Fused.tickmult fs *
                ((wrap (src (Fused.hw_reads fs)) - Fused.last_timer_ticks fs) mod 2 ^ W)) /\
      Fused.last_timer_ticks fs' = wrap (src (Fused.hw_reads fs))) /\
  (exists ss',
      Split.systime_tick ss = Done (Split.systime_curr_ticks ss', ss') /\
      Split.systime_curr_ticks ss' =
        wrap (Split.systime_curr_ticks ss + Split.tickmult ss *
                ((wrap (src (Split.hw_reads ss)) - Split.last_timer_ticks ss) mod 2 ^ W)) /\
      Split.last_timer_ticks ss' = wrap (src (Split.hw_reads ss))) /\
  fused_tick_sequence [0; 0; 500; 65500; 300] 16 1 1000 4
    = Done [0; 500; 65500; 65836] /\
  split_tick_sequence [0; 0; 500; 65500; 300] 16 1 4
    = Done [0; 500; 65500; 65836] /\
  (300 - 65500) mod 2 ^ 16 = 336.
Proof.
  intros HW Hfu Hfs Hfm Hsu Hss Hsm.
  split; [eapply fused_systicks_step; eassumption|].
  split; [eapply split_systime_tick_step; eassumption|].
  repeat split; vm_compute; reflexivity.
Qed.

Lemma C4_widener_witness :
  exists fs' ss',
    Fused.systicks fused_before_wrap = Done (65836, fs') /\
    Split.systime_tick split_before_wrap = Done (65836, ss').
Proof.
  destruct (C4_widener_adds_modular_delta fused_before_wrap split_before_wrap
              (samples [0; 0; 500; 65500; 300]) 16)
    as [[fs' [E1 [E2 _]]] [[ss' [E3 [E4 _]]] _]];
    try reflexivity; try lia.
  exists fs', ss'. rewrite E1, E2, E3, E4. split; reflexivity.
Defined.

(** ** The two build alternatives *)

(** C1.  The integer-divide build and the subtract-loop build do not
    return the same sequences: the loops test [>] where the division
    rounds like [>=].  When the wide tick stream stands exactly one
    millisecond (1000 ticks) past the accounted tick, the divide build of
    [systime_ms] and of [systime3] reports 1 ms and the loop build 0 ms;
    with one tick per millisecond and 1000 ticks elapsed, [systime3]
    reports 1000 ms and 1 s in the divide build, 999 ms and 0 s in the
    loop build, and [systime_sec] returns 1 in the divide build, 0 in the
    loop build. *)
Theorem C1_divide_and_loop_builds_disagree :
  split_ms_sequence true 4 [0; 0; 1000] 1000 1 = Done [1] /\
  split_ms_sequence false 4 [0; 0; 1000] 1000 1 = Done [0] /\
  split_sec_sequence true 64 [0; 0; 1000] 1 1 = Done [1] /\
  split_sec_sequence false 64 [0; 0; 1000] 1 1 = Done [0] /\
  fused_ms_sec_sequence true 4 [0; 1000] 1000 1 = Done [(1, 0)] /\
  fused_ms_sec_sequence false 4 [0; 1000] 1000 1 = Done [(0, 0)] /\
  fused_ms_sec_sequence true 16 [0; 1000] 1 1 = Done [(1000, 1)] /\
  fused_ms_sec_sequence false 16 [0; 1000] 1 1 = Done [(999, 0)].
Proof. repeat split; vm_compute; reflexivity. Qed.

(** C2.  In the subtract-loop build (the one the sources select) a call of
    the millisecond accumulator can leave a residual of a whole
    millisecond: with 1000 ticks per millisecond and the wide tick counter
    at 1000, [systime_ms] (and likewise [systime3]) returns 0 and leaves
    [wide_ticks - last_aligned_tick = 1000], which is not below
    [ticks1ms]; the divide build folds that millisecond in and leaves
    residual 0. *)
Theorem C2_loop_build_leaves_whole_millisecond :
  (exists st st',
      split_started false 4 (samples [0; 0; 1000]) 1000 = Done st /\
      Split.systime_ms false 4 st = Done (0, st') /\
      Split.ticks1ms st' = 1000 /\
      wrap (Split.systime_curr_ticks st' - Split.lastsystime_ticks st') = 1000) /\
  (exists st st',
      split_started true 4 (samples [0; 0; 1000]) 1000 = Done st /\
      Split.systime_ms true 4 st = Done (1, st') /\
      Split.ticks1ms st' = 1000 /\
      wrap (Split.systime_curr_ticks st' - Split.lastsystime_ticks st') = 0) /\
  (exists st st',
      Fused.systime_init false 32 (Some (samples [0; 1000])) 16 1 1000 Fused.boot
        = Done st /\
      Fused.systime3 false 4 None st = Done (0, None, st') /\
      Fused.ticks1ms st' = 1000 /\
      wrap (Fused.ticks st' - Fused.last_systime_ticks st') = 1000).
Proof.
  split; [|split]; do 2 eexists;
    (split; [vm_compute; reflexivity|]);
    (split; [vm_compute; reflexivity|]);
    split; reflexivity.
Qed.

(** ** Initialisation *)







(** ** A fixed hardware reading *)

(** Once the millisecond catch-up of either build has run for a tick
    value, running it again for the same tick value changes nothing. *)
Lemma ms_catchup_stable (div_inst : bool) (fuel fuel' : nat)
    (now t1 t50 lst cms l m : Z) :
  0 <= t1 ->
  (if div_inst then catchup_div now t1 lst cms
   else '(l, m) <- catchup_gt fuel now t50 50 lst cms ;;
        catchup_gt fuel now t1 1 l m) = Done (l, m) ->
  (if div_inst then catchup_div now t1 l m
   else '(l, m) <- catchup_gt fuel' now t50 50 l m ;;
        catchup_gt fuel' now t1 1 l m) = Done (l, m).
Proof.
  intros Ht H. destruct div_inst.
  - unfold catchup_div in H. destruct (t1 =? 0) eqn:Z0; [discriminate|].
    apply Z.eqb_neq in Z0. assert (Hp : 0 < t1) by lia.
    destruct (catchup_div_closed now t1 lst cms Hp) as [_ R].
    injection H as <- <-. rewrite wrap_add_r.
    unfold catchup_div. rewrite (proj2 (Z.eqb_neq t1 0) Z0).
    rewrite R, Z.mod_div by lia. rewrite Z.mul_0_l.
    change (wrap 0) with 0. rewrite !Z.add_0_r, !wrap_wrap. reflexivity.
  - destruct (catchup_gt fuel now t50 50 lst cms) as [[l1 m1]| |] eqn:E1;
      simpl in H; try discriminate.
    apply catchup_gt_post in E1. pose proof (catchup_gt_post _ _ _ _ _ _ _ _ H) as E2.
    rewrite catchup_gt_idle by lia. simpl. apply catchup_gt_idle. lia.
Qed.

Ltac split_state_cases st :=
  destruct st as [k hw cur ltt ct mk tm lst t1 t50 cms cs lms];
  unfold Split.systime_ms, Split.systime_tick, Split.systime_tick_internal,
    Split.call_fcn, Split.source in *;
  simpl in *;
  destruct cur as [|[f|]]; [destruct hw as [f|]| |]; simpl in *.

(** The millisecond query neither reads nor writes the statics of
    systime_sec.c. *)
Lemma split_ms_frame (div_inst : bool) (fuel : nat) (a b : Z) (st : Split.state) :
  Split.systime_ms div_inst fuel
    (Split.set_systime_curr_sec b (Split.set_last_ms a st)) =
  on_state (fun s => Split.set_systime_curr_sec b (Split.set_last_ms a s))
    (Split.systime_ms div_inst fuel st).
Proof.
  split_state_cases st; try reflexivity;
    (destruct div_inst;
     [ destruct (catchup_div _ _ _ _) as [[l m]| |]; reflexivity
     | destruct (catchup_gt _ _ _ _ _ _) as [[l m]| |]; simpl; try reflexivity;
       destruct (catchup_gt _ _ _ _ _ _) as [[l' m']| |]; reflexivity ]).
Qed.

(** What a millisecond query leaves alone. *)
Lemma split_ms_keeps (div_inst : bool) (fuel : nat) (m : Z) (st st1 : Split.state) :
  Split.systime_ms div_inst fuel st = Done (m, st1) ->
  m = Split.systime_curr_ms st1 /\
  Split.hw_reads st1 = S (Split.hw_reads st) /\
  Split.source st1 = Split.source st /\
  Split.ticks1ms st1 = Split.ticks1ms st /\
  Split.ticks50ms st1 = Split.ticks50ms st /\
  Split.last_ms st1 = Split.last_ms st /\
  Split.systime_curr_sec st1 = Split.systime_curr_sec st.
Proof.
  intros H. split_state_cases st; try discriminate;
    (destruct div_inst;
     [ destruct (catchup_div _ _ _ _) as [[l m']| |]; try discriminate
     | destruct (catchup_gt _ _ _ _ _ _) as [[l m']| |]; simpl in *; try discriminate;
       destruct (catchup_gt _ _ _ _ _ _) as [[l' m'']| |]; try discriminate ]);
    simpl in *; injection H as <- <-; simpl; repeat split; reflexivity.
Qed.

(** Under a fixed hardware reading a second millisecond query returns what
    the first returned and changes nothing but the count of samples. *)
Lemma split_ms_stable (div_inst : bool) (fuel fuel' : nat) (src : hwsrc)
    (m : Z) (st st1 : Split.state) :
  Split.source st = Some src ->
  steady src (Split.hw_reads st) ->
  0 <= Split.ticks1ms st ->
  Split.systime_ms div_inst fuel st = Done (m, st1) ->
  Split.systime_ms div_inst fuel' st1 =
    Done (m, Split.set_hw_reads (S (Split.hw_reads st1)) st1).
Proof.
  intros Hs Hst Ht H. split_state_cases st; try discriminate;
    injection Hs as ->.
  - (* through systime_tick_internal *)
    match type of H with
    | context [catchup_gt _ ?now _ _ _ _] => set (n := now) in *
    end.
    destruct (if div_inst then catchup_div n t1 lst cms
              else '(l, m) <- catchup_gt fuel n t50 50 lst cms ;;
                   catchup_gt fuel n t1 1 l m) as [[l m']| |] eqn:E;
      simpl in H; try discriminate.
    injection H as <- <-. simpl.
    rewrite (Hst (S k)) by lia.
    rewrite Z.sub_diag. change (wrap 0) with 0.
    rewrite Z.land_0_l, Z.mul_0_l. change (wrap 0) with 0.
    rewrite Z.add_0_r. subst n. rewrite wrap_wrap.
    rewrite (ms_catchup_stable div_inst fuel fuel' _ _ _ _ _ _ _ Ht E).
    reflexivity.
  - (* the source is called directly *)
    destruct (if div_inst then catchup_div (wrap (src k)) t1 lst cms
              else '(l, m) <- catchup_gt fuel (wrap (src k)) t50 50 lst cms ;;
                   catchup_gt fuel (wrap (src k)) t1 1 l m) as [[l m']| |] eqn:E;
      simpl in H; try discriminate.
    injection H as <- <-. simpl.
    rewrite (Hst (S k)) by lia.
    rewrite (ms_catchup_stable div_inst fuel fuel' _ _ _ _ _ _ _ Ht E).
    reflexivity.
Qed.

(** What each build of [systime_ms] leaves between the tick value it read
    and the accounted tick: less than one millisecond in the divide
    build, at most one millisecond in the loop build. *)
Lemma split_ms_div_residual (fuel : nat) (now m : Z) (st st0 st' : Split.state) :
  0 < Split.ticks1ms st ->
  Split.systime_tick st = Done (now, st0) ->
  Split.systime_ms true fuel st = Done (m, st') ->
  wrap (now - Split.lastsystime_ticks st') < Split.ticks1ms st'.
Proof.
  intros Ht Hq H. split_state_cases st; try discriminate;
    injection Hq as <- <-;
    match type of H with
    | context [catchup_div ?n ?p ?l ?a] =>
        destruct (catchup_div_closed n p l a Ht) as [E R]; rewrite E in H
    end;
    simpl in H; injection H as <- <-; simpl; rewrite R;
    apply Z.mod_pos_bound; exact Ht.
Qed.

Lemma split_ms_loop_residual (fuel : nat) (now m : Z) (st st0 st' : Split.state) :
  Split.systime_tick st = Done (now, st0) ->
  Split.systime_ms false fuel st = Done (m, st') ->
  wrap (now - Split.lastsystime_ticks st') <= Split.ticks1ms st'.
Proof.
  intros Hq H. split_state_cases st; try discriminate;
    injection Hq as <- <-;
    match type of H with
    | context [catchup_gt fuel ?n ?c 50 ?l ?a] =>
        destruct (catchup_gt fuel n c 50 l a) as [[l1 m1]| |]; simpl in H;
        try discriminate
    end;
    match type of H with
    | context [catchup_gt fuel ?n ?c 1 ?l ?a] =>
        destruct (catchup_gt fuel n c 1 l a) as [[l2 m2]| |] eqn:E2; simpl in H;
        try discriminate
    end;
    injection H as <- <-; simpl; apply catchup_gt_post in E2; lia.
Qed.

Lemma steady_later (src : hwsrc) (k k' : nat) :
  steady src k -> (k <= k')%nat -> steady src k'.
Proof.
  intros H L j Hj. rewrite (H j), (H k') by lia. reflexivity.
Qed.

(** The seconds loop of systime_sec.c under a fixed hardware reading: the
    millisecond value [m] it tests stays the same on every round, so it
    makes [(m - last_ms) / 1000] rounds. *)
Lemma split_sec_loop_steady (fuel : nat) (src : hwsrc) (m : Z) :
  forall (outer : nat) (st st1 : Split.state),
    Split.source st = Some src ->
    steady src (Split.hw_reads st) ->
    0 <= Split.ticks1ms st ->
    is_uint (Split.last_ms st) ->
    is_uint (Split.systime_curr_sec st) ->
    Split.systime_ms false fuel st = Done (m, st1) ->
    wrap (m - Split.last_ms st) / 1000 <= Z.of_nat outer ->
    exists st',
      Split.systime_sec_loop fuel outer st = Done st' /\
      Split.systime_curr_sec st' =
        wrap (Split.systime_curr_sec st + wrap (m - Split.last_ms st) / 1000) /\
      Split.last_ms st' =
        wrap (Split.last_ms st + 1000 * (wrap (m - Split.last_ms st) / 1000)) /\
      wrap (m - Split.last_ms st') < 1000 /\
      Split.systime_curr_ms st' = m /\
      Split.systime_curr_ticks st' = Split.systime_curr_ticks st1 /\
      Split.lastsystime_ticks st' = Split.lastsystime_ticks st1 /\
      (forall fuel',
          Split.systime_ms false fuel' st' =
            Done (m, Split.set_hw_reads (S (Split.hw_reads st')) st')).
Proof.
  induction outer as [|o IH]; intros st st1 Hs Hst Ht Hl Hc H Hn;
    pose proof (split_ms_keeps _ _ _ _ _ H) as [Km [Kr [Ksrc [Kt [_ [Kl Kc]]]]]];
    pose proof (wrap_range (m - Split.last_ms st)) as R;
    unfold is_uint in Hl, Hc; rewrite UINT_MOD_eq in Hl, Hc.
  - (* no round may be made: the residual is below 1000 *)
    assert (Hq : wrap (m - Split.last_ms st) / 1000 = 0).
    { apply Z.le_antisymm; [exact Hn | apply Z.div_pos; lia]. }
    assert (Hlt : wrap (m - Split.last_ms st) < 1000).
    { apply Z.div_small_iff in Hq; lia. }
    exists st1. simpl. rewrite H. simpl. rewrite Kl.
    destruct (wrap (m - Split.last_ms st) >=? 1000) eqn:G;
      [rewrite Z.geb_leb in G; apply Z.leb_le in G; lia|].
    rewrite Hq, Z.mul_0_r, !Z.add_0_r, Kc, !wrap_small by lia.
    try rewrite Kl. repeat (split; [solve [auto | lia]|]).
    intros fuel'. eapply split_ms_stable; eassumption.
  - simpl. rewrite H. simpl. rewrite Kl.
    destruct (wrap (m - Split.last_ms st) >=? 1000) eqn:G.
    + rewrite Z.geb_leb in G. apply Z.leb_le in G.
      set (st2 := Split.set_systime_curr_sec (wrap (Split.systime_curr_sec st1 + 1))
                    (Split.set_last_ms (wrap (Split.last_ms st + 1000)) st1)).
      assert (Hres : wrap (m - wrap (Split.last_ms st + 1000))
                     = wrap (m - Split.last_ms st) - 1000)
        by (apply residual_advance; lia).
      assert (Hdiv : wrap (m - Split.last_ms st) / 1000
                     = (wrap (m - Split.last_ms st) - 1000) / 1000 + 1).
      { replace (wrap (m - Split.last_ms st))
          with ((wrap (m - Split.last_ms st) - 1000) + 1 * 1000) at 1 by lia.
        apply Z.div_add. lia. }
      destruct (IH st2
                  (Split.set_systime_curr_sec (wrap (Split.systime_curr_sec st1 + 1))
                     (Split.set_last_ms (wrap (Split.last_ms st + 1000))
                        (Split.set_hw_reads (S (Split.hw_reads st1)) st1))))
        as [st' [E [Ec [El [Elt [Em [Et [Elst Estab]]]]]]]].
      * subst st2. rewrite <- Hs, <- Ksrc. destruct st1; reflexivity.
      * apply steady_later with (k := Split.hw_reads st); [exact Hst|].
        subst st2. simpl. lia.
      * subst st2. simpl. lia.
      * subst st2. simpl. unfold is_uint. rewrite UINT_MOD_eq. apply wrap_range.
      * subst st2. simpl. unfold is_uint. rewrite UINT_MOD_eq. apply wrap_range.
      * subst st2. rewrite split_ms_frame.
        rewrite (split_ms_stable false fuel fuel src m st st1) by assumption.
        reflexivity.
      * subst st2. simpl. rewrite Hres. lia.
      * exists st'. subst st2. simpl in *.
        rewrite Hres in *. rewrite Kc in *.
        split; [exact E|].
        split; [rewrite Ec, Hdiv; autorewrite with wrap; f_equal; lia|].
        split; [rewrite El, Hdiv; autorewrite with wrap; f_equal; lia|].
        repeat (split; [solve [auto | lia]|]). exact Estab.
    + rewrite Z.geb_leb in G. apply Z.leb_gt in G.
      assert (Hq : wrap (m - Split.last_ms st) / 1000 = 0)
        by (apply Z.div_small; lia).
      exists st1.
      rewrite Hq, Z.mul_0_r, !Z.add_0_r, Kc, !wrap_small by lia.
      try rewrite Kl. repeat (split; [solve [auto | lia]|]).
      intros fuel'. eapply split_ms_stable; eassumption.
Qed.

(** ** Termination of the catch-up loops *)

Lemma wrap_is_uint (z : Z) : is_uint (wrap z).
Proof. unfold is_uint. rewrite UINT_MOD_eq. apply wrap_range. Qed.

(** A loop over a fixed [now] with a positive chunk: it exits after
    [n <= residual / chunk] rounds, each of which takes one chunk off the
    residual. *)
Lemma catchup_gt_returns (fuel : nat) (now chunk step last acc : Z) :
  0 < chunk -> is_uint last -> is_uint acc ->
  wrap (now - last) / chunk <= Z.of_nat fuel ->
  exists n,
    0 <= n <= wrap (now - last) / chunk /\
    catchup_gt fuel now chunk step last acc =
      Done (wrap (last + n * chunk), wrap (acc + n * step)) /\
    wrap (now - wrap (last + n * chunk)) = wrap (now - last) - n * chunk /\
    wrap (now - last) - n * chunk <= chunk.
Proof.
  intros Hc Hl Ha Hf. pose proof (wrap_range (now - last)) as R.
  destruct (iters_gt_bound (wrap (now - last)) chunk) as [B1 B2]; [lia|lia|].
  destruct (iters_gt_rest (wrap (now - last)) chunk) as [[B3 B4] _]; [lia|lia|].
  pose proof (iters_gt_nonneg (wrap (now - last)) chunk) as B5.
  exists (iters_gt (wrap (now - last)) chunk).
  split; [lia|]. split; [apply catchup_gt_closed; auto; lia|].
  split; [apply residual_advance; lia | lia].
Qed.

Lemma div_le_self (r c : Z) : 0 <= r -> 0 < c -> r / c <= r.
Proof.
  intros Hr Hc. apply Z.div_le_upper_bound; [lia|]. nia.
Qed.

(** With a budget of 2^32 rounds every loop over a positive chunk exits. *)
Lemma catchup_gt_total (fuel : nat) (now chunk step last acc : Z) :
  0 < chunk -> is_uint last -> is_uint acc ->
  4294967296 <= Z.of_nat fuel ->
  exists l a,
    catchup_gt fuel now chunk step last acc = Done (l, a) /\
    is_uint l /\ is_uint a.
Proof.
  intros Hc Hl Ha Hf. pose proof (wrap_range (now - last)) as R.
  pose proof (div_le_self (wrap (now - last)) chunk ltac:(lia) Hc).
  destruct (catchup_gt_returns fuel now chunk step last acc) as [n [_ [E _]]];
    auto; [lia|].
  do 2 eexists. split; [exact E|]. split; apply wrap_is_uint.
Qed.

Lemma split_ms_returns (fuel : nat) (src : hwsrc) (st : Split.state) :
  Split.wf st ->
  Split.source st = Some src ->
  0 < Split.ticks1ms st ->
  0 < Split.ticks50ms st ->
  4294967296 <= Z.of_nat fuel ->
  exists m st1, Split.systime_ms false fuel st = Done (m, st1).
Proof.
  intros Hwf Hs H1 H50 Hf. unfold Split.wf in Hwf.
  split_state_cases st; try discriminate;
    destruct Hwf as [_ [_ [_ [_ [Hl [_ [_ [Hm _]]]]]]]];
    match goal with
    | |- context [catchup_gt fuel ?n ?c50 50 ?l0 ?a0] =>
        destruct (catchup_gt_total fuel n c50 50 l0 a0)
          as [l [a [E [Hl' Ha']]]]; auto;
        rewrite E; simpl
    end;
    match goal with
    | |- context [catchup_gt fuel ?n ?c1 1 ?l0 ?a0] =>
        destruct (catchup_gt_total fuel n c1 1 l0 a0)
          as [l2 [a2 [E2 _]]]; auto;
        rewrite E2; simpl; eauto
    end.
Qed.

Lemma fused_systime3_returns (fuel : nat) (src : hwsrc)
    (t : option Fused.systime3_t) (st : Fused.state) :
  Fused.wf st ->
  Fused.systickshw st = Some src ->
  0 < Fused.ticks1ms st ->
  0 < Fused.ticks10ms st ->
  0 < Fused.ticks100ms st ->
  4294967296 <= Z.of_nat fuel ->
  exists ms t' st', Fused.systime3 false fuel t st = Done (ms, t', st').
Proof.
  intros Hwf Hs H1 H10 H100 Hf. unfold Fused.wf in Hwf.
  destruct st as [k tk tm mk t1 t10 t100 ms sc so hwm ltt lst lms hw].
  unfold Fused.systime3, Fused.systicks, Fused.call_systickshw, Fused.accumulate.
  simpl in *. subst hw.
  destruct Hwf as [_ [_ [_ [_ [_ [_ [Hms [Hsc [_ [_ [Hlst Hlms]]]]]]]]]]].
  destruct hwm; simpl;
    match goal with
    | |- context [catchup_gt fuel ?n t100 100 lst ms] =>
        destruct (catchup_gt_total fuel n t100 100 lst ms)
          as [l [a [E [Hl Ha]]]]; auto;
        rewrite E; simpl;
        destruct (catchup_gt_total fuel n t10 10 l a)
          as [l2 [a2 [E2 [Hl2 Ha2]]]]; auto;
        rewrite E2; simpl;
        destruct (catchup_gt_total fuel n t1 1 l2 a2)
          as [l3 [a3 [E3 [Hl3 Ha3]]]]; auto;
        rewrite E3; simpl;
        destruct (catchup_gt_total fuel a3 1000 1 lms sc)
          as [l4 [a4 [E4 _]]]; auto; try lia;
        rewrite E4; simpl; eauto
    end.
Qed.

Lemma split_sec_returns (fuel : nat) (src : hwsrc) (st : Split.state) :
  Split.wf st ->
  Split.source st = Some src ->
  steady src (Split.hw_reads st) ->
  0 < Split.ticks1ms st ->
  0 < Split.ticks50ms st ->
  4294967296 <= Z.of_nat fuel ->
  exists s st', Split.systime_sec false fuel st = Done (s, st').
Proof.
  intros Hwf Hs Hst H1 H50 Hf.
  destruct (split_ms_returns fuel src st Hwf Hs H1 H50 Hf) as [m [st1 H]].
  pose proof (wrap_range (m - Split.last_ms st)) as R.
  pose proof (div_le_self (wrap (m - Split.last_ms st)) 1000 ltac:(lia) ltac:(lia)).
  destruct Hwf as [_ [_ [_ [_ [_ [_ [_ [_ [Hc Hl]]]]]]]]].
  destruct (split_sec_loop_steady fuel src m fuel st st1) as [st' [E _]];
    auto; try lia.
  unfold Split.systime_sec. rewrite E. simpl. eauto.
Qed.

(** A zero chunk with the tick counter past the accounted tick: the first
    loop of the millisecond query never exits. *)
Lemma split_ms_hangs (now : Z) (st st1 : Split.state) :
  Split.systime_tick st = Done (now, st1) ->
  Split.ticks50ms st = 0 ->
  0 < wrap (now - Split.lastsystime_ticks st) ->
  forall fuel, Split.systime_ms false fuel st = Timeout.
Proof.
  intros Hq H50 Hr fuel.
  split_state_cases st; try discriminate; subst t50;
    injection Hq as <- <-; simpl in *;
    rewrite catchup_gt_diverges by assumption; reflexivity.
Qed.

Lemma fused_systime3_hangs (now : Z) (st st1 : Fused.state) :
  (if Fused.use_hw_systicks st then Fused.call_systickshw st
   else Fused.systicks st) = Done (now, st1) ->
  Fused.ticks100ms st = 0 ->
  0 < wrap (now - Fused.last_systime_ticks st) ->
  forall fuel t, Fused.systime3 false fuel t st = Timeout.
Proof.
  intros Hq H100 Hr fuel t.
  destruct st as [k tk tm mk t1 t10 t100 ms sc so hwm ltt lst lms hw].
  unfold Fused.systime3, Fused.systicks, Fused.call_systickshw, Fused.accumulate in *.
  simpl in *. subst t100.
  destruct hwm; destruct hw as [f|]; simpl in *; try discriminate;
    injection Hq as <- <-; simpl in *;
    rewrite catchup_gt_diverges by assumption; reflexivity.
Qed.

(** C7, as amended.  Every catch-up loop over a fixed [now] whose chunk is
    positive exits after at most residual/chunk rounds, each taking one
    chunk off the unsigned residual.  The chunks are positive for every
    [ticks_per_ms >= 1] whose multiples by 10, 50 and 100 do not wrap to
    zero in 32 bits; for such a constant the loops of [systime_ms] and of
    [systime3] terminate from every state that has a timer installed.  The
    seconds loop of [systime_sec], whose test queries [systime_ms()] anew
    on every round, terminates when the hardware reading stays fixed
    during the call. *)
Theorem C7_catchup_loops_terminate
    (tpm : Z) (src : hwsrc) (fs : Fused.state) (ss : Split.state)
    (t : option Fused.systime3_t) (now chunk step last acc : Z) (fuel : nat) :
  1 <= tpm ->
  wrap (10 * tpm) <> 0 -> wrap (50 * tpm) <> 0 -> wrap (100 * tpm) <> 0 ->
  0 < chunk -> is_uint last -> is_uint acc ->
  wrap (now - last) / chunk <= Z.of_nat fuel ->
  Fused.wf fs -> Fused.systickshw fs = Some src ->
  Fused.ticks1ms fs = tpm ->
  Fused.ticks10ms fs = wrap (10 * tpm) ->
  Fused.ticks100ms fs = wrap (100 * tpm) ->
  Split.wf ss -> Split.source ss = Some src ->
  Split.ticks1ms ss = tpm ->
  Split.ticks50ms ss = wrap (50 * tpm) ->
  (exists n,
      0 <= n <= wrap (now - last) / chunk /\
      catchup_gt fuel now chunk step last acc =
        Done (wrap (last + n * chunk), wrap (acc + n * step)) /\
      wrap (now - wrap (last + n * chunk)) = wrap (now - last) - n * chunk /\
      wrap (now - last) - n * chunk <= chunk) /\
  (exists fuel0, forall f, (fuel0 <= f)%nat ->
      returns (Split.systime_ms false f ss)) /\
  (exists fuel0, forall f, (fuel0 <= f)%nat ->
      returns (Fused.systime3 false f t fs)) /\
  (steady src (Split.hw_reads ss) ->
   exists fuel0, forall f, (fuel0 <= f)%nat ->
      returns (Split.systime_sec false f ss)).
Proof.
  intros Ht N10 N50 N100 Hc Hl Ha Hf Fwf Fs F1 F10 F100 Swf Ss S1 S50.
  pose proof (wrap_range (10 * tpm)). pose proof (wrap_range (50 * tpm)).
  pose proof (wrap_range (100 * tpm)).
  assert (Big : forall f, (Z.to_nat 4294967296 <= f)%nat -> 4294967296 <= Z.of_nat f).
  { intros f L. apply Nat2Z.inj_le in L. rewrite Z2Nat.id in L by lia. exact L. }
  split; [apply catchup_gt_returns; assumption|].
  split; [|split].
  - exists (Z.to_nat 4294967296). intros f L.
    destruct (split_ms_returns f src ss) as [m [st1 E]]; auto; try lia.
    exists (m, st1). exact E.
  - exists (Z.to_nat 4294967296). intros f L.
    destruct (fused_systime3_returns f src t fs) as [m [t' [st1 E]]]; auto; try lia.
    exists (m, t', st1). exact E.
  - intros Hst. exists (Z.to_nat 4294967296). intros f L.
    destruct (split_sec_returns f src ss) as [m [st1 E]]; auto; try lia.
    exists (m, st1). exact E.
Qed.

Lemma C7_loops_witness :
  (exists n,
      0 <= n <= 5 /\
      catchup_gt 5 5000 1000 1 0 0 = Done (wrap (0 + n * 1000), wrap (0 + n * 1))) /\
  (exists fuel0, forall f, (fuel0 <= f)%nat ->
      returns (Split.systime_ms false f split_running)) /\
  (exists fuel0, forall f, (fuel0 <= f)%nat ->
      returns (Fused.systime3 false f None fused_running)).
Proof.
  assert (U : forall z, 0 <= z < 4294967296 -> is_uint z)
    by (intros z Hz; unfold is_uint; rewrite UINT_MOD_eq; exact Hz).
  destruct (C7_catchup_loops_terminate 1000 (held [0; 0] 5000)
              fused_running split_running None 5000 1000 1 0 0 5%nat)
    as [[n [Hn [E _]]] [A [B _]]];
    try reflexivity; try lia;
    try (rewrite wrap_small by lia; lia);
    try (apply U; lia);
    try (repeat split; apply U; simpl; lia).
  split; [|split].
  - exists n. split; [exact Hn | exact E].
  - exact A.
  - exact B.
Defined.

(** ** The seconds loop against a timer that keeps running *)

Lemma catchup_gt_no_fault (fuel : nat) (now chunk step : Z) :
  forall last acc, catchup_gt fuel now chunk step last acc <> Fault.
Proof.
  induction fuel as [|f IH]; intros last acc; simpl;
    destruct (wrap (now - last) >? chunk); try discriminate. apply IH.
Qed.

Lemma catchup_gt_done_closed (fuel : nat) (now chunk step : Z) :
  0 < chunk ->
  forall last acc l a,
    is_uint last -> is_uint acc ->
    catchup_gt fuel now chunk step last acc = Done (l, a) ->
    l = wrap (last + iters_gt (wrap (now - last)) chunk * chunk) /\
    a = wrap (acc + iters_gt (wrap (now - last)) chunk * step).
Proof.
  intros Hc. induction fuel as [|f IH]; intros last acc l a Hl Ha;
    pose proof (wrap_range (now - last)) as R; simpl;
    destruct (wrap (now - last) >? chunk) eqn:G; intros E; try discriminate.
  - injection E as <- <-.
    rewrite Z.gtb_ltb in G. apply Z.ltb_ge in G.
    rewrite iters_gt_stop by lia. rewrite !Z.mul_0_l, !Z.add_0_r.
    unfold is_uint in *. rewrite UINT_MOD_eq in *. rewrite !wrap_small by lia. auto.
  - apply Z.gtb_lt in G. apply IH in E; try apply wrap_is_uint.
    rewrite residual_advance in E by lia.
    rewrite (iters_gt_step (wrap (now - last)) chunk) by lia.
    destruct E as [-> ->]. autorewrite with wrap. split; f_equal; lia.
  - injection E as <- <-.
    rewrite Z.gtb_ltb in G. apply Z.ltb_ge in G.
    rewrite iters_gt_stop by lia. rewrite !Z.mul_0_l, !Z.add_0_r.
    unfold is_uint in *. rewrite UINT_MOD_eq in *. rewrite !wrap_small by lia. auto.
Qed.

Lemma racing_next (k : nat) : racing (S k) = racing k + 1000.
Proof. unfold racing. lia. Qed.

(** One millisecond query against [racing]: if it returns, a whole second
    has gone by. *)
Lemma racing_ms_step (ms_fuel : nat) (st : Split.state) :
  racing_inv st ->
  Split.systime_ms false ms_fuel st = Timeout \/
  exists st1,
    Split.systime_ms false ms_fuel st = Done (Split.systime_curr_ms st1, st1) /\
    wrap (Split.systime_curr_ms st1 - Split.last_ms st1) = 1999 /\
    forall a b,
      a = wrap (Split.last_ms st1 + 1000) ->
      racing_inv (Split.set_systime_curr_sec b (Split.set_last_ms a st1)).
Proof.
  intros [Hcur [H1 [H50 [HL [HM [Hr Hs]]]]]].
  destruct st as [k hw cur ltt ct mk tm L t1 t50 M C P].
  simpl in *. subst cur t1 t50.
  unfold Split.systime_ms, Split.systime_tick, Split.call_fcn. simpl.
  destruct (catchup_gt ms_fuel (wrap (racing k)) 50 50 L M) as [[l a]| |] eqn:E1;
    simpl; [| left; reflexivity | exfalso; eapply catchup_gt_no_fault; exact E1].
  apply catchup_gt_done_closed in E1; try assumption; try lia.
  rewrite Hr in E1. change (iters_gt 1001 50) with 20 in E1.
  change (20 * 50) with 1000 in E1. destruct E1 as [-> ->].
  assert (R1 : wrap (wrap (racing k) - wrap (L + 1000)) = 1).
  { rewrite residual_advance by lia. lia. }
  rewrite catchup_gt_idle by lia. simpl. right.
  eexists (Split.set_lastsystime_ticks _ (Split.set_systime_curr_ms _
             (Split.set_hw_reads _ _))).
  split; [reflexivity|]. simpl.
  assert (R2 : wrap (wrap (M + 1000) - P) = 1999).
  { rewrite wrap_sub_l. replace (M + 1000 - P) with ((M - P) + 1000) by lia.
    rewrite <- wrap_add_l, Hs. reflexivity. }
  split; [exact R2|]. intros a b ->. unfold racing_inv. simpl.
  repeat (split; [solve [reflexivity | apply wrap_is_uint]|]).
  split.
  - rewrite racing_next, wrap_sub_l, wrap_sub_r.
    replace (racing k + 1000 - (L + 1000)) with (racing k - L) by lia.
    rewrite <- wrap_sub_l. exact Hr.
  - rewrite residual_advance by lia. lia.
Qed.

Lemma racing_sec_loop_never_exits (ms_fuel : nat) :
  forall (fuel : nat) (st : Split.state),
    racing_inv st -> Split.systime_sec_loop ms_fuel fuel st = Timeout.
Proof.
  induction fuel as [|f IH]; intros st Hinv; simpl;
    destruct (racing_ms_step ms_fuel st Hinv) as [E | [st1 [E [R Hn]]]];
    rewrite E; simpl; try reflexivity; rewrite R; simpl.
  - reflexivity.
  - apply IH. apply Hn. reflexivity.
Qed.

(** C7 as stated fails.  2^31 ticks per millisecond make
    [ticks50ms = 50 * 2^31 mod 2^32 = 0], and 2^30 ticks per millisecond
    make [ticks100ms = 0]; once the tick counter has moved by one tick,
    the first loop of [systime_ms], respectively of [systime3], never
    exits.  And the seconds loop of [systime_sec] does not take a fixed
    chunk off a fixed residual: its test reads the timer anew, and against
    a timer that advances a second's worth of ticks between two reads it
    never exits. *)
Lemma C7_some_loops_never_exit :
  (exists st,
      split_started false 0 (samples [0; 0; 1]) 2147483648 = Done st /\
      Split.ticks1ms st = 2147483648 /\
      Split.ticks50ms st = 0 /\
      forall fuel, Split.systime_ms false fuel st = Timeout) /\
  (exists st,
      Fused.systime_init false 32 (Some (samples [0; 1])) 16 1 1073741824 Fused.boot
        = Done st /\
      Fused.ticks1ms st = 1073741824 /\
      Fused.ticks100ms st = 0 /\
      forall fuel t, Fused.systime3 false fuel t st = Timeout) /\
  (exists st,
      (st0 <- Split.systime_tick_init 32 (Some racing) 32 1 Split.boot ;;
       Split.systime_time_init false 64 1 st0) = Done st /\
      Split.ticks1ms st = 1 /\
      Split.ticks50ms st = 50 /\
      forall fuel, Split.systime_sec false fuel st = Timeout).
Proof.
  split; [|split].
  - eexists. split; [vm_compute; reflexivity|].
    split; [reflexivity|]. split; [reflexivity|].
    eapply split_ms_hangs with (now := 1);
      [vm_compute; reflexivity | reflexivity | vm_compute; reflexivity].
  - eexists. split; [vm_compute; reflexivity|].
    split; [reflexivity|]. split; [reflexivity|].
    eapply fused_systime3_hangs with (now := 1);
      [vm_compute; reflexivity | reflexivity | vm_compute; reflexivity].
  - eexists. split; [vm_compute; reflexivity|].
    split; [reflexivity|]. split; [reflexivity|].
    intros fuel. unfold Split.systime_sec.
    rewrite racing_sec_loop_never_exits; [reflexivity|].
    unfold racing_inv. simpl.
    repeat (split; [solve [reflexivity
                          | unfold is_uint; rewrite UINT_MOD_eq; lia]|]).
    reflexivity.
Qed.

(** ** Setting and adjusting the seconds *)

(** [systime_sec] returns the seconds counter it leaves. *)
Lemma split_sec_ret (div_inst : bool) (fuel : nat) (now : Z) (st st' : Split.state) :
  Split.systime_sec div_inst fuel st = Done (now, st') ->
  now = Split.systime_curr_sec st'.
Proof.
  unfold Split.systime_sec. destruct div_inst.
  - destruct (Split.systime_ms true fuel st) as [[ms st1]| |]; simpl; try discriminate.
    unfold catchup_div. simpl. intros H. injection H as <- <-. reflexivity.
  - destruct (Split.systime_sec_loop fuel fuel st) as [st1| |]; simpl; try discriminate.
    intros H. injection H as <- <-. reflexivity.
Qed.

(** [systime_sec_set(T)] is a seconds query followed by one store: the
    seconds counter becomes [T]. *)
Lemma split_sec_set_eq (div_inst : bool) (fuel : nat) (T : Z) (st : Split.state) :
  is_uint T ->
  Split.systime_sec_set div_inst fuel T st =
    '(_, st') <- Split.systime_sec div_inst fuel st ;;
    Done (Split.set_systime_curr_sec T st').
Proof.
  intros HT. unfold is_uint in HT. rewrite UINT_MOD_eq in HT.
  unfold Split.systime_sec_set.
  destruct (Split.systime_sec div_inst fuel st) as [[now st']| |] eqn:E;
    simpl; try reflexivity.
  apply split_sec_ret in E. subst now.
  destruct (Split.systime_curr_sec st' >? T); f_equal; f_equal;
    autorewrite with wrap.
  - replace (Split.systime_curr_sec st' - (Split.systime_curr_sec st' - T))
      with T by lia. apply wrap_small; lia.
  - replace (Split.systime_curr_sec st' + (T - Split.systime_curr_sec st'))
      with T by lia. apply wrap_small; lia.
Qed.

Lemma split_ms_frame_sec (div_inst : bool) (fuel : nat) (b : Z) (st : Split.state) :
  Split.systime_ms div_inst fuel (Split.set_systime_curr_sec b st) =
  on_state (Split.set_systime_curr_sec b) (Split.systime_ms div_inst fuel st).
Proof.
  split_state_cases st; try reflexivity;
    (destruct div_inst;
     [ destruct (catchup_div _ _ _ _) as [[l m]| |]; reflexivity
     | destruct (catchup_gt _ _ _ _ _ _) as [[l m]| |]; simpl; try reflexivity;
       destruct (catchup_gt _ _ _ _ _ _) as [[l' m']| |]; reflexivity ]).
Qed.

(** A seconds query under a fixed hardware reading, in either build: it
    returns, and it leaves the tick and millisecond statics as the
    millisecond query alone would. *)
Lemma split_sec_steady (div_inst : bool) (fuel : nat) (src : hwsrc) (m : Z)
    (st st1 : Split.state) :
  Split.source st = Some src ->
  steady src (Split.hw_reads st) ->
  0 <= Split.ticks1ms st ->
  is_uint (Split.last_ms st) ->
  is_uint (Split.systime_curr_sec st) ->
  Split.systime_ms div_inst fuel st = Done (m, st1) ->
  wrap (m - Split.last_ms st) / 1000 <= Z.of_nat fuel ->
  exists st',
    Split.systime_sec div_inst fuel st = Done (Split.systime_curr_sec st', st') /\
    Split.systime_curr_sec st' =
      wrap (Split.systime_curr_sec st + wrap (m - Split.last_ms st) / 1000) /\
    Split.systime_curr_ms st' = m /\
    Split.systime_curr_ticks st' = Split.systime_curr_ticks st1 /\
    Split.lastsystime_ticks st' = Split.lastsystime_ticks st1 /\
    (forall fuel',
        Split.systime_ms div_inst fuel' st' =
          Done (m, Split.set_hw_reads (S (Split.hw_reads st')) st')).
Proof.
  intros Hs Hst Ht Hl Hc H Hn. destruct div_inst.
  - pose proof (split_ms_keeps _ _ _ _ _ H) as [Km [_ [_ [_ [_ [Kl Kc]]]]]].
    unfold Split.systime_sec. rewrite H. simpl. unfold catchup_div. simpl.
    eexists (Split.set_last_ms _ (Split.set_systime_curr_sec _ st1)).
    split; [reflexivity|]. simpl. rewrite Kl, Kc.
    split; [reflexivity|]. split; [auto|]. split; [reflexivity|].
    split; [reflexivity|]. intros fuel'.
    change (Split.set_last_ms ?a (Split.set_systime_curr_sec ?b st1))
      with (Split.set_systime_curr_sec b (Split.set_last_ms a st1)).
    rewrite split_ms_frame.
    rewrite (split_ms_stable true fuel fuel' src m st st1) by assumption.
    reflexivity.
  - destruct (split_sec_loop_steady fuel src m fuel st st1)
      as [st' [E [Ec [_ [_ [Em [Et [El Es]]]]]]]]; auto.
    exists st'. unfold Split.systime_sec. rewrite E. simpl.
    repeat (split; [solve [auto]|]). exact Es.
Qed.

(** Adjusting the offset commutes with the fused query: the milliseconds
    returned, the ticks and every accumulator are the same; only the
    seconds reported are shifted by [adj]. *)
Lemma fused_adj_commutes (div_inst : bool) (fuel : nat) (adj : Z)
    (t : option Fused.systime3_t) (st : Fused.state) :
  Fused.systime3 div_inst fuel t (Fused.systime_adj adj st) =
    '(ms, t', st') <- Fused.systime3 div_inst fuel t st ;;
    Done (ms,
          option_map (fun x => Fused.mk_systime3 (wrap (Fused.t_sec x + adj))
                                 (Fused.t_msec x) (Fused.t_ticks x)) t',
          Fused.systime_adj adj st').
Proof.
  destruct st as [k tk tm mk t1 t10 t100 ms sc so hwm ltt lst lms hw].
  assert (W : forall a, wrap (a + wrap (so + adj)) = wrap (wrap (a + so) + adj))
    by (intros a; rewrite wrap_add_r, wrap_add_l, Z.add_assoc; reflexivity).
  unfold Fused.systime3, Fused.systicks, Fused.call_systickshw,
    Fused.accumulate, Fused.systime_adj.
  simpl. destruct hwm; destruct hw as [f|]; simpl; try reflexivity;
    (destruct div_inst;
     [ unfold catchup_div; simpl;
       destruct (t1 =? 0); simpl; [reflexivity|]
     | destruct (catchup_gt _ _ t100 _ _ _) as [[l1 m1]| |]; simpl; try reflexivity;
       destruct (catchup_gt _ _ t10 _ _ _) as [[l2 m2]| |]; simpl; try reflexivity;
       destruct (catchup_gt _ _ t1 _ _ _) as [[l3 m3]| |]; simpl; try reflexivity;
       destruct (catchup_gt _ _ 1000 _ _ _) as [[l4 m4]| |]; simpl; try reflexivity ]);
    destruct t; simpl; unfold Fused.systime_adj; simpl;
    rewrite ?W; reflexivity.
Qed.

Lemma held_steady (l : list Z) (v : Z) : steady (held l v) (length l).
Proof.
  intros j Hj. unfold held. rewrite !nth_overflow by lia. reflexivity.
Qed.

(** C5, as amended.  [systime_adj] writes only [sec_offset]: every other
    static is untouched, and a fused query made after it returns the same
    milliseconds and ticks and leaves the same accumulators, the seconds
    reported being shifted by the adjustment.  [systime_sec_set(T)] is an
    ordinary seconds query (which samples the timer and advances the
    tick, millisecond and second accounting as any query does) followed
    by one store into the seconds counter.  So, for a fixed hardware
    reading, the wide ticks and the millisecond count after the set call
    are those a millisecond query made in its place leaves, and a
    millisecond query made after it returns the same value. *)
Theorem C5_set_and_adjust_leave_tick_and_ms_accounting
    (div_inst : bool) (fuel : nat) (adj T : Z) (t : option Fused.systime3_t)
    (fs : Fused.state) (src : hwsrc) (m : Z) (ss ss1 : Split.state) :
  is_uint T ->
  Split.source ss = Some src ->
  steady src (Split.hw_reads ss) ->
  0 <= Split.ticks1ms ss ->
  is_uint (Split.last_ms ss) ->
  is_uint (Split.systime_curr_sec ss) ->
  Split.systime_ms div_inst fuel ss = Done (m, ss1) ->
  wrap (m - Split.last_ms ss) / 1000 <= Z.of_nat fuel ->
  (Fused.hw_reads (Fused.systime_adj adj fs) = Fused.hw_reads fs /\
   Fused.ticks (Fused.systime_adj adj fs) = Fused.ticks fs /\
   Fused.last_timer_ticks (Fused.systime_adj adj fs) = Fused.last_timer_ticks fs /\
   Fused.milisec (Fused.systime_adj adj fs) = Fused.milisec fs /\
   Fused.last_systime_ticks (Fused.systime_adj adj fs) = Fused.last_systime_ticks fs /\
   Fused.sec (Fused.systime_adj adj fs) = Fused.sec fs /\
   Fused.last_ms (Fused.systime_adj adj fs) = Fused.last_ms fs /\
   Fused.sec_offset (Fused.systime_adj adj fs) = wrap (Fused.sec_offset fs + adj)) /\
  Fused.systime3 div_inst fuel t (Fused.systime_adj adj fs) =
    ('(ms, t', st') <- Fused.systime3 div_inst fuel t fs ;;
     Done (ms,
           option_map (fun x => Fused.mk_systime3 (wrap (Fused.t_sec x + adj))
                                  (Fused.t_msec x) (Fused.t_ticks x)) t',
           Fused.systime_adj adj st')) /\
  Split.systime_sec_set div_inst fuel T ss =
    ('(_, st') <- Split.systime_sec div_inst fuel ss ;;
     Done (Split.set_systime_curr_sec T st')) /\
  exists ss2,
    Split.systime_sec_set div_inst fuel T ss = Done ss2 /\
    Split.systime_curr_sec ss2 = T /\
    Split.systime_curr_ticks ss2 = Split.systime_curr_ticks ss1 /\
    Split.systime_curr_ms ss2 = m /\
    Split.lastsystime_ticks ss2 = Split.lastsystime_ticks ss1 /\
    forall fuel', exists ss3,
      Split.systime_ms div_inst fuel' ss2 = Done (m, ss3) /\
      Split.systime_curr_ticks ss3 = Split.systime_curr_ticks ss1 /\
      Split.systime_curr_ms ss3 = m.
Proof.
  intros HT Hs Hst Ht Hl Hc H Hn.
  split; [repeat split|]. split; [apply fused_adj_commutes|].
  split; [apply split_sec_set_eq; exact HT|].
  destruct (split_sec_steady div_inst fuel src m ss ss1)
    as [st' [E [_ [Em [Etk [Elst Es]]]]]]; auto.
  exists (Split.set_systime_curr_sec T st').
  split; [rewrite split_sec_set_eq by exact HT; rewrite E; reflexivity|].
  split; [reflexivity|]. split; [exact Etk|]. split; [exact Em|].
  split; [exact Elst|]. intros fuel'.
  rewrite split_ms_frame_sec, Es. simpl. eexists. split; [reflexivity|].
  split; [exact Etk | exact Em].
Qed.

Lemma C5_frame_witness :
  exists ss2,
    Split.systime_sec_set false 8 7 split_running = Done ss2 /\
    Split.systime_curr_sec ss2 = 7 /\
    Split.systime_curr_ticks ss2 = 5000 /\
    Split.systime_curr_ms ss2 = 4.
Proof.
  assert (U : forall z, 0 <= z < 4294967296 -> is_uint z)
    by (intros z Hz; unfold is_uint; rewrite UINT_MOD_eq; exact Hz).
  destruct (C5_set_and_adjust_leave_tick_and_ms_accounting false 8 1 7 None
              Fused.boot (held [0; 0] 5000) 4 split_running
              (Split.mkState 3%nat (Some (held [0; 0] 5000)) Split.tick_internal
                 5000 5000 65535 1 4000 1000 50000 4 0 0))
    as [_ [_ [_ [ss2 [E [E1 [E2 [E3 _]]]]]]]].
  - apply U; lia.
  - reflexivity.
  - apply (held_steady [0; 0] 5000).
  - simpl; lia.
  - apply U; simpl; lia.
  - apply U; simpl; lia.
  - vm_compute; reflexivity.
  - vm_compute; discriminate.
  - exists ss2. auto.
Defined.

(** C5 as stated fails for [systime_sec_set]: it does not write the
    seconds counter only.  With 1000 ticks per millisecond, the wide tick
    counter brought to 5000 by a tick query and the timer reading held at
    5000 from then on, the millisecond count is 0 before
    [systime_sec_set(7)] and 4 after it, and the accounted tick moves from
    0 to 4000; the wide ticks stay at 5000. *)
Lemma C5_sec_set_advances_millisecond_state :
  exists st st',
    (st0 <- split_started false 8 (held [0; 0] 5000) 1000 ;;
     '(_, st1) <- Split.systime_tick st0 ;; Done st1) = Done st /\
    Split.source st = Some (held [0; 0] 5000) /\
    steady (held [0; 0] 5000) (Split.hw_reads st) /\
    wrap (held [0; 0] 5000 (Split.hw_reads st)) = Split.last_timer_ticks st /\
    Split.systime_curr_ticks st = 5000 /\
    Split.systime_curr_ms st = 0 /\
    Split.lastsystime_ticks st = 0 /\
    Split.systime_sec_set false 8 7 st = Done st' /\
    Split.systime_curr_sec st' = 7 /\
    Split.systime_curr_ticks st' = 5000 /\
    Split.systime_curr_ms st' = 4 /\
    Split.lastsystime_ticks st' = 4000.
Proof.
  do 2 eexists. split; [vm_compute; reflexivity|].
  split; [reflexivity|].
  split; [apply steady_later with (k := length [0; 0]);
          [apply held_steady | simpl; lia]|].
  split; [reflexivity|]. split; [reflexivity|].
  split; [reflexivity|]. split; [reflexivity|].
  split; [vm_compute; reflexivity|].
  repeat split.
Qed.

(** Once the accumulation of [systime3] has run for a tick value, running
    it again for the same tick value changes nothing; it only ever writes
    the four accumulators. *)
Lemma fused_accumulate_stable (div_inst : bool) (fuel fuel' : nat) (now : Z)
    (st st1 : Fused.state) :
  0 <= Fused.ticks1ms st ->
  (div_inst = false ->
   Fused.ticks1ms st <= Fused.ticks10ms st /\
   Fused.ticks1ms st <= Fused.ticks100ms st) ->
  Fused.accumulate div_inst fuel now st = Done st1 ->
  Fused.accumulate div_inst fuel' now st1 = Done st1 /\
  st1 = Fused.set_last_ms (Fused.last_ms st1)
          (Fused.set_sec (Fused.sec st1)
             (Fused.set_last_systime_ticks (Fused.last_systime_ticks st1)
                (Fused.set_milisec (Fused.milisec st1) st))).
Proof.
  intros Ht Hc H.
  destruct st as [k tk tm mk t1 t10 t100 ms sc so hwm ltt lst lms hw].
  unfold Fused.accumulate in *.
  cbn [Fused.ticks1ms Fused.ticks10ms Fused.ticks100ms Fused.milisec Fused.sec
       Fused.last_systime_ticks Fused.last_ms Fused.set_milisec Fused.set_sec
       Fused.set_last_systime_ticks Fused.set_last_ms Fused.hw_reads Fused.ticks
       Fused.tickmult Fused.mask Fused.sec_offset Fused.use_hw_systicks
       Fused.last_timer_ticks Fused.systickshw] in *.
  destruct div_inst.
  - destruct (catchup_div now t1 lst ms) as [[l m]| |] eqn:E1;
      cbn [bind] in H; try discriminate.
    destruct (catchup_div m 1000 lms sc) as [[l2 s2]| |] eqn:E2;
      cbn [bind] in H; try discriminate.
    injection H as <-.
    cbn [Fused.ticks1ms Fused.ticks10ms Fused.ticks100ms Fused.milisec Fused.sec
         Fused.last_systime_ticks Fused.last_ms Fused.set_milisec Fused.set_sec
         Fused.set_last_systime_ticks Fused.set_last_ms Fused.hw_reads Fused.ticks
         Fused.tickmult Fused.mask Fused.sec_offset Fused.use_hw_systicks
         Fused.last_timer_ticks Fused.systickshw].
    rewrite (ms_catchup_stable true fuel fuel' now t1 0 lst ms l m Ht E1).
    cbn [bind].
    rewrite (ms_catchup_stable true fuel fuel' m 1000 0 lms sc l2 s2
               ltac:(lia) E2).
    split; reflexivity.
  - destruct Hc as [H10 H100]; [reflexivity|].
    destruct (catchup_gt fuel now t100 100 lst ms) as [[l1 m1]| |] eqn:E1;
      cbn [bind] in H; try discriminate.
    destruct (catchup_gt fuel now t10 10 l1 m1) as [[l2 m2]| |] eqn:E2;
      cbn [bind] in H; try discriminate.
    destruct (catchup_gt fuel now t1 1 l2 m2) as [[l3 m3]| |] eqn:E3;
      cbn [bind] in H; try discriminate.
    destruct (catchup_gt fuel m3 1000 1 lms sc) as [[l4 s4]| |] eqn:E4;
      cbn [bind] in H; try discriminate.
    injection H as <-.
    apply catchup_gt_post in E3, E4.
    cbn [Fused.ticks1ms Fused.ticks10ms Fused.ticks100ms Fused.milisec Fused.sec
         Fused.last_systime_ticks Fused.last_ms Fused.set_milisec Fused.set_sec
         Fused.set_last_systime_ticks Fused.set_last_ms Fused.hw_reads Fused.ticks
         Fused.tickmult Fused.mask Fused.sec_offset Fused.use_hw_systicks
         Fused.last_timer_ticks Fused.systickshw].
    repeat (rewrite catchup_gt_idle by lia; cbn [bind]).
    split; reflexivity.
Qed.

(** The accumulation does not look at the count of samples. *)
Lemma fused_accumulate_frame (div_inst : bool) (fuel : nat) (now : Z) (k : nat)
    (st : Fused.state) :
  Fused.accumulate div_inst fuel now (Fused.set_hw_reads k st) =
    s <- Fused.accumulate div_inst fuel now st ;; Done (Fused.set_hw_reads k s).
Proof.
  destruct st as [k0 tk tm mk t1 t10 t100 ms sc so hwm ltt lst lms hw].
  unfold Fused.accumulate.
  cbn [Fused.ticks1ms Fused.ticks10ms Fused.ticks100ms Fused.milisec Fused.sec
       Fused.last_systime_ticks Fused.last_ms Fused.set_milisec Fused.set_sec
       Fused.set_last_systime_ticks Fused.set_last_ms Fused.hw_reads Fused.ticks
       Fused.tickmult Fused.mask Fused.sec_offset Fused.use_hw_systicks
       Fused.last_timer_ticks Fused.systickshw Fused.set_hw_reads].
  destruct div_inst.
  - destruct (catchup_div now t1 lst ms) as [[l m]| |]; cbn [bind];
      try reflexivity;
      destruct (catchup_div m 1000 lms sc) as [[l2 s2]| |]; reflexivity.
  - destruct (catchup_gt fuel now t100 100 lst ms) as [[l1 m1]| |]; cbn [bind];
      try reflexivity;
      destruct (catchup_gt fuel now t10 10 l1 m1) as [[l2 m2]| |]; cbn [bind];
      try reflexivity;
      destruct (catchup_gt fuel now t1 1 l2 m2) as [[l3 m3]| |]; cbn [bind];
      try reflexivity;
      destruct (catchup_gt fuel m3 1000 1 lms sc) as [[l4 s4]| |]; reflexivity.
Qed.

(** The sample [systime3] takes: under a fixed hardware reading the second
    one equals the first and moves nothing but the widener's own record
    of it. *)
Lemma fused_sample_stable (src : hwsrc) (now : Z) (st st0 : Fused.state) :
  Fused.systickshw st = Some src ->
  steady src (Fused.hw_reads st) ->
  (if Fused.use_hw_systicks st then Fused.call_systickshw st
   else Fused.systicks st) = Done (now, st0) ->
  Fused.hw_reads st0 = S (Fused.hw_reads st) /\
  Fused.systickshw st0 = Some src /\
  Fused.sec_offset st0 = Fused.sec_offset st /\
  Fused.ticks1ms st0 = Fused.ticks1ms st /\
  Fused.ticks10ms st0 = Fused.ticks10ms st /\
  Fused.ticks100ms st0 = Fused.ticks100ms st /\
  forall m s l lm,
    let upd x := Fused.set_last_ms lm (Fused.set_sec s
                   (Fused.set_last_systime_ticks l (Fused.set_milisec m x))) in
    (if Fused.use_hw_systicks (upd st0) then Fused.call_systickshw (upd st0)
     else Fused.systicks (upd st0))
    = Done (now, Fused.set_hw_reads (S (Fused.hw_reads st0)) (upd st0)).
Proof.
  intros Hs Hst H.
  destruct st as [k tk tm mk t1 t10 t100 ms sc so hwm ltt lst lms hw].
  unfold Fused.systicks, Fused.call_systickshw in *. simpl in *. subst hw.
  destruct hwm; simpl in *; injection H as <- <-; simpl;
    repeat (split; [reflexivity|]); intros m s l lm; simpl;
    rewrite (Hst (S k)) by lia; [reflexivity|].
  rewrite Z.sub_diag. change (wrap 0) with 0.
  rewrite Z.land_0_l, Z.mul_0_l. change (wrap 0) with 0.
  rewrite Z.add_0_r, wrap_wrap. reflexivity.
Qed.

(** Under a fixed hardware reading a second [systime3] returns what the
    first returned, fills the same triple and changes nothing but the
    count of samples. *)
Lemma fused_systime3_stable (div_inst : bool) (fuel : nat) (src : hwsrc)
    (t t' : option Fused.systime3_t) (ms : Z) (st st1 : Fused.state) :
  Fused.systickshw st = Some src ->
  steady src (Fused.hw_reads st) ->
  0 <= Fused.ticks1ms st ->
  (div_inst = false ->
   Fused.ticks1ms st <= Fused.ticks10ms st /\
   Fused.ticks1ms st <= Fused.ticks100ms st) ->
  Fused.systime3 div_inst fuel t st = Done (ms, t', st1) ->
  exists now,
    t' = Fused.fill t (wrap (Fused.sec st1 + Fused.sec_offset st1)) ms now /\
    ms = Fused.milisec st1 /\
    forall fuel' t2,
      Fused.systime3 div_inst fuel' t2 st1 =
        Done (ms,
              Fused.fill t2 (wrap (Fused.sec st1 + Fused.sec_offset st1)) ms now,
              Fused.set_hw_reads (S (Fused.hw_reads st1)) st1).
Proof.
  intros Hs Hst Ht Hc H. unfold Fused.systime3 in H.
  destruct (if Fused.use_hw_systicks st then Fused.call_systickshw st
            else Fused.systicks st) as [[now st0]| |] eqn:Q;
    cbn [bind] in H; try discriminate.
  destruct (fused_sample_stable src now st st0 Hs Hst Q)
    as [Kr [Ks [Ko [K1 [K10 [K100 Kq]]]]]].
  destruct (Fused.accumulate div_inst fuel now st0) as [st2| |] eqn:A;
    cbn [bind] in H; try discriminate.
  injection H as <- <- <-.
  exists now. split; [reflexivity|]. split; [reflexivity|].
  intros fuel' t2.
  destruct (fused_accumulate_stable div_inst fuel fuel' now st0 st2)
    as [A2 Sh]; [rewrite K1; exact Ht | rewrite K1, K10, K100; exact Hc
                | exact A |].
  assert (Hr : Fused.hw_reads st2 = Fused.hw_reads st0)
    by (rewrite Sh; destruct st0; reflexivity).
  pose proof (Kq (Fused.milisec st2) (Fused.sec st2)
                 (Fused.last_systime_ticks st2) (Fused.last_ms st2)) as Q2.
  cbv beta zeta in Q2. rewrite <- Sh, <- Hr in Q2.
  unfold Fused.systime3. rewrite Q2. cbn [bind].
  rewrite fused_accumulate_frame, A2. reflexivity.
Qed.






(** ** The "last" queries *)

(** C8.  [systimelast3] and [systimelast] leave every static as it was,
    so a second "last" query, through the same pointer or another one,
    fills the same {sec, msec, ticks} triple and returns the same
    milliseconds (and seconds) as the first. *)
Theorem C8_last_queries_are_idempotent
    (t : option Fused.systime3_t) (a b : Fused.systime3_t) (st : Fused.state) :
  snd (Fused.systimelast3 t st) = st /\
  Fused.systimelast3 (snd (fst (Fused.systimelast3 t st)))
      (snd (Fused.systimelast3 t st))
    = Fused.systimelast3 t st /\
  Fused.systimelast3 (Some b) (snd (Fused.systimelast3 (Some a) st))
    = Fused.systimelast3 (Some a) st /\
  snd (fst (Fused.systimelast3 (Some a) st)) =
    Some (Fused.mk_systime3 (wrap (Fused.sec st + Fused.sec_offset st))
            (Fused.milisec st) (Fused.last_systime_ticks st)) /\
  snd (Fused.systimelast st) = st /\
  Fused.systimelast (snd (Fused.systimelast st)) = Fused.systimelast st /\
  Fused.systimelast_ms (snd (Fused.systimelast_ms st)) = Fused.systimelast_ms st.
Proof.
  unfold Fused.systimelast, Fused.systimelast_ms, Fused.systimelast3.
  destruct t; simpl; repeat split; reflexivity.
Qed.

(** ** The catch-up of both builds in closed form *)

(** The loops count [(r - 1) / c] where the division counts [r / c]: one
    less exactly when the residual is a positive multiple of [c]. *)
Lemma iters_gt_vs_div (r c : Z) :
  0 <= r -> 0 < c ->
  (r mod c <> 0 -> iters_gt r c = r / c) /\
  (r = 0 -> iters_gt r c = r / c) /\
  (0 < r -> r mod c = 0 -> iters_gt r c = r / c - 1).
Proof.
  intros Hr Hc. unfold iters_gt.
  pose proof (Z.div_mod r c ltac:(lia)) as D.
  pose proof (Z.mod_pos_bound r c Hc) as B.
  split; [|split].
  - intros Hm. destruct (r =? 0) eqn:E.
    + apply Z.eqb_eq in E. subst r. rewrite Z.mod_0_l in Hm by lia. lia.
    + symmetry. apply Z.div_unique with (r := r mod c - 1); lia.
  - intros ->. reflexivity.
  - intros Hp Hm. destruct (r =? 0) eqn:E; [apply Z.eqb_eq in E; lia|].
    symmetry. apply Z.div_unique with (r := c - 1); [lia|].
    rewrite Hm in D. lia.
Qed.

(** A coarse stage of [k] units per round followed by unit rounds counts
    what unit rounds alone count. *)
Lemma iters_gt_two_stage (r c k : Z) :
  0 <= r -> 0 < c -> 0 < k ->
  iters_gt r (k * c) * k + iters_gt (r - iters_gt r (k * c) * (k * c)) c
  = iters_gt r c.
Proof.
  intros Hr Hc Hk. assert (Hkc : 0 < k * c) by nia.
  unfold iters_gt at 1 3 4. destruct (r =? 0) eqn:E.
  - apply Z.eqb_eq in E. subst r. reflexivity.
  - apply Z.eqb_neq in E.
    pose proof (Z.div_mod (r - 1) (k * c) ltac:(lia)) as D.
    pose proof (Z.mod_pos_bound (r - 1) (k * c) Hkc) as B.
    set (q := (r - 1) / (k * c)) in *. set (s := (r - 1) mod (k * c)) in *.
    replace (r - q * (k * c)) with (s + 1) by lia.
    unfold iters_gt. destruct (s + 1 =? 0) eqn:E2; [apply Z.eqb_eq in E2; lia|].
    replace (s + 1 - 1) with s by lia.
    replace (r - 1) with (q * k * c + s) by lia.
    rewrite Z.div_add_l by lia. reflexivity.
Qed.

(** One stage of the catch-up, [k] units of [c] ticks per round, entered
    after [N] units have been counted. *)
Lemma catchup_stage (fuel : nat) (now c k last acc N : Z) :
  0 < c -> 0 < k -> 0 <= N ->
  N * c <= wrap (now - last) ->
  wrap (now - last) / c <= Z.of_nat fuel ->
  exists N',
    catchup_gt fuel now (k * c) k (wrap (last + N * c)) (wrap (acc + N))
      = Done (wrap (last + N' * c), wrap (acc + N')) /\
    N <= N' /\ N' * c <= wrap (now - last) /\
    wrap (now - last) - N' * c <= k * c /\
    N' + iters_gt (wrap (now - last) - N' * c) c
      = N + iters_gt (wrap (now - last) - N * c) c.
Proof.
  intros Hc Hk HN Hle Hf. pose proof (wrap_range (now - last)) as R.
  set (r := wrap (now - last)) in *. assert (Hkc : 0 < k * c) by nia.
  assert (Hres : wrap (now - wrap (last + N * c)) = r - N * c)
    by (apply residual_advance; lia).
  destruct (iters_gt_bound (r - N * c) (k * c)) as [B1 B2]; [lia|lia|].
  pose proof (iters_gt_nonneg (r - N * c) (k * c) ltac:(lia) Hkc) as B0.
  destruct (iters_gt_rest (r - N * c) (k * c)) as [[B3 B4] _]; [lia|lia|].
  set (n := iters_gt (r - N * c) (k * c)) in *.
  exists (N + n * k). split.
  - rewrite catchup_gt_closed; try apply wrap_is_uint; try lia.
    + rewrite Hres. fold n. autorewrite with wrap. f_equal. f_equal; f_equal; lia.
    + rewrite Hres. fold n.
      assert (n <= (r - N * c) / c).
      { apply Z.div_le_lower_bound; [lia|]. nia. }
      assert ((r - N * c) / c <= r / c) by (apply Z.div_le_mono; nia).
      lia.
  - split; [nia|]. split; [nia|]. split; [nia|].
    pose proof (iters_gt_two_stage (r - N * c) c k ltac:(lia) Hc Hk) as T.
    fold n in T. replace (r - (N + n * k) * c) with (r - N * c - n * (k * c)) by ring.
    lia.
Qed.

Lemma uint_as_stage0 (z c : Z) : is_uint z -> z = wrap (z + 0 * c).
Proof.
  unfold is_uint. rewrite UINT_MOD_eq. intros H.
  rewrite Z.mul_0_l, Z.add_0_r, wrap_small by lia. reflexivity.
Qed.

(** The two loops of [systime_ms], when [50 * c] does not wrap. *)
Lemma ms_loops_closed (fuel : nat) (now c last acc : Z) :
  0 < c -> 50 * c < 4294967296 ->
  is_uint last -> is_uint acc ->
  wrap (now - last) / c <= Z.of_nat fuel ->
  ('(l, m) <- catchup_gt fuel now (wrap (50 * c)) 50 last acc ;;
   catchup_gt fuel now c 1 l m)
  = Done (wrap (last + iters_gt (wrap (now - last)) c * c),
          wrap (acc + iters_gt (wrap (now - last)) c)).
Proof.
  intros Hc H50 Hl Ha Hf. pose proof (wrap_range (now - last)) as R.
  rewrite (wrap_small (50 * c)) by lia.
  destruct (catchup_stage fuel now c 50 last acc 0)
    as [N1 [E1 [L1 [U1 [_ I1]]]]]; try lia.
  rewrite <- (uint_as_stage0 last c Hl) in E1.
  replace (wrap (acc + 0)) with acc in E1
    by (rewrite Z.add_0_r; symmetry; apply wrap_small;
        unfold is_uint in Ha; rewrite UINT_MOD_eq in Ha; lia).
  rewrite E1. simpl.
  destruct (catchup_stage fuel now c 1 last acc N1)
    as [N2 [E2 [L2 [U2 [S2 I2]]]]]; try lia.
  rewrite Z.mul_1_l in E2. rewrite E2.
  rewrite Z.mul_0_l, Z.sub_0_r in I1.
  rewrite iters_gt_stop in I2 by lia.
  replace N2 with (iters_gt (wrap (now - last)) c) by lia. reflexivity.
Qed.

(** The three loops of [systime3], when [100 * c] does not wrap. *)
Lemma ms_loops3_closed (fuel : nat) (now c last acc : Z) :
  0 < c -> 100 * c < 4294967296 ->
  is_uint last -> is_uint acc ->
  wrap (now - last) / c <= Z.of_nat fuel ->
  ('(l, m) <- catchup_gt fuel now (wrap (100 * c)) 100 last acc ;;
   '(l, m) <- catchup_gt fuel now (wrap (10 * c)) 10 l m ;;
   catchup_gt fuel now c 1 l m)
  = Done (wrap (last + iters_gt (wrap (now - last)) c * c),
          wrap (acc + iters_gt (wrap (now - last)) c)).
Proof.
  intros Hc H100 Hl Ha Hf. pose proof (wrap_range (now - last)) as R.
  rewrite (wrap_small (100 * c)), (wrap_small (10 * c)) by lia.
  destruct (catchup_stage fuel now c 100 last acc 0)
    as [N1 [E1 [L1 [U1 [_ I1]]]]]; try lia.
  rewrite <- (uint_as_stage0 last c Hl) in E1.
  replace (wrap (acc + 0)) with acc in E1
    by (rewrite Z.add_0_r; symmetry; apply wrap_small;
        unfold is_uint in Ha; rewrite UINT_MOD_eq in Ha; lia).
  rewrite E1. simpl.
  destruct (catchup_stage fuel now c 10 last acc N1)
    as [N2 [E2 [L2 [U2 [_ I2]]]]]; try lia.
  rewrite E2. simpl.
  destruct (catchup_stage fuel now c 1 last acc N2)
    as [N3 [E3 [L3 [U3 [S3 I3]]]]]; try lia.
  rewrite Z.mul_1_l in E3. rewrite E3.
  rewrite Z.mul_0_l, Z.sub_0_r in I1.
  rewrite iters_gt_stop in I3 by lia.
  replace N3 with (iters_gt (wrap (now - last)) c) by lia. reflexivity.
Qed.

(** The accumulation of [systime3] in closed form: the milliseconds and
    the seconds counted, and where the accounted tick and the accounted
    millisecond are left. *)
Lemma fused_accumulate_closed (div_inst : bool) (fuel : nat) (now : Z)
    (st : Fused.state) :
  0 < Fused.ticks1ms st ->
  (div_inst = false ->
   100 * Fused.ticks1ms st < 4294967296 /\
   Fused.ticks10ms st = wrap (10 * Fused.ticks1ms st) /\
   Fused.ticks100ms st = wrap (100 * Fused.ticks1ms st) /\
   is_uint (Fused.last_systime_ticks st) /\ is_uint (Fused.milisec st) /\
   is_uint (Fused.last_ms st) /\ is_uint (Fused.sec st) /\
   wrap (now - Fused.last_systime_ticks st) / Fused.ticks1ms st <= Z.of_nat fuel /\
   wrap (wrap (Fused.milisec st
               + counted false (wrap (now - Fused.last_systime_ticks st))
                   (Fused.ticks1ms st))
         - Fused.last_ms st) / 1000 <= Z.of_nat fuel) ->
  let n := counted div_inst (wrap (now - Fused.last_systime_ticks st))
             (Fused.ticks1ms st) in
  let ms := wrap (Fused.milisec st + n) in
  let k := counted div_inst (wrap (ms - Fused.last_ms st)) 1000 in
  Fused.accumulate div_inst fuel now st =
    Done (Fused.set_last_ms (wrap (Fused.last_ms st + k * 1000))
            (Fused.set_sec (wrap (Fused.sec st + k))
               (Fused.set_last_systime_ticks
                  (wrap (Fused.last_systime_ticks st + n * Fused.ticks1ms st))
                  (Fused.set_milisec ms st)))).
Proof.
  intros Ht Hc.
  destruct st as [k0 tk tm mk t1 t10 t100 msc sc so hwm ltt lst lms hw].
  unfold Fused.accumulate, counted.
  cbn [Fused.ticks1ms Fused.ticks10ms Fused.ticks100ms Fused.milisec Fused.sec
       Fused.last_systime_ticks Fused.last_ms Fused.set_milisec Fused.set_sec
       Fused.set_last_systime_ticks Fused.set_last_ms Fused.hw_reads Fused.ticks
       Fused.tickmult Fused.mask Fused.sec_offset Fused.use_hw_systicks
       Fused.last_timer_ticks Fused.systickshw] in *.
  destruct div_inst; cbv zeta.
  - destruct (catchup_div_closed now t1 lst msc Ht) as [E1 _].
    rewrite E1. cbn [bind].
    destruct (catchup_div_closed (wrap (msc + wrap (now - lst) / t1)) 1000 lms sc
                ltac:(lia)) as [E2 _].
    rewrite E2. reflexivity.
  - destruct (Hc eq_refl) as [H100 [E10 [E100 [Hl [Hm [Hlm [Hs [Fr FR]]]]]]]].
    subst t10 t100. unfold counted in FR.
    pose proof (wrap_range (now - lst)) as R1.
    pose proof (iters_gt_bound (wrap (now - lst)) t1 ltac:(lia) Ht) as [_ B1].
    pose proof (ms_loops3_closed fuel now t1 lst msc Ht H100 Hl Hm Fr) as E.
    destruct (catchup_gt fuel now (wrap (100 * t1)) 100 lst msc) as [[l1 m1]| |];
      simpl in E |- *; try discriminate.
    destruct (catchup_gt fuel now (wrap (10 * t1)) 10 l1 m1) as [[l2 m2]| |];
      simpl in E |- *; try discriminate.
    rewrite E. simpl.
    set (m := wrap (msc + iters_gt (wrap (now - lst)) t1)) in *.
    pose proof (wrap_range (m - lms)) as R2.
    pose proof (iters_gt_bound (wrap (m - lms)) 1000 ltac:(lia) ltac:(lia))
      as [_ B2].
    rewrite catchup_gt_closed; [| lia | assumption | assumption | lia].
    simpl. rewrite Z.mul_1_r. reflexivity.
Qed.

(** ** The null pointer *)

(** C10.  A null pointer given to [systime3] or [systimelast3] is safe:
    nothing is stored, and the call returns the same milliseconds (the
    millisecond counter it leaves) and leaves the same statics as the
    same call given a struct.  With a null pointer [systime3] still takes
    its sample and advances the accumulators by what that sample is ahead
    of the accounted tick: the milliseconds by the periods of [ticks1ms]
    counted, the accounted tick by as many periods, the seconds and the
    accounted millisecond by the periods of 1000 counted; and it returns
    the milliseconds so brought up to date.  The inline wrappers
    [systime_ms] and [systimelast_ms] of systime.h are these calls. *)
Theorem C10_null_pointer_is_safe
    (div_inst : bool) (fuel : nat) (x : Fused.systime3_t) (st : Fused.state) :
  Fused.systime3 div_inst fuel None st =
    ('(ms, _, st') <- Fused.systime3 div_inst fuel (Some x) st ;;
     Done (Fused.milisec st', None, st')) /\
  Fused.systime3 div_inst fuel (Some x) st =
    ('(ms, t', st') <- Fused.systime3 div_inst fuel (Some x) st ;;
     Done (Fused.milisec st', t', st')) /\
  Fused.systime_ms div_inst fuel st =
    ('(ms, _, st') <- Fused.systime3 div_inst fuel (Some x) st ;;
     Done (ms, st')) /\
  Fused.systimelast3 None st = (Fused.milisec st, None, st) /\
  fst (fst (Fused.systimelast3 (Some x) st)) = Fused.milisec st /\
  snd (Fused.systimelast3 (Some x) st) = st /\
  Fused.systimelast_ms st = (Fused.milisec st, st) /\
  (forall now st0,
      (if Fused.use_hw_systicks st then Fused.call_systickshw st
       else Fused.systicks st) = Done (now, st0) ->
      0 < Fused.ticks1ms st ->
      (div_inst = false ->
       100 * Fused.ticks1ms st < 4294967296 /\
       Fused.ticks10ms st = wrap (10 * Fused.ticks1ms st) /\
       Fused.ticks100ms st = wrap (100 * Fused.ticks1ms st) /\
       is_uint (Fused.last_systime_ticks st) /\ is_uint (Fused.milisec st) /\
       is_uint (Fused.last_ms st) /\ is_uint (Fused.sec st) /\
       wrap (now - Fused.last_systime_ticks st) / Fused.ticks1ms st
         <= Z.of_nat fuel /\
       wrap (wrap (Fused.milisec st
                   + counted false (wrap (now - Fused.last_systime_ticks st))
                       (Fused.ticks1ms st))
             - Fused.last_ms st) / 1000 <= Z.of_nat fuel) ->
      let n := counted div_inst (wrap (now - Fused.last_systime_ticks st))
                 (Fused.ticks1ms st) in
      let ms := wrap (Fused.milisec st + n) in
      let k := counted div_inst (wrap (ms - Fused.last_ms st)) 1000 in
      let st' :=
        Fused.set_last_ms (wrap (Fused.last_ms st + k * 1000))
          (Fused.set_sec (wrap (Fused.sec st + k))
             (Fused.set_last_systime_ticks
                (wrap (Fused.last_systime_ticks st + n * Fused.ticks1ms st))
                (Fused.set_milisec ms st0))) in
      Fused.systime3 div_inst fuel None st = Done (ms, None, st') /\
      Fused.systime_ms div_inst fuel st = Done (ms, st') /\
      Fused.systime3 div_inst fuel (Some x) st =
        Done (ms,
              Some (Fused.mk_systime3
                      (wrap (wrap (Fused.sec st + k) + Fused.sec_offset st))
                      ms now),
              st') /\
      Fused.milisec st' = ms /\
      Fused.last_systime_ticks st' =
        wrap (Fused.last_systime_ticks st + n * Fused.ticks1ms st) /\
      Fused.sec st' = wrap (Fused.sec st + k) /\
      Fused.last_ms st' = wrap (Fused.last_ms st + k * 1000)).
Proof.
  split; [|split; [|split; [|split; [|split; [|split; [|split]]]]]];
    try (unfold Fused.systime_ms, Fused.systime3, Fused.systimelast_ms,
           Fused.systimelast3;
         destruct (if Fused.use_hw_systicks st then Fused.call_systickshw st
                   else Fused.systicks st) as [[now st0]| |]; simpl;
         [destruct (Fused.accumulate div_inst fuel now st0) as [st2| |]; simpl|..];
         reflexivity).
  intros now st0 Q Ht Hc n ms k st'.
  assert (K : Fused.ticks1ms st0 = Fused.ticks1ms st /\
              Fused.ticks10ms st0 = Fused.ticks10ms st /\
              Fused.ticks100ms st0 = Fused.ticks100ms st /\
              Fused.last_systime_ticks st0 = Fused.last_systime_ticks st /\
              Fused.milisec st0 = Fused.milisec st /\
              Fused.last_ms st0 = Fused.last_ms st /\
              Fused.sec st0 = Fused.sec st /\
              Fused.sec_offset st0 = Fused.sec_offset st).
  { unfold Fused.systicks, Fused.call_systickshw in Q.
    destruct (Fused.use_hw_systicks st); destruct (Fused.systickshw st);
      simpl in Q; try discriminate; injection Q as <- <-; simpl; repeat split. }
  destruct K as [K1 [K10 [K100 [Kl [Km [Klm [Ks Ko]]]]]]].
  assert (A : Fused.accumulate div_inst fuel now st0 = Done st').
  { rewrite fused_accumulate_closed;
      [| rewrite K1; exact Ht
       | rewrite K1, K10, K100, Kl, Km, Klm, Ks; exact Hc].
    cbv zeta. rewrite K1, Kl, Km, Klm, Ks. reflexivity. }
  assert (P : Fused.milisec st' = ms /\
              Fused.last_systime_ticks st' =
                wrap (Fused.last_systime_ticks st + n * Fused.ticks1ms st) /\
              Fused.sec st' = wrap (Fused.sec st + k) /\
              Fused.last_ms st' = wrap (Fused.last_ms st + k * 1000) /\
              Fused.sec_offset st' = Fused.sec_offset st)
    by (subst st'; rewrite <- Ko; destruct st0; repeat split; reflexivity).
  destruct P as [P1 [P2 [P3 [P4 P5]]]].
  unfold Fused.systime_ms, Fused.systime3. rewrite Q. cbn [bind]. rewrite A.
  cbn [bind Fused.fill]. rewrite P1, P3, P5.
  repeat split; assumption.
Qed.

Lemma C10_null_pointer_witness :
  exists st',
    Fused.systime3 false 8 None fused_running = Done (4, None, st') /\
    Fused.systime_ms false 8 fused_running = Done (4, st') /\
    Fused.milisec st' = 4 /\ Fused.last_systime_ticks st' = 4000.
Proof.
  assert (U : forall z, 0 <= z < 4294967296 -> is_uint z)
    by (intros z Hz; unfold is_uint; rewrite UINT_MOD_eq; exact Hz).
  destruct (C10_null_pointer_is_safe false 8 Fused.local_t fused_running)
    as [_ [_ [_ [_ [_ [_ [_ A]]]]]]].
  destruct (A 5000
              (Fused.mkState 3%nat 5000 1 65535 1000 10000 100000 0 0 0 false
                 5000 0 0 (Some (held [0; 0] 5000))))
    as [E1 [E2 [_ [E3 [E4 _]]]]].
  - reflexivity.
  - simpl; lia.
  - intros _. simpl.
    repeat (split; [first [reflexivity | lia | apply U; lia]|]).
    split; vm_compute; discriminate.
  - eexists. split; [exact E1|]. split; [exact E2|]. split; [exact E3 | exact E4].
Defined.

(** ** Elapsed and expired *)

(** C9.  The elapsed and expired macros subtract and compare in unsigned
    arithmetic: when the counter read is [n = (s + e) mod 2^32] for a
    start value [s] and a true elapsed count [0 <= e < 2^32], elapsed
    returns exactly [e], wrapped counter or not, and expired is true
    exactly when [e] reaches the interval as converted to [unsigned]; for
    an interval that is an [unsigned] value this is [e >= interval].  This
    for ticks, milliseconds and seconds alike. *)
Theorem C9_elapsed_and_expired_survive_wraparound
    (div_inst : bool) (fuel : nat) (s e interval n : Z)
    (st st' : Split.state) :
  0 <= e < 4294967296 ->
  n = wrap (s + e) ->
  wrap (n - s) = e /\
  ((e >=? wrap interval) = true <-> wrap interval <= e) /\
  (is_uint interval -> ((e >=? wrap interval) = true <-> interval <= e)) /\
  (Split.systime_tick st = Done (n, st') ->
   Split.systime_tick_elapsed s st = Done (e, st') /\
   Split.systime_tick_expired s interval st = Done (e >=? wrap interval, st')) /\
  (Split.systime_ms div_inst fuel st = Done (n, st') ->
   Split.systime_ms_elapsed div_inst fuel s st = Done (e, st') /\
   Split.systime_ms_expired div_inst fuel s interval st
     = Done (e >=? wrap interval, st')) /\
  (Split.systime_sec div_inst fuel st = Done (n, st') ->
   Split.systime_sec_elapsed div_inst fuel s st = Done (e, st') /\
   Split.systime_sec_expired div_inst fuel s interval st
     = Done (e >=? wrap interval, st')).
Proof.
  intros He Hn.
  assert (W : wrap (n - s) = e).
  { subst n. rewrite wrap_sub_l. replace (s + e - s) with e by lia.
    apply wrap_small; lia. }
  split; [exact W|].
  split; [rewrite Z.geb_leb; apply Z.leb_le|].
  split.
  { intros Hi. unfold is_uint in Hi. rewrite UINT_MOD_eq in Hi.
    rewrite wrap_small by exact Hi. rewrite Z.geb_leb. apply Z.leb_le. }
  unfold Split.systime_tick_elapsed, Split.systime_tick_expired,
    Split.systime_ms_elapsed, Split.systime_ms_expired,
    Split.systime_sec_elapsed, Split.systime_sec_expired.
  split; [|split]; intros E; rewrite E; simpl; rewrite W; split; reflexivity.
Qed.

Lemma C9_wraparound_witness :
  Split.systime_tick_elapsed 4294962296 split_running
    = Done (10000,
            Split.mkState 3%nat (Some (held [0; 0] 5000)) Split.tick_internal
              5000 5000 65535 1 0 1000 50000 0 0 0) /\
  Split.systime_tick_expired 4294962296 10000 split_running
    = Done (true,
            Split.mkState 3%nat (Some (held [0; 0] 5000)) Split.tick_internal
              5000 5000 65535 1 0 1000 50000 0 0 0) /\
  Split.systime_tick_expired 4294962296 (-1) split_running
    = Done (false,
            Split.mkState 3%nat (Some (held [0; 0] 5000)) Split.tick_internal
              5000 5000 65535 1 0 1000 50000 0 0 0).
Proof.
  split; [|split].
  - destruct (C9_elapsed_and_expired_survive_wraparound false 8
                4294962296 10000 10000 5000 split_running
                (Split.mkState 3%nat (Some (held [0; 0] 5000)) Split.tick_internal
                   5000 5000 65535 1 0 1000 50000 0 0 0))
      as [_ [_ [_ [A _]]]]; [lia | reflexivity |].
    apply A. reflexivity.
  - destruct (C9_elapsed_and_expired_survive_wraparound false 8
                4294962296 10000 10000 5000 split_running
                (Split.mkState 3%nat (Some (held [0; 0] 5000)) Split.tick_internal
                   5000 5000 65535 1 0 1000 50000 0 0 0))
      as [_ [_ [_ [A _]]]]; [lia | reflexivity |].
    apply A. reflexivity.
  - destruct (C9_elapsed_and_expired_survive_wraparound false 8
                4294962296 10000 (-1) 5000 split_running
                (Split.mkState 3%nat (Some (held [0; 0] 5000)) Split.tick_internal
                   5000 5000 65535 1 0 1000 50000 0 0 0))
      as [_ [_ [_ [A _]]]]; [lia | reflexivity |].
    apply A. reflexivity.
Defined.

(** * Further properties of the code

    ** Congruences modulo 2^32 *)

Lemma wrap_congr (a b k : Z) : a = b + k * 4294967296 -> wrap a = wrap b.
Proof.
  intros ->. unfold wrap. rewrite UINT_MOD_eq. apply Z.mod_add. lia.
Qed.

Lemma wrap_eq_inv (a b : Z) :
  wrap a = wrap b -> exists k, a = b + k * 4294967296.
Proof.
  unfold wrap. rewrite UINT_MOD_eq. intros H.
  pose proof (Z.mod_eq a 4294967296 ltac:(lia)).
  pose proof (Z.mod_eq b 4294967296 ltac:(lia)).
  exists (a / 4294967296 - b / 4294967296). lia.
Qed.

(** Whatever the chunk and the budget, a loop that exits has made some
    number [n] of whole rounds. *)
Lemma catchup_gt_rounds (fuel : nat) (now chunk step : Z) :
  forall last acc l a,
    catchup_gt fuel now chunk step last acc = Done (l, a) ->
    exists n,
      0 <= n /\
      wrap l = wrap (last + n * chunk) /\
      wrap a = wrap (acc + n * step).
Proof.
  induction fuel as [|f IH]; intros last acc l a; simpl;
    destruct (wrap (now - last) >? chunk); intros E; try discriminate.
  - injection E as <- <-. exists 0. rewrite !Z.mul_0_l, !Z.add_0_r. auto with zarith.
  - apply IH in E. destruct E as [n [Hn [El Ea]]]. exists (n + 1).
    split; [lia|]. rewrite El, Ea. autorewrite with wrap.
    split; f_equal; lia.
  - injection E as <- <-. exists 0. rewrite !Z.mul_0_l, !Z.add_0_r. auto with zarith.
Qed.

Lemma wrap_repr (z : Z) : exists k, wrap z = z + k * 4294967296.
Proof. apply wrap_eq_inv. apply wrap_wrap. Qed.

(** ** Drift-free accounting *)

(** The millisecond catch-up of either build moves the accounted tick by
    exactly the milliseconds it counts times [t1]. *)
Lemma ms_catchup_conserves (div_inst : bool) (fuel : nat)
    (now t1 lst cms l m : Z) :
  (if div_inst then catchup_div now t1 lst cms
   else '(l, m) <- catchup_gt fuel now (wrap (50 * t1)) 50 lst cms ;;
        catchup_gt fuel now t1 1 l m) = Done (l, m) ->
  wrap (l - m * t1) = wrap (lst - cms * t1).
Proof.
  destruct div_inst.
  - unfold catchup_div. destruct (t1 =? 0); [discriminate|].
    set (q := wrap (now - lst) / t1). intros H. injection H as <- <-.
    destruct (wrap_repr (lst + wrap (q * t1))) as [k1 E1].
    destruct (wrap_repr (q * t1)) as [k2 E2].
    destruct (wrap_repr (cms + q)) as [k3 E3].
    rewrite E1, E2, E3. apply wrap_congr with (k := k1 + k2 - k3 * t1). ring.
  - destruct (catchup_gt fuel now (wrap (50 * t1)) 50 lst cms)
      as [[l1 m1]| |] eqn:E1; simpl; try discriminate.
    intros E2.
    apply catchup_gt_rounds in E1. destruct E1 as [n1 [_ [A1 B1]]].
    apply catchup_gt_rounds in E2. destruct E2 as [n2 [_ [A2 B2]]].
    apply wrap_eq_inv in A1, B1, A2, B2.
    destruct A1 as [a1 A1]. destruct B1 as [b1 B1].
    destruct A2 as [a2 A2]. destruct B2 as [b2 B2].
    destruct (wrap_repr (50 * t1)) as [k5 E5]. rewrite E5 in A1.
    subst l m l1 m1.
    apply wrap_congr with (k := n1 * k5 + a1 + a2 - (b1 + b2) * t1). ring.
Qed.

Lemma split_ms_conserves (div_inst : bool) (fuel : nat) (m : Z)
    (st st' : Split.state) :
  (div_inst = false -> Split.ticks50ms st = wrap (50 * Split.ticks1ms st)) ->
  Split.systime_ms div_inst fuel st = Done (m, st') ->
  Split.ticks1ms st' = Split.ticks1ms st /\
  Split.ticks50ms st' = Split.ticks50ms st /\
  wrap (Split.lastsystime_ticks st' - Split.systime_curr_ms st' * Split.ticks1ms st')
  = wrap (Split.lastsystime_ticks st - Split.systime_curr_ms st * Split.ticks1ms st).
Proof.
  intros H50 H. destruct div_inst.
  - clear H50. split_state_cases st; try discriminate;
      match type of H with
      | context [catchup_div ?n _ _ _] =>
          destruct (catchup_div n t1 lst cms) as [[l m']| |] eqn:E;
          simpl in H; try discriminate;
          injection H as <- <-; simpl;
          apply (ms_catchup_conserves true fuel) in E; auto
      end.
  - specialize (H50 eq_refl). split_state_cases st; try discriminate; subst t50;
      match type of H with
      | context [catchup_gt fuel ?n _ 50 _ _] =>
          pose proof (ms_catchup_conserves false fuel n t1 lst cms) as C;
          cbv beta iota in C;
          destruct (catchup_gt fuel n (wrap (50 * t1)) 50 lst cms)
            as [[l1 m1]| |]; simpl in H, C; try discriminate;
          destruct (catchup_gt fuel n t1 1 l1 m1) as [[l m']| |];
          simpl in H; try discriminate;
          injection H as <- <-; simpl;
          repeat (split; [reflexivity|]); apply C; reflexivity
      end.
Qed.

(** One loop, or one division, whose chunk stands for [k] units of [c]
    ticks and whose step counts [k] units. *)
Lemma catchup_gt_conserves (fuel : nat) (now chunk k c last acc l a : Z) :
  wrap chunk = wrap (k * c) ->
  catchup_gt fuel now chunk k last acc = Done (l, a) ->
  wrap (l - a * c) = wrap (last - acc * c).
Proof.
  intros Hc E. apply catchup_gt_rounds in E. destruct E as [n [_ [A B]]].
  apply wrap_eq_inv in A, B, Hc.
  destruct A as [x A]. destruct B as [y B]. destruct Hc as [z Hc].
  subst l a chunk. apply wrap_congr with (k := n * z + x - y * c). ring.
Qed.

Lemma catchup_div_conserves (now c last acc l a : Z) :
  catchup_div now c last acc = Done (l, a) ->
  wrap (l - a * c) = wrap (last - acc * c).
Proof.
  unfold catchup_div. destruct (c =? 0); [discriminate|].
  set (q := wrap (now - last) / c). intros H. injection H as <- <-.
  destruct (wrap_repr (last + wrap (q * c))) as [k1 E1].
  destruct (wrap_repr (q * c)) as [k2 E2].
  destruct (wrap_repr (acc + q)) as [k3 E3].
  rewrite E1, E2, E3. apply wrap_congr with (k := k1 + k2 - k3 * c). ring.
Qed.

(** From "the balance is kept" to "ticks moved = units counted x c". *)
Lemma balance_moved (l a last acc c : Z) :
  wrap (l - a * c) = wrap (last - acc * c) ->
  wrap (l - last) = wrap ((a - acc) * c).
Proof.
  intros H. apply wrap_eq_inv in H. destruct H as [k H].
  apply wrap_congr with (k := k). lia.
Qed.

Lemma fused_systime3_conserves (div_inst : bool) (fuel : nat)
    (t t' : option Fused.systime3_t) (ms : Z) (st st' : Fused.state) :
  (div_inst = false ->
   Fused.ticks10ms st = wrap (10 * Fused.ticks1ms st) /\
   Fused.ticks100ms st = wrap (100 * Fused.ticks1ms st)) ->
  Fused.systime3 div_inst fuel t st = Done (ms, t', st') ->
  Fused.ticks1ms st' = Fused.ticks1ms st /\
  Fused.ticks10ms st' = Fused.ticks10ms st /\
  Fused.ticks100ms st' = Fused.ticks100ms st /\
  wrap (Fused.last_systime_ticks st' - Fused.milisec st' * Fused.ticks1ms st')
  = wrap (Fused.last_systime_ticks st - Fused.milisec st * Fused.ticks1ms st) /\
  wrap (Fused.last_ms st' - Fused.sec st' * 1000)
  = wrap (Fused.last_ms st - Fused.sec st * 1000).
Proof.
  intros Hc H.
  destruct st as [k tk tm mk t1 t10 t100 msc sc so hwm ltt lst lms hw].
  unfold Fused.systime3, Fused.systicks, Fused.call_systickshw, Fused.accumulate in H.
  simpl in *.
  assert (W1 : wrap t1 = wrap (1 * t1)) by (f_equal; lia).
  assert (W1000 : wrap 1000 = wrap (1 * 1000)) by reflexivity.
  destruct hwm; destruct hw as [f|]; simpl in H; try discriminate;
    (destruct div_inst;
     [ destruct (catchup_div _ t1 lst msc) as [[l1 m1]| |] eqn:E1;
         simpl in H; try discriminate;
       injection H as <- <- <-; simpl;
       apply catchup_div_conserves in E1;
       repeat (split; [reflexivity|]); split; [exact E1|];
       exact (catchup_div_conserves m1 1000 lms sc _ _ eq_refl)
     | destruct (Hc eq_refl) as [H10 H100]; subst t10 t100;
       destruct (catchup_gt _ _ (wrap (100 * t1)) _ lst msc) as [[l1 m1]| |] eqn:E1;
         simpl in H; try discriminate;
       destruct (catchup_gt _ _ (wrap (10 * t1)) _ l1 m1) as [[l2 m2]| |] eqn:E2;
         simpl in H; try discriminate;
       destruct (catchup_gt _ _ t1 _ l2 m2) as [[l3 m3]| |] eqn:E3;
         simpl in H; try discriminate;
       destruct (catchup_gt _ m3 1000 _ lms sc) as [[l4 m4]| |] eqn:E4;
         simpl in H; try discriminate;
       injection H as <- <- <-; simpl;
       apply catchup_gt_conserves with (c := t1) in E1; [|apply wrap_wrap];
       apply catchup_gt_conserves with (c := t1) in E2; [|apply wrap_wrap];
       apply catchup_gt_conserves with (c := t1) in E3; [|exact W1];
       apply catchup_gt_conserves with (c := 1000) in E4; [|exact W1000];
       repeat (split; [reflexivity|]); split; [congruence | assumption] ]).
Qed.

(** A property every call of a query keeps holds after any number of
    calls. *)
Lemma poll_preserves {S A : Type} (q : S -> outcome (A * S)) (Inv : S -> Prop) :
  (forall st a st', Inv st -> q st = Done (a, st') -> Inv st') ->
  forall n st l st', Inv st -> poll q n st = Done (l, st') -> Inv st'.
Proof.
  intros Hq. induction n as [|n IH]; intros st l st' Hi; simpl.
  - intros E. injection E as <- <-. exact Hi.
  - destruct (q st) as [[a s1]| |] eqn:E1; simpl; try discriminate.
    destruct (poll q n s1) as [[l1 s2]| |] eqn:E2; simpl; try discriminate.
    intros E. injection E as <- <-. eapply IH; [|exact E2]. eapply Hq; eassumption.
Qed.

(** X1.  Zero drift in the layered packaging: over any number of
    [systime_ms()] calls, in either build, the accounted tick moves by
    exactly the milliseconds counted times [ticks1ms] (modulo 2^32): the
    remainder is carried, never dropped. *)
Theorem split_ms_never_drifts (div_inst : bool) (fuel n : nat) (l : list Z)
    (st st' : Split.state) :
  (div_inst = false -> Split.ticks50ms st = wrap (50 * Split.ticks1ms st)) ->
  poll (Split.systime_ms div_inst fuel) n st = Done (l, st') ->
  Split.ticks1ms st' = Split.ticks1ms st /\
  wrap (Split.lastsystime_ticks st' - Split.lastsystime_ticks st)
  = wrap ((Split.systime_curr_ms st' - Split.systime_curr_ms st) * Split.ticks1ms st).
Proof.
  intros H50 H.
  pose (Inv := fun s : Split.state =>
    Split.ticks1ms s = Split.ticks1ms st /\
    Split.ticks50ms s = Split.ticks50ms st /\
    wrap (Split.lastsystime_ticks s - Split.systime_curr_ms s * Split.ticks1ms s)
    = wrap (Split.lastsystime_ticks st - Split.systime_curr_ms st * Split.ticks1ms st)).
  assert (Hinv : Inv st') .
  { apply (poll_preserves (Split.systime_ms div_inst fuel) Inv) with (n := n) (st := st) (l := l).
    - intros s a s' [I1 [I2 I3]] Hq.
      destruct (split_ms_conserves div_inst fuel a s s') as [J1 [J2 J3]];
        [rewrite I1, I2; exact H50 | exact Hq |].
      unfold Inv. split; [congruence|]. split; [congruence|].
      rewrite J3. exact I3.
    - unfold Inv. auto.
    - exact H. }
  destruct Hinv as [I1 [_ I3]]. split; [exact I1|].
  apply balance_moved. rewrite I1 in I3. exact I3.
Qed.

Lemma split_ms_never_drifts_witness :
  exists st',
    poll (Split.systime_ms false 8) 3 split_running = Done ([4; 4; 4], st') /\
    wrap (Split.lastsystime_ticks st' - 0) = wrap ((Split.systime_curr_ms st' - 0) * 1000).
Proof.
  eexists. split; [vm_compute; reflexivity|].
  refine (proj2 (split_ms_never_drifts false 8 3 [4; 4; 4] split_running _ _ _)).
  - intros _; reflexivity.
  - vm_compute; reflexivity.
Defined.

(** X2.  Zero drift in the fused packaging: over any number of
    [systime3(0)] calls, in either build, the accounted tick moves by the
    milliseconds counted times [ticks1ms], and the accounted millisecond
    by the seconds counted times 1000 (modulo 2^32). *)
Theorem fused_never_drifts (div_inst : bool) (fuel n : nat) (l : list Z)
    (st st' : Fused.state) :
  (div_inst = false ->
   Fused.ticks10ms st = wrap (10 * Fused.ticks1ms st) /\
   Fused.ticks100ms st = wrap (100 * Fused.ticks1ms st)) ->
  poll (Fused.systime_ms div_inst fuel) n st = Done (l, st') ->
  Fused.ticks1ms st' = Fused.ticks1ms st /\
  wrap (Fused.last_systime_ticks st' - Fused.last_systime_ticks st)
  = wrap ((Fused.milisec st' - Fused.milisec st) * Fused.ticks1ms st) /\
  wrap (Fused.last_ms st' - Fused.last_ms st)
  = wrap ((Fused.sec st' - Fused.sec st) * 1000).
Proof.
  intros Hc H.
  pose (Inv := fun s : Fused.state =>
    Fused.ticks1ms s = Fused.ticks1ms st /\
    Fused.ticks10ms s = Fused.ticks10ms st /\
    Fused.ticks100ms s = Fused.ticks100ms st /\
    wrap (Fused.last_systime_ticks s - Fused.milisec s * Fused.ticks1ms s)
    = wrap (Fused.last_systime_ticks st - Fused.milisec st * Fused.ticks1ms st) /\
    wrap (Fused.last_ms s - Fused.sec s * 1000)
    = wrap (Fused.last_ms st - Fused.sec st * 1000)).
  assert (Hinv : Inv st').
  { apply (poll_preserves (Fused.systime_ms div_inst fuel) Inv) with (n := n) (st := st) (l := l).
    - intros s a s' [I1 [I2 [I3 [I4 I5]]]] Hq. unfold Fused.systime_ms in Hq.
      destruct (Fused.systime3 div_inst fuel None s) as [[[ms t'] s1]| |] eqn:E;
        simpl in Hq; try discriminate. injection Hq as <- <-.
      destruct (fused_systime3_conserves div_inst fuel None t' ms s s1)
        as [J1 [J2 [J3 [J4 J5]]]];
        [rewrite I1, I2, I3; exact Hc | exact E |].
      unfold Inv. split; [congruence|]. split; [congruence|].
      split; [congruence|]. rewrite J4, J5. auto.
    - unfold Inv. auto.
    - exact H. }
  destruct Hinv as [I1 [_ [_ [I4 I5]]]]. split; [exact I1|].
  split; apply balance_moved; [rewrite I1 in I4; exact I4 | exact I5].
Qed.

Lemma fused_never_drifts_witness :
  exists st',
    poll (Fused.systime_ms false 8) 2 fused_running = Done ([4; 4], st') /\
    wrap (Fused.last_systime_ticks st' - 0) = wrap ((Fused.milisec st' - 0) * 1000).
Proof.
  eexists. split; [vm_compute; reflexivity|].
  refine (proj1 (proj2 (fused_never_drifts false 8 2 [4; 4] fused_running _ _ _))).
  - intros _; split; reflexivity.
  - vm_compute; reflexivity.
Defined.

(** ** What the loop build computes *)

(** X3.  What the loop build of [systime_ms] computes, when
    [50 * ticks1ms] does not wrap: with [r] the ticks between the tick
    value read and the accounted tick, it counts [(r - 1) / ticks1ms]
    milliseconds for [r > 0], where the divide build counts
    [r / ticks1ms].  The two builds return the same value and leave the
    same statics unless [r] is a positive multiple of [ticks1ms]; then the
    loop build is one millisecond behind. *)
Theorem split_ms_loop_build_value (fuel : nat) (now : Z)
    (st st0 : Split.state) :
  Split.systime_tick st = Done (now, st0) ->
  0 < Split.ticks1ms st ->
  50 * Split.ticks1ms st < 4294967296 ->
  Split.ticks50ms st = wrap (50 * Split.ticks1ms st) ->
  is_uint (Split.lastsystime_ticks st) ->
  is_uint (Split.systime_curr_ms st) ->
  wrap (now - Split.lastsystime_ticks st) / Split.ticks1ms st <= Z.of_nat fuel ->
  (exists st',
      Split.systime_ms false fuel st =
        Done (wrap (Split.systime_curr_ms st +
                    iters_gt (wrap (now - Split.lastsystime_ticks st))
                      (Split.ticks1ms st)), st') /\
      Split.lastsystime_ticks st' =
        wrap (Split.lastsystime_ticks st +
              iters_gt (wrap (now - Split.lastsystime_ticks st))
                (Split.ticks1ms st) * Split.ticks1ms st)) /\
  (exists st',
      Split.systime_ms true fuel st =
        Done (wrap (Split.systime_curr_ms st +
                    wrap (now - Split.lastsystime_ticks st) / Split.ticks1ms st),
              st')) /\
  (wrap (now - Split.lastsystime_ticks st) mod Split.ticks1ms st <> 0 ->
   Split.systime_ms false fuel st = Split.systime_ms true fuel st) /\
  (0 < wrap (now - Split.lastsystime_ticks st) ->
   wrap (now - Split.lastsystime_ticks st) mod Split.ticks1ms st = 0 ->
   iters_gt (wrap (now - Split.lastsystime_ticks st)) (Split.ticks1ms st)
   = wrap (now - Split.lastsystime_ticks st) / Split.ticks1ms st - 1).
Proof.
  intros Hq Ht H50 Hc Hl Hm Hf.
  split_state_cases st; try discriminate; subst t50;
    injection Hq as <- <-; simpl in *;
    match goal with
    | |- context [catchup_gt fuel ?n _ 50 _ _] =>
        pose proof (ms_loops_closed fuel n t1 lst cms Ht H50 Hl Hm Hf) as E;
        pose proof (wrap_range (n - lst)) as R;
        destruct (iters_gt_vs_div (wrap (n - lst)) t1 ltac:(lia) Ht) as [V1 [_ V3]];
        destruct (catchup_div_closed n t1 lst cms Ht) as [D _]
    end;
    rewrite E, D; simpl;
    (split; [eexists (Split.set_lastsystime_ticks _ (Split.set_systime_curr_ms _ _));
             split; reflexivity|]);
    (split; [eexists; reflexivity|]);
    (split; [intros Hne; rewrite (V1 Hne); reflexivity | exact V3]).
Qed.

Lemma split_ms_loop_build_value_witness :
  (exists st', Split.systime_ms false 8 split_running = Done (4, st')) /\
  (exists st', Split.systime_ms true 8 split_running = Done (5, st')).
Proof.
  assert (U : forall z, 0 <= z < 4294967296 -> is_uint z)
    by (intros z Hz; unfold is_uint; rewrite UINT_MOD_eq; exact Hz).
  destruct (split_ms_loop_build_value 8 5000 split_running
              (Split.mkState 3%nat (Some (held [0; 0] 5000)) Split.tick_internal
                 5000 5000 65535 1 0 1000 50000 0 0 0))
    as [[s1 [E1 _]] [[s2 E2] _]];
    try reflexivity; try (simpl; lia); try (apply U; simpl; lia).
  - vm_compute; discriminate.
  - split; [exists s1; exact E1 | exists s2; exact E2].
Defined.

(** The accumulation of [systime3]: both builds do the same when neither
    residual is an exact multiple of its period. *)
Lemma fused_accumulate_agree (fuel : nat) (now : Z) (st : Fused.state) :
  0 < Fused.ticks1ms st ->
  100 * Fused.ticks1ms st < 4294967296 ->
  Fused.ticks10ms st = wrap (10 * Fused.ticks1ms st) ->
  Fused.ticks100ms st = wrap (100 * Fused.ticks1ms st) ->
  is_uint (Fused.last_systime_ticks st) -> is_uint (Fused.milisec st) ->
  is_uint (Fused.last_ms st) -> is_uint (Fused.sec st) ->
  wrap (now - Fused.last_systime_ticks st) mod Fused.ticks1ms st <> 0 ->
  wrap (wrap (Fused.milisec st
              + wrap (now - Fused.last_systime_ticks st) / Fused.ticks1ms st)
        - Fused.last_ms st) mod 1000 <> 0 ->
  wrap (now - Fused.last_systime_ticks st) / Fused.ticks1ms st <= Z.of_nat fuel ->
  wrap (wrap (Fused.milisec st
              + wrap (now - Fused.last_systime_ticks st) / Fused.ticks1ms st)
        - Fused.last_ms st) / 1000 <= Z.of_nat fuel ->
  Fused.accumulate false fuel now st = Fused.accumulate true fuel now st.
Proof.
  intros Ht H100 E10 E100 Hl Hm Hlm Hs Nr NR Fr FR.
  destruct st as [k tk tm mk t1 t10 t100 msc sc so hwm ltt lst lms hw].
  simpl in *. subst t10 t100. unfold Fused.accumulate. simpl.
  pose proof (wrap_range (now - lst)) as R1.
  destruct (iters_gt_vs_div (wrap (now - lst)) t1 ltac:(lia) Ht) as [V1 _].
  pose proof (ms_loops3_closed fuel now t1 lst msc Ht H100 Hl Hm Fr) as E.
  rewrite (V1 Nr) in E.
  destruct (catchup_div_closed now t1 lst msc Ht) as [D _].
  set (q := wrap (now - lst) / t1) in *.
  destruct (catchup_gt fuel now (wrap (100 * t1)) 100 lst msc) as [[l1 m1]| |];
    simpl in E |- *; try discriminate.
  destruct (catchup_gt fuel now (wrap (10 * t1)) 10 l1 m1) as [[l2 m2]| |];
    simpl in E |- *; try discriminate.
  rewrite E, D. simpl.
  set (m := wrap (msc + q)) in *.
  pose proof (wrap_range (m - lms)) as R2.
  destruct (iters_gt_vs_div (wrap (m - lms)) 1000 ltac:(lia) ltac:(lia)) as [V2 _].
  rewrite catchup_gt_closed;
    [rewrite (V2 NR) | lia | assumption | assumption | rewrite (V2 NR); exact FR].
  simpl. unfold catchup_div. simpl.
  rewrite wrap_add_r, Z.mul_1_r. reflexivity.
Qed.

(** X4.  The two builds of [systime3] agree away from exact boundaries:
    when [100 * ticks1ms] does not wrap and the divide build finds
    residuals (ticks past the accounted tick, milliseconds past the
    accounted millisecond) that are not multiples of [ticks1ms] and of
    1000, the loop build returns the same milliseconds, fills the same
    triple and leaves the same statics. *)
Theorem fused_builds_agree_off_boundaries (fuel : nat) (x tr : Fused.systime3_t)
    (ms : Z) (st st' : Fused.state) :
  Fused.systime3 true fuel (Some x) st = Done (ms, Some tr, st') ->
  0 < Fused.ticks1ms st ->
  100 * Fused.ticks1ms st < 4294967296 ->
  Fused.ticks10ms st = wrap (10 * Fused.ticks1ms st) ->
  Fused.ticks100ms st = wrap (100 * Fused.ticks1ms st) ->
  is_uint (Fused.last_systime_ticks st) -> is_uint (Fused.milisec st) ->
  is_uint (Fused.last_ms st) -> is_uint (Fused.sec st) ->
  wrap (Fused.t_ticks tr - Fused.last_systime_ticks st) mod Fused.ticks1ms st <> 0 ->
  wrap (ms - Fused.last_ms st) mod 1000 <> 0 ->
  wrap (Fused.t_ticks tr - Fused.last_systime_ticks st) / Fused.ticks1ms st
    <= Z.of_nat fuel ->
  wrap (ms - Fused.last_ms st) / 1000 <= Z.of_nat fuel ->
  forall t, Fused.systime3 false fuel t st = Fused.systime3 true fuel t st.
Proof.
  intros H Ht H100 E10 E100 Hl Hm Hlm Hs Nr NR Fr FR t.
  unfold Fused.systime3 in *.
  destruct (if Fused.use_hw_systicks st then Fused.call_systickshw st
            else Fused.systicks st) as [[now st0]| |] eqn:Q;
    cbn [bind] in *; try discriminate.
  assert (K : Fused.ticks1ms st0 = Fused.ticks1ms st /\
              Fused.ticks10ms st0 = Fused.ticks10ms st /\
              Fused.ticks100ms st0 = Fused.ticks100ms st /\
              Fused.last_systime_ticks st0 = Fused.last_systime_ticks st /\
              Fused.milisec st0 = Fused.milisec st /\
              Fused.last_ms st0 = Fused.last_ms st /\
              Fused.sec st0 = Fused.sec st).
  { unfold Fused.systicks, Fused.call_systickshw in Q.
    destruct (Fused.use_hw_systicks st); destruct (Fused.systickshw st);
      simpl in Q; try discriminate; injection Q as <- <-; simpl; repeat split. }
  destruct K as [K1 [K2 [K3 [K4 [K5 [K6 K7]]]]]].
  destruct (Fused.accumulate true fuel now st0) as [st2| |] eqn:A;
    cbn [bind] in H; try discriminate.
  injection H as Hms Htr Hst. subst tr. simpl in Nr, Fr.
  assert (Hmv : ms = wrap (Fused.milisec st + wrap (now - Fused.last_systime_ticks st)
                                               / Fused.ticks1ms st)).
  { subst ms. unfold Fused.accumulate in A. unfold catchup_div in A.
    rewrite K1 in A. destruct (Fused.ticks1ms st =? 0); simpl in A; [discriminate|].
    injection A as <-. simpl. rewrite K4, K5. reflexivity. }
  rewrite Hmv in NR, FR.
  rewrite (fused_accumulate_agree fuel now st0); try congruence;
    rewrite ?K1, ?K2, ?K3, ?K4, ?K5, ?K6, ?K7; assumption.
Qed.

Lemma fused_builds_agree_witness :
  Fused.systime3 false 8 None (fused_reading 5500)
  = Fused.systime3 true 8 None (fused_reading 5500).
Proof.
  assert (U : forall z, 0 <= z < 4294967296 -> is_uint z)
    by (intros z Hz; unfold is_uint; rewrite UINT_MOD_eq; exact Hz).
  apply (fused_builds_agree_off_boundaries 8 Fused.local_t
           (Fused.mk_systime3 0 5 5500) 5
           (fused_reading 5500)
           (Fused.mkState 3%nat 5500 1 65535 1000 10000 100000 5 0 0 false
              5500 5000 0 (Some (held [0; 0] 5500))));
    try reflexivity; try (simpl; lia); try (apply U; simpl; lia);
    try (vm_compute; discriminate).
Defined.

(** ** The widener over a whole run *)

(** A query that always returns and keeps [Inv] can be polled any number
    of times. *)
Lemma poll_total {S A : Type} (q : S -> outcome (A * S)) (Inv : S -> Prop) :
  (forall st, Inv st -> exists a st', q st = Done (a, st') /\ Inv st') ->
  forall n st, Inv st ->
    exists l st', poll q n st = Done (l, st') /\ length l = n /\ Inv st'.
Proof.
  intros Hq. induction n as [|n IH]; intros st Hi; simpl.
  - exists [], st. auto.
  - destruct (Hq st Hi) as [a [s1 [E1 I1]]]. rewrite E1. simpl.
    destruct (IH s1 I1) as [l [s2 [E2 [L2 I2]]]]. rewrite E2. simpl.
    exists (a :: l), s2. simpl. auto.
Qed.

Lemma mod_pow2_wrap (x W : Z) : 0 <= W <= 32 -> wrap x mod 2 ^ W = x mod 2 ^ W.
Proof.
  intros HW. unfold wrap, UINT_MOD, UINT_BITS.
  apply Z.mod_mod_divide. exists (2 ^ (32 - W)).
  rewrite <- Z.pow_add_r by lia. f_equal. lia.
Qed.

(** One step of the widener keeps [wide - mult * raw] modulo 2^W. *)
Lemma widen_keeps_low_bits (tk tm raw last W : Z) :
  0 <= W <= 32 ->
  (wrap (tk + tm * ((raw - last) mod 2 ^ W)) - tm * raw) mod 2 ^ W
  = (tk - tm * last) mod 2 ^ W.
Proof.
  intros HW. assert (P : 0 < 2 ^ W) by (apply Z.pow_pos_nonneg; lia).
  rewrite <- Zminus_mod_idemp_l, mod_pow2_wrap, Zminus_mod_idemp_l by lia.
  pose proof (Z.mod_eq (raw - last) (2 ^ W) ltac:(lia)) as E. rewrite E.
  replace (tk + tm * (raw - last - 2 ^ W * ((raw - last) / 2 ^ W)) - tm * raw)
    with (tk - tm * last + (- tm * ((raw - last) / 2 ^ W)) * 2 ^ W) by ring.
  apply Z.mod_add. lia.
Qed.

Lemma mod_sub_zero (a b M : Z) : (a - b) mod M = 0 -> a mod M = b mod M.
Proof.
  intros H. replace a with ((a - b) + b) at 1 by lia.
  rewrite Zplus_mod, H, Z.add_0_l, Zmod_mod. reflexivity.
Qed.

(** X5.  The widener never fails once a timer is installed, and over any
    number of queries outside pass-through mode the wide counter minus
    [multiplier] times the last raw sample is unchanged modulo 2^W.  So
    where the low W bits of the wide counter agree with [multiplier]
    times the last sample before the queries, they agree after them; a
    difference between the two is kept as well. *)
Theorem widener_follows_register (n : nat) (src : hwsrc) (W : Z)
    (fs : Fused.state) (ss : Split.state) :
  0 <= W <= 32 ->
  Fused.use_hw_systicks fs = false ->
  Fused.systickshw fs = Some src ->
  Fused.mask fs = 2 ^ W - 1 ->
  Split.systime_tick_current ss = Split.tick_internal ->
  Split.systickshw ss = Some src ->
  Split.mask ss = 2 ^ W - 1 ->
  (exists l fs',
      poll Fused.systicks n fs = Done (l, fs') /\ length l = n /\
      Fused.tickmult fs' = Fused.tickmult fs /\
      (Fused.ticks fs' - Fused.tickmult fs * Fused.last_timer_ticks fs') mod 2 ^ W
      = (Fused.ticks fs - Fused.tickmult fs * Fused.last_timer_ticks fs) mod 2 ^ W /\
      ((Fused.ticks fs - Fused.tickmult fs * Fused.last_timer_ticks fs) mod 2 ^ W = 0 ->
       Fused.ticks fs' mod 2 ^ W
       = (Fused.tickmult fs * Fused.last_timer_ticks fs') mod 2 ^ W)) /\
  (exists l ss',
      poll Split.systime_tick n ss = Done (l, ss') /\ length l = n /\
      Split.tickmult ss' = Split.tickmult ss /\
      (Split.systime_curr_ticks ss' - Split.tickmult ss * Split.last_timer_ticks ss')
        mod 2 ^ W
      = (Split.systime_curr_ticks ss - Split.tickmult ss * Split.last_timer_ticks ss)
        mod 2 ^ W /\
      ((Split.systime_curr_ticks ss - Split.tickmult ss * Split.last_timer_ticks ss)
         mod 2 ^ W = 0 ->
       Split.systime_curr_ticks ss' mod 2 ^ W
       = (Split.tickmult ss * Split.last_timer_ticks ss') mod 2 ^ W)).
Proof.
  intros HW Fu Fs Fm Su Ss Sm. split.
  - pose (Inv := fun s : Fused.state =>
      Fused.use_hw_systicks s = false /\ Fused.systickshw s = Some src /\
      Fused.mask s = 2 ^ W - 1 /\ Fused.tickmult s = Fused.tickmult fs /\
      (Fused.ticks s - Fused.tickmult fs * Fused.last_timer_ticks s) mod 2 ^ W
      = (Fused.ticks fs - Fused.tickmult fs * Fused.last_timer_ticks fs) mod 2 ^ W).
    destruct (poll_total Fused.systicks Inv) with (n := n) (st := fs)
      as [l [fs' [E [L [_ [_ [_ [I4 I5]]]]]]]].
    + intros s [I1 [I2 [I3 [I4 I5]]]].
      unfold Fused.systicks, Fused.call_systickshw. rewrite I1, I2. simpl.
      eexists _, _. split; [reflexivity|]. unfold Inv. simpl.
      repeat (split; [assumption|]).
      rewrite I3, land_mask, wrap_add_r, I4, <- I5 by lia.
      rewrite (Z.mul_comm _ (Fused.tickmult fs)).
      apply widen_keeps_low_bits. exact HW.
    + unfold Inv. auto.
    + exists l, fs'. repeat (split; [assumption|]).
      intros Z0. apply mod_sub_zero. rewrite I5. exact Z0.
  - pose (Inv := fun s : Split.state =>
      Split.systime_tick_current s = Split.tick_internal /\
      Split.systickshw s = Some src /\
      Split.mask s = 2 ^ W - 1 /\ Split.tickmult s = Split.tickmult ss /\
      (Split.systime_curr_ticks s - Split.tickmult ss * Split.last_timer_ticks s)
        mod 2 ^ W
      = (Split.systime_curr_ticks ss - Split.tickmult ss * Split.last_timer_ticks ss)
        mod 2 ^ W).
    destruct (poll_total Split.systime_tick Inv) with (n := n) (st := ss)
      as [l [ss' [E [L [_ [_ [_ [I4 I5]]]]]]]].
    + intros s [I1 [I2 [I3 [I4 I5]]]].
      unfold Split.systime_tick, Split.systime_tick_internal, Split.call_fcn.
      rewrite I1, I2. simpl.
      eexists _, _. split; [reflexivity|]. unfold Inv. simpl.
      repeat (split; [assumption|]).
      rewrite I3, land_mask, wrap_add_r, I4, <- I5 by lia.
      rewrite (Z.mul_comm _ (Split.tickmult ss)).
      apply widen_keeps_low_bits. exact HW.
    + unfold Inv. auto.
    + exists l, ss'. repeat (split; [assumption|]).
      intros Z0. apply mod_sub_zero. rewrite I5. exact Z0.
Qed.

Lemma widener_follows_register_witness :
  exists l fs',
    poll Fused.systicks 1 fused_before_wrap = Done (l, fs') /\
    Fused.ticks fs' mod 2 ^ 16 = (1 * Fused.last_timer_ticks fs') mod 2 ^ 16.
Proof.
  destruct (widener_follows_register 1 (samples [0; 0; 500; 65500; 300]) 16
              fused_before_wrap split_before_wrap)
    as [[l [fs' [E [_ [_ [_ I]]]]]] _]; try reflexivity; try lia.
  exists l, fs'. split; [exact E | apply I; reflexivity].
Defined.

(** X6.  What one query of the widener adds, in terms of the hardware
    ticks [d] that really elapsed since the last sample of a W-bit
    register: [multiplier * (d mod 2^W)].  Polled within one register
    period ([d < 2^W]) it adds exactly [multiplier * d], wrapped register
    or not; whole periods that went by unobserved are lost without any
    error. *)
Theorem widener_counts_elapsed_ticks (src : hwsrc) (W d : Z)
    (fs : Fused.state) (ss : Split.state) :
  0 <= W <= 32 -> 0 <= d ->
  Fused.use_hw_systicks fs = false ->
  Fused.systickshw fs = Some src ->
  Fused.mask fs = 2 ^ W - 1 ->
  wrap (src (Fused.hw_reads fs)) = (Fused.last_timer_ticks fs + d) mod 2 ^ W ->
  Split.systime_tick_current ss = Split.tick_internal ->
  Split.systickshw ss = Some src ->
  Split.mask ss = 2 ^ W - 1 ->
  wrap (src (Split.hw_reads ss)) = (Split.last_timer_ticks ss + d) mod 2 ^ W ->
  (exists fs',
      Fused.systicks fs = Done (Fused.ticks fs', fs') /\
      Fused.ticks fs' = wrap (Fused.ticks fs + Fused.tickmult fs * (d mod 2 ^ W)) /\
      (d < 2 ^ W ->
       Fused.ticks fs' = wrap (Fused.ticks fs + Fused.tickmult fs * d))) /\
  (exists ss',
      Split.systime_tick ss = Done (Split.systime_curr_ticks ss', ss') /\
      Split.systime_curr_ticks ss' =
        wrap (Split.systime_curr_ticks ss + Split.tickmult ss * (d mod 2 ^ W)) /\
      (d < 2 ^ W ->
       Split.systime_curr_ticks ss' =
         wrap (Split.systime_curr_ticks ss + Split.tickmult ss * d))).
Proof.
  intros HW Hd Fu Fs Fm Fr Su Ss Sm Sr.
  assert (P : 0 < 2 ^ W) by (apply Z.pow_pos_nonneg; lia).
  assert (A : forall last, ((last + d) mod 2 ^ W - last) mod 2 ^ W = d mod 2 ^ W).
  { intros last. rewrite Zminus_mod_idemp_l. f_equal. lia. }
  split.
  - destruct (fused_systicks_step fs src W HW Fu Fs Fm) as [fs' [E [Et _]]].
    exists fs'. split; [exact E|]. rewrite Fr, A in Et. split; [exact Et|].
    intros Hlt. rewrite Et, Z.mod_small by lia. reflexivity.
  - destruct (split_systime_tick_step ss src W HW Su Ss Sm) as [ss' [E [Et _]]].
    exists ss'. split; [exact E|]. rewrite Sr, A in Et. split; [exact Et|].
    intros Hlt. rewrite Et, Z.mod_small by lia. reflexivity.
Qed.

Lemma widener_counts_elapsed_ticks_witness :
  exists fs' ss',
    Fused.systicks fused_before_wrap = Done (65500 + 336, fs') /\
    Split.systime_tick split_before_wrap = Done (65500 + 336, ss').
Proof.
  destruct (widener_counts_elapsed_ticks (samples [0; 0; 500; 65500; 300]) 16 336
              fused_before_wrap split_before_wrap)
    as [[fs' [E1 [_ V1]]] [ss' [E2 [_ V2]]]]; try reflexivity; try lia.
  exists fs', ss'. rewrite E1, E2, V1, V2 by (simpl; lia). split; reflexivity.
Defined.

(** ** The seconds layer under a fixed hardware reading *)

Lemma split_sec_loop_keeps (ms_fuel : nat) :
  forall (fuel : nat) (st st' : Split.state),
    Split.systime_sec_loop ms_fuel fuel st = Done st' ->
    Split.source st' = Split.source st /\
    (Split.hw_reads st <= Split.hw_reads st')%nat /\
    Split.ticks1ms st' = Split.ticks1ms st.
Proof.
  induction fuel as [|f IH]; intros st st'; simpl;
    destruct (Split.systime_ms false ms_fuel st) as [[m st1]| |] eqn:E;
    simpl; try discriminate;
    pose proof (split_ms_keeps _ _ _ _ _ E) as [_ [Kr [Ks [Kt _]]]];
    destruct (wrap (m - Split.last_ms st1) >=? 1000); try discriminate.
  - intros H. injection H as <-. rewrite Ks, Kr, Kt. repeat split. lia.
  - intros H. apply IH in H. destruct H as [H1 [H2 H3]].
    rewrite H1, H3. simpl in H2. rewrite <- Ks, <- Kt.
    repeat split; try (destruct st1; reflexivity). lia.
  - intros H. injection H as <-. rewrite Ks, Kr, Kt. repeat split. lia.
Qed.

(** A seconds query under a fixed hardware reading, in either build:
    everything it leaves. *)
Lemma split_sec_steady_more (div_inst : bool) (fuel : nat) (src : hwsrc) (m : Z)
    (st st1 : Split.state) :
  Split.source st = Some src ->
  steady src (Split.hw_reads st) ->
  0 <= Split.ticks1ms st ->
  is_uint (Split.last_ms st) ->
  is_uint (Split.systime_curr_sec st) ->
  Split.systime_ms div_inst fuel st = Done (m, st1) ->
  wrap (m - Split.last_ms st) / 1000 <= Z.of_nat fuel ->
  exists st',
    Split.systime_sec div_inst fuel st = Done (Split.systime_curr_sec st', st') /\
    Split.systime_curr_sec st' =
      wrap (Split.systime_curr_sec st + wrap (m - Split.last_ms st) / 1000) /\
    Split.last_ms st' =
      wrap (Split.last_ms st + 1000 * (wrap (m - Split.last_ms st) / 1000)) /\
    wrap (m - Split.last_ms st') = wrap (m - Split.last_ms st) mod 1000 /\
    Split.systime_curr_ms st' = m /\
    Split.source st' = Some src /\
    (Split.hw_reads st <= Split.hw_reads st')%nat /\
    Split.ticks1ms st' = Split.ticks1ms st /\
    (forall fuel',
        Split.systime_ms div_inst fuel' st' =
          Done (m, Split.set_hw_reads (S (Split.hw_reads st')) st')).
Proof.
  intros Hs Hst Ht Hl Hc H Hn.
  pose proof (split_ms_keeps _ _ _ _ _ H) as [Km [Kr [Ks [Kt [_ [Kl Kc]]]]]].
  pose proof (wrap_range (m - Split.last_ms st)) as R.
  assert (Hres : wrap (m - wrap (Split.last_ms st
                                 + 1000 * (wrap (m - Split.last_ms st) / 1000)))
                 = wrap (m - Split.last_ms st) mod 1000).
  { pose proof (Z.mul_div_le (wrap (m - Split.last_ms st)) 1000 ltac:(lia)).
    assert (0 <= wrap (m - Split.last_ms st) / 1000) by (apply Z.div_pos; lia).
    rewrite residual_advance by lia.
    rewrite (Z.mod_eq _ 1000) by lia. reflexivity. }
  destruct div_inst.
  - unfold Split.systime_sec. rewrite H. simpl. unfold catchup_div. simpl.
    eexists (Split.set_last_ms _ (Split.set_systime_curr_sec _ st1)).
    split; [reflexivity|]. simpl. rewrite Kl, Kc.
    split; [reflexivity|].
    split; [rewrite wrap_add_r; f_equal; lia|].
    split; [rewrite wrap_add_r, (Z.mul_comm _ 1000); exact Hres|].
    split; [auto|]. split; [rewrite <- Hs, <- Ks; destruct st1; reflexivity|].
    split; [lia|]. split; [exact Kt|]. intros fuel'.
    change (Split.set_last_ms ?a (Split.set_systime_curr_sec ?b st1))
      with (Split.set_systime_curr_sec b (Split.set_last_ms a st1)).
    rewrite split_ms_frame.
    rewrite (split_ms_stable true fuel fuel' src m st st1) by assumption.
    reflexivity.
  - destruct (split_sec_loop_steady fuel src m fuel st st1)
      as [st' [E [Ec [El [_ [Em [_ [_ Es]]]]]]]]; auto.
    destruct (split_sec_loop_keeps fuel fuel st st' E) as [Q1 [Q2 Q3]].
    exists st'. unfold Split.systime_sec. rewrite E. simpl.
    split; [reflexivity|]. split; [exact Ec|]. split; [exact El|].
    split; [rewrite El; exact Hres|]. split; [exact Em|].
    split; [congruence|]. split; [exact Q2|]. split; [exact Q3|]. exact Es.
Qed.

(** X7.  The seconds layer of the layered packaging does not have the
    off-by-one of the millisecond layer: under a fixed hardware reading
    [systime_sec], in either build, adds exactly [(ms - last_ms) / 1000]
    to the seconds counter, advances [last_ms] by 1000 times as much and
    leaves a residual [(ms - last_ms) mod 1000], below 1000. *)
Theorem split_sec_folds_whole_seconds (div_inst : bool) (fuel : nat)
    (src : hwsrc) (m : Z) (st st1 : Split.state) :
  Split.source st = Some src ->
  steady src (Split.hw_reads st) ->
  0 <= Split.ticks1ms st ->
  is_uint (Split.last_ms st) ->
  is_uint (Split.systime_curr_sec st) ->
  Split.systime_ms div_inst fuel st = Done (m, st1) ->
  wrap (m - Split.last_ms st) / 1000 <= Z.of_nat fuel ->
  exists st',
    Split.systime_sec div_inst fuel st = Done (Split.systime_curr_sec st', st') /\
    Split.systime_curr_sec st' =
      wrap (Split.systime_curr_sec st + wrap (m - Split.last_ms st) / 1000) /\
    Split.last_ms st' =
      wrap (Split.last_ms st + 1000 * (wrap (m - Split.last_ms st) / 1000)) /\
    Split.systime_curr_ms st' = m /\
    wrap (Split.systime_curr_ms st' - Split.last_ms st')
      = wrap (m - Split.last_ms st) mod 1000 /\
    wrap (Split.systime_curr_ms st' - Split.last_ms st') < 1000.
Proof.
  intros Hs Hst Ht Hl Hc H Hn.
  destruct (split_sec_steady_more div_inst fuel src m st st1)
    as [st' [E [Ec [El [Er [Em _]]]]]]; auto.
  exists st'. rewrite Em, Er.
  split; [exact E|]. split; [exact Ec|]. split; [exact El|].
  split; [reflexivity|]. split; [reflexivity|].
  apply Z.mod_pos_bound. lia.
Qed.

Lemma split_sec_folds_whole_seconds_witness :
  exists st',
    Split.systime_sec false 8 (split_counted 3500) = Done (3, st') /\
    wrap (Split.systime_curr_ms st' - Split.last_ms st') = 504.
Proof.
  assert (U : forall z, 0 <= z < 4294967296 -> is_uint z)
    by (intros z Hz; unfold is_uint; rewrite UINT_MOD_eq; exact Hz).
  destruct (split_sec_folds_whole_seconds false 8 (held [0; 0] 5000) 3504
              (split_counted 3500)
              (Split.mkState 3%nat (Some (held [0; 0] 5000)) Split.tick_internal
                 5000 5000 65535 1 4000 1000 50000 3504 0 0))
    as [st' [E [Ec [_ [_ [Er _]]]]]].
  - reflexivity.
  - apply (held_steady [0; 0] 5000).
  - simpl; lia.
  - apply U; simpl; lia.
  - apply U; simpl; lia.
  - vm_compute; reflexivity.
  - vm_compute; discriminate.
  - exists st'. rewrite E, Ec, Er. split; reflexivity.
Defined.

(** Polling a query at a state it maps to an equivalent one. *)
Lemma poll_const {S A : Type} (q : S -> outcome (A * S)) (Inv : S -> Prop) (a : A) :
  (forall st, Inv st -> exists st', q st = Done (a, st') /\ Inv st') ->
  forall n st, Inv st ->
    exists st', poll q n st = Done (repeat a n, st') /\ Inv st'.
Proof.
  intros Hq. induction n as [|n IH]; intros st Hi; simpl.
  - exists st. auto.
  - destruct (Hq st Hi) as [s1 [E1 I1]]. rewrite E1. simpl.
    destruct (IH s1 I1) as [s2 [E2 I2]]. rewrite E2. simpl.
    exists s2. auto.
Qed.

(** X8.  Setting and reading back the seconds in the layered packaging:
    under a fixed hardware reading, after [systime_sec_set(T)] every later
    [systime_sec()] returns [T]: any number of calls, in either build and
    with any loop budget. *)
Theorem split_sec_set_then_sec (div_inst : bool) (fuel : nat) (T : Z)
    (src : hwsrc) (m : Z) (st st1 : Split.state) :
  is_uint T ->
  Split.source st = Some src ->
  steady src (Split.hw_reads st) ->
  0 <= Split.ticks1ms st ->
  is_uint (Split.last_ms st) ->
  is_uint (Split.systime_curr_sec st) ->
  Split.systime_ms div_inst fuel st = Done (m, st1) ->
  wrap (m - Split.last_ms st) / 1000 <= Z.of_nat fuel ->
  exists st2,
    Split.systime_sec_set div_inst fuel T st = Done st2 /\
    forall (fuel' n : nat), exists st3,
      poll (Split.systime_sec div_inst fuel') n st2 = Done (repeat T n, st3) /\
      Split.systime_curr_sec st3 = T.
Proof.
  intros HT Hs Hst Ht Hl Hc H Hn.
  destruct (split_sec_steady_more div_inst fuel src m st st1)
    as [st' [E [_ [El [Er [Em [Qs [Qr [Qt Es]]]]]]]]]; auto.
  exists (Split.set_systime_curr_sec T st').
  split; [rewrite split_sec_set_eq by exact HT; rewrite E; reflexivity|].
  intros fuel' n.
  set (Inv := fun s : Split.state =>
                Split.source s = Some src /\
                steady src (Split.hw_reads s) /\
                0 <= Split.ticks1ms s /\
                is_uint (Split.last_ms s) /\
                Split.systime_curr_sec s = T /\
                (forall f, Split.systime_ms div_inst f s =
                             Done (m, Split.set_hw_reads (S (Split.hw_reads s)) s)) /\
                wrap (m - Split.last_ms s) / 1000 = 0).
  assert (Small : forall r, (r mod 1000) / 1000 = 0)
    by (intros r; apply Z.div_small; apply Z.mod_pos_bound; lia).
  destruct (poll_const (Split.systime_sec div_inst fuel') Inv T)
    with (n := n) (st := Split.set_systime_curr_sec T st') as [st3 [P I3]].
  - intros s [I1 [I2 [I3 [I4 [I5 [I6 I7]]]]]].
    destruct (split_sec_steady_more div_inst fuel' src m s
                (Split.set_hw_reads (S (Split.hw_reads s)) s))
      as [s' [E' [Ec' [El' [Er' [_ [Qs' [Qr' [Qt' Es']]]]]]]]]; auto.
    + rewrite I5. exact HT.
    + rewrite I7. lia.
    + rewrite I7, Z.add_0_r, I5 in Ec'.
      unfold is_uint in HT. rewrite UINT_MOD_eq in HT.
      rewrite wrap_small in Ec' by exact HT.
      exists s'. rewrite Ec' in E'. split; [exact E'|].
      unfold Inv. split; [exact Qs'|].
      split; [apply steady_later with (k := Split.hw_reads s); assumption|].
      split; [rewrite Qt'; exact I3|].
      split; [rewrite El'; apply wrap_is_uint|].
      split; [exact Ec'|]. split; [exact Es'|].
      rewrite Er'. apply Small.
  - unfold Inv.
    split; [rewrite <- Qs; destruct st'; reflexivity|].
    split; [apply steady_later with (k := Split.hw_reads st);
            [exact Hst | destruct st'; exact Qr]|].
    split; [destruct st'; simpl in *; lia|].
    split; [destruct st'; simpl in *; rewrite El; apply wrap_is_uint|].
    split; [destruct st'; reflexivity|].
    split; [intros f; rewrite split_ms_frame_sec, Es; reflexivity|].
    replace (Split.last_ms (Split.set_systime_curr_sec T st'))
      with (Split.last_ms st') by (destruct st'; reflexivity).
    rewrite Er. apply Small.
  - exists st3. split; [exact P|].
    destruct I3 as [_ [_ [_ [_ [I5 _]]]]]. exact I5.
Qed.

Lemma split_sec_set_then_sec_witness :
  exists st2,
    Split.systime_sec_set false 8 77 (split_counted 3500) = Done st2 /\
    exists st3, poll (Split.systime_sec false 0) 3 st2 = Done ([77; 77; 77], st3).
Proof.
  assert (U : forall z, 0 <= z < 4294967296 -> is_uint z)
    by (intros z Hz; unfold is_uint; rewrite UINT_MOD_eq; exact Hz).
  destruct (split_sec_set_then_sec false 8 77 (held [0; 0] 5000) 3504
              (split_counted 3500)
              (Split.mkState 3%nat (Some (held [0; 0] 5000)) Split.tick_internal
                 5000 5000 65535 1 4000 1000 50000 3504 0 0))
    as [st2 [E A]].
  - apply U; lia.
  - reflexivity.
  - apply (held_steady [0; 0] 5000).
  - simpl; lia.
  - apply U; simpl; lia.
  - apply U; simpl; lia.
  - vm_compute; reflexivity.
  - vm_compute; discriminate.
  - exists st2. split; [exact E|]. destruct (A 0%nat 3%nat) as [st3 [E3 _]].
    exists st3. exact E3.
Defined.

(** ** The fused packaging under a fixed hardware reading *)

(** X9.  With the hardware reading fixed, the fused packaging stands
    still: once [systime3] has returned, any number of further
    [systime_ms()] calls return the same milliseconds, any number of
    [systime()] calls the same seconds, and the accumulators stay as the
    first call left them.  In the loop build this needs the 10 ms and
    100 ms chunks not to have wrapped below [ticks1ms]. *)
Theorem fused_stands_still_under_fixed_reading (div_inst : bool) (fuel : nat)
    (src : hwsrc) (t t' : option Fused.systime3_t) (ms : Z)
    (st st1 : Fused.state) :
  Fused.systickshw st = Some src ->
  steady src (Fused.hw_reads st) ->
  0 <= Fused.ticks1ms st ->
  (div_inst = false ->
   Fused.ticks1ms st <= Fused.ticks10ms st /\
   Fused.ticks1ms st <= Fused.ticks100ms st) ->
  Fused.systime3 div_inst fuel t st = Done (ms, t', st1) ->
  forall (fuel' n : nat),
    (exists st2,
        poll (Fused.systime_ms div_inst fuel') n st1 = Done (repeat ms n, st2) /\
        Fused.milisec st2 = ms /\ Fused.sec st2 = Fused.sec st1 /\
        Fused.last_systime_ticks st2 = Fused.last_systime_ticks st1 /\
        Fused.last_ms st2 = Fused.last_ms st1) /\
    (exists st2,
        poll (Fused.systime div_inst fuel') n st1
          = Done (repeat (wrap (Fused.sec st1 + Fused.sec_offset st1)) n, st2)).
Proof.
  intros Hs Hst Ht Hc H fuel' n.
  set (Inv := fun s : Fused.state =>
                Fused.systickshw s = Some src /\
                steady src (Fused.hw_reads s) /\
                0 <= Fused.ticks1ms s /\
                (div_inst = false ->
                 Fused.ticks1ms s <= Fused.ticks10ms s /\
                 Fused.ticks1ms s <= Fused.ticks100ms s) /\
                Fused.milisec s = ms /\ Fused.sec s = Fused.sec st1 /\
                Fused.sec_offset s = Fused.sec_offset st1 /\
                Fused.last_systime_ticks s = Fused.last_systime_ticks st1 /\
                Fused.last_ms s = Fused.last_ms st1 /\
                exists now, forall f t2,
                  Fused.systime3 div_inst f t2 s =
                    Done (ms, Fused.fill t2 (wrap (Fused.sec s + Fused.sec_offset s))
                                ms now,
                          Fused.set_hw_reads (S (Fused.hw_reads s)) s)).
  assert (Step : forall s, Inv s -> Inv (Fused.set_hw_reads (S (Fused.hw_reads s)) s)).
  { intros s [I1 [I2 [I3 [I4 [I5 [I6 [I7 [I8 [I9 [now I10]]]]]]]]]].
    destruct (fused_systime3_stable div_inst fuel' src None None ms s _
                I1 I2 I3 I4 (I10 fuel' None)) as [now' [_ [_ E]]].
    unfold Inv. destruct s; simpl in *.
    repeat (split; [first [assumption | reflexivity
                          | apply steady_later with (k := hw_reads); [assumption|lia]]|]).
    exists now'. exact E. }
  assert (I0 : Inv st1).
  { destruct (fused_systime3_stable div_inst fuel src t t' ms st st1
                Hs Hst Ht Hc H) as [now [_ [Em E]]].
    unfold Fused.systime3 in H.
    destruct (if Fused.use_hw_systicks st then Fused.call_systickshw st
              else Fused.systicks st) as [[nw st0]| |] eqn:Q;
      cbn [bind] in H; try discriminate.
    destruct (fused_sample_stable src nw st st0 Hs Hst Q)
      as [Kr [Ks [Ko [K1 [K10 [K100 _]]]]]].
    destruct (Fused.accumulate div_inst fuel nw st0) as [sa| |] eqn:A;
      cbn [bind] in H; try discriminate.
    injection H as _ _ <-.
    destruct (fused_accumulate_stable div_inst fuel fuel nw st0 sa)
      as [_ Sh]; [rewrite K1; exact Ht | rewrite K1, K10, K100; exact Hc
                  | exact A |].
    assert (P : Fused.systickshw sa = Fused.systickshw st0 /\
                Fused.hw_reads sa = Fused.hw_reads st0 /\
                Fused.ticks1ms sa = Fused.ticks1ms st0 /\
                Fused.ticks10ms sa = Fused.ticks10ms st0 /\
                Fused.ticks100ms sa = Fused.ticks100ms st0)
      by (rewrite Sh; destruct st0; repeat split; reflexivity).
    destruct P as [P1 [P2 [P3 [P4 P5]]]].
    unfold Inv. rewrite P1, P2, P3, P4, P5, Kr, K1, K10, K100.
    split; [exact Ks|].
    split; [apply steady_later with (k := Fused.hw_reads st); [exact Hst|lia]|].
    split; [exact Ht|]. split; [exact Hc|].
    split; [symmetry; exact Em|]. repeat (split; [reflexivity|]).
    exists now. rewrite <- Kr, <- P2. exact E. }
  split.
  - destruct (poll_const (Fused.systime_ms div_inst fuel') Inv ms) with (n := n) (st := st1)
      as [st2 [E I2]]; [|exact I0|].
    + intros s Hi. pose proof (Step s Hi) as Hi'.
      destruct Hi as [_ [_ [_ [_ [_ [_ [_ [_ [_ [now I10]]]]]]]]]].
      exists (Fused.set_hw_reads (S (Fused.hw_reads s)) s).
      unfold Fused.systime_ms. rewrite (I10 fuel' None). split; [reflexivity|exact Hi'].
    + exists st2. split; [exact E|].
      destruct I2 as [_ [_ [_ [_ [I5 [I6 [_ [I8 [I9 _]]]]]]]]]. auto.
  - destruct (poll_const (Fused.systime div_inst fuel') Inv
                (wrap (Fused.sec st1 + Fused.sec_offset st1)))
      with (n := n) (st := st1) as [st2 [E _]]; [|exact I0|].
    + intros s Hi. pose proof (Step s Hi) as Hi'.
      destruct Hi as [_ [_ [_ [_ [_ [I6 [I7 [_ [_ [now I10]]]]]]]]]].
      exists (Fused.set_hw_reads (S (Fused.hw_reads s)) s).
      unfold Fused.systime. rewrite (I10 fuel' (Some Fused.local_t)).
      simpl. rewrite I6, I7. split; [reflexivity|exact Hi'].
    + exists st2. exact E.
Qed.

Lemma fused_stands_still_witness :
  exists st1 st2,
    Fused.systime3 false 8 None fused_running = Done (4, None, st1) /\
    poll (Fused.systime_ms false 0) 3 st1 = Done ([4; 4; 4], st2) /\
    Fused.last_systime_ticks st2 = 4000.
Proof.
  exists (Fused.mkState 3%nat 5000 1 65535 1000 10000 100000 4 0 0 false
            5000 4000 0 (Some (held [0; 0] 5000))).
  destruct (fused_stands_still_under_fixed_reading false 8 (held [0; 0] 5000)
              None None 4 fused_running
              (Fused.mkState 3%nat 5000 1 65535 1000 10000 100000 4 0 0 false
                 5000 4000 0 (Some (held [0; 0] 5000))))
    with (fuel' := 0%nat) (n := 3%nat) as [[st2 [E [_ [_ [El _]]]]] _].
  - reflexivity.
  - apply (held_steady [0; 0] 5000).
  - simpl; lia.
  - intros _; simpl; lia.
  - vm_compute; reflexivity.
  - exists st2. split; [vm_compute; reflexivity|]. split; [exact E | exact El].
Defined.




(** ** Adjusting the offset *)

(** X11.  [systime_adj] only accumulates: two adjustments are one
    adjustment by the wrapped sum, the seconds [systimelast()] reports
    move by exactly the adjustment, and adjusting by [-a] afterwards
    brings the offset back. *)
Theorem systime_adj_composes (a b : Z) (st : Fused.state) :
  Fused.systime_adj b (Fused.systime_adj a st) = Fused.systime_adj (wrap (a + b)) st /\
  fst (Fused.systimelast (Fused.systime_adj a st))
    = wrap (fst (Fused.systimelast st) + a) /\
  Fused.systime_adj (wrap (- a)) (Fused.systime_adj a st)
    = Fused.set_sec_offset (wrap (Fused.sec_offset st)) st.
Proof.
  destruct st as [k tk tm mk t1 t10 t100 ms sc so hwm ltt lst lms hw].
  unfold Fused.systime_adj, Fused.systimelast, Fused.systimelast3. simpl.
  unfold Fused.set_sec_offset. simpl.
  split; [|split].
  - rewrite wrap_add_l, wrap_add_r, Z.add_assoc. reflexivity.
  - rewrite wrap_add_r, wrap_add_l, Z.add_assoc. reflexivity.
  - rewrite wrap_add_l, wrap_add_r. do 2 f_equal. lia.
Qed.

(** ** Queries without a timer, and a zero divisor *)

(** X12.  Nothing checks the timer callback.  While no callback is
    installed every query calls through the null pointer, in both
    packagings and both builds, whatever the loop budget; and the init
    functions call the callback they are given at once, so a null
    callback already fails inside the init. *)
Theorem queries_without_timer_fault (fs : Fused.state) (ss : Split.state) :
  Fused.systickshw fs = None ->
  Split.source ss = None ->
  (Fused.systicks fs = Fault /\
   forall div_inst fuel,
     (forall t, Fused.systime3 div_inst fuel t fs = Fault) /\
     Fused.systime div_inst fuel fs = Fault /\
     Fused.systime_ms div_inst fuel fs = Fault /\
     (forall now, Fused.systime_set div_inst fuel now fs = Fault)) /\
  (Split.systime_tick ss = Fault /\
   forall div_inst fuel,
     Split.systime_ms div_inst fuel ss = Fault /\
     Split.systime_sec div_inst fuel ss = Fault /\
     (forall T, Split.systime_sec_set div_inst fuel T ss = Fault) /\
     (forall start, Split.systime_tick_elapsed start ss = Fault)) /\
  (forall div_inst ulong_bits hw_bits mult tpm st,
      Fused.systime_init div_inst ulong_bits None hw_bits mult tpm st = Fault) /\
  (forall ulong_bits hw_bits mult st,
      Split.systime_tick_init ulong_bits None hw_bits mult st = Fault).
Proof.
  intros Hf Hs.
  assert (F1 : Fused.systicks fs = Fault).
  { unfold Fused.systicks, Fused.call_systickshw. rewrite Hf.
    destruct (Fused.use_hw_systicks fs); reflexivity. }
  assert (F3 : forall d fuel t, Fused.systime3 d fuel t fs = Fault).
  { intros d fuel t. unfold Fused.systime3. rewrite F1.
    unfold Fused.call_systickshw. rewrite Hf.
    destruct (Fused.use_hw_systicks fs); reflexivity. }
  assert (S1 : Split.systime_tick ss = Fault).
  { unfold Split.systime_tick, Split.systime_tick_internal, Split.source,
      Split.call_fcn in *.
    destruct (Split.systime_tick_current ss); rewrite Hs; reflexivity. }
  assert (S2 : forall d fuel, Split.systime_ms d fuel ss = Fault).
  { intros d fuel. unfold Split.systime_ms. rewrite S1. reflexivity. }
  assert (S3 : forall d fuel, Split.systime_sec d fuel ss = Fault).
  { intros d fuel. unfold Split.systime_sec. destruct d.
    - rewrite S2. reflexivity.
    - destruct fuel; simpl; rewrite S2; reflexivity. }
  split; [|split; [|split]].
  - split; [exact F1|]. intros d fuel.
    split; [apply F3|].
    split; [unfold Fused.systime; rewrite F3; reflexivity|].
    split; [unfold Fused.systime_ms; rewrite F3; reflexivity|].
    intros now; unfold Fused.systime_set, Fused.systime;
      rewrite F3; reflexivity.
  - split; [exact S1|]. intros d fuel.
    split; [apply S2|]. split; [apply S3|].
    split; [intros T; unfold Split.systime_sec_set; rewrite S3; reflexivity|].
    intros start. unfold Split.systime_tick_elapsed. rewrite S1. reflexivity.
  - intros d ub hw mult tpm st. unfold Fused.systime_init, mask_of.
    destruct ((hw =? 8 * 4) && (mult =? 1)); [|destruct (hw <? ub)];
      cbn [bind]; unfold Fused.systicks, Fused.call_systickshw;
      destruct d, st; reflexivity.
  - intros ub hw mult st. unfold Split.systime_tick_init, mask_of.
    destruct ((hw =? 8 * 4) && (mult =? 1)); [|destruct (hw <? ub)];
      cbn [bind];
      unfold Split.systime_tick, Split.systime_tick_internal, Split.call_fcn;
      destruct st; reflexivity.
Qed.

Lemma queries_without_timer_fault_witness :
  Fused.systime_ms false 0 Fused.boot = Fault /\
  Split.systime_sec true 0 Split.boot = Fault.
Proof.
  destruct (queries_without_timer_fault Fused.boot Split.boot eq_refl eq_refl)
    as [[_ A] [[_ B] _]].
  split; [exact (proj1 (proj2 (proj2 (A false 0%nat))))
         | exact (proj1 (proj2 (B true 0%nat)))].
Defined.

Lemma catchup_div_zero (now last acc : Z) : catchup_div now 0 last acc = Fault.
Proof. reflexivity. Qed.

(** X13.  In the divide builds a zero [ticks1ms] is a division by zero in
    every query that reaches the millisecond stage, although the init
    functions had accepted it: [systime_init] does not run that stage and
    returns, [systime_time_init] runs it and fails itself. *)
Theorem divide_build_zero_ticks_per_ms_faults (fuel : nat)
    (fs : Fused.state) (ss : Split.state) :
  Fused.ticks1ms fs = 0 ->
  Split.ticks1ms ss = 0 ->
  (forall t, Fused.systime3 true fuel t fs = Fault) /\
  Fused.systime true fuel fs = Fault /\
  Fused.systime_ms true fuel fs = Fault /\
  (forall now, Fused.systime_set true fuel now fs = Fault) /\
  Split.systime_ms true fuel ss = Fault /\
  Split.systime_sec true fuel ss = Fault /\
  (forall T, Split.systime_sec_set true fuel T ss = Fault) /\
  (forall st, Split.systime_time_init true fuel 0 st = Fault).
Proof.
  intros Hf Hs.
  assert (F3 : forall t, Fused.systime3 true fuel t fs = Fault).
  { intros t.
    destruct fs as [k tk tm mk t1 t10 t100 ms sc so hwm ltt lst lms hw].
    simpl in Hf. subst t1.
    unfold Fused.systime3, Fused.systicks, Fused.call_systickshw,
      Fused.accumulate.
    destruct hwm, hw; reflexivity. }
  assert (S2 : forall st, Split.ticks1ms st = 0 ->
                          Split.systime_ms true fuel st = Fault).
  { intros st H0.
    destruct st as [k hw cur ltt ct mk tm lst t1 t50 cms cs lms].
    simpl in H0. subst t1.
    unfold Split.systime_ms, Split.systime_tick, Split.systime_tick_internal,
      Split.call_fcn.
    destruct cur as [|[f|]]; [destruct hw|..]; reflexivity. }
  assert (S3 : Split.systime_sec true fuel ss = Fault)
    by (unfold Split.systime_sec; rewrite (S2 ss Hs); reflexivity).
  split; [exact F3|].
  split; [unfold Fused.systime; rewrite F3; reflexivity|].
  split; [unfold Fused.systime_ms; rewrite F3; reflexivity|].
  split; [intros now; unfold Fused.systime_set, Fused.systime;
          rewrite F3; reflexivity|].
  split; [exact (S2 ss Hs)|]. split; [exact S3|].
  split; [intros T; unfold Split.systime_sec_set; rewrite S3; reflexivity|].
  intros st. unfold Split.systime_time_init.
  rewrite S2; [reflexivity | destruct st; reflexivity].
Qed.

Lemma divide_build_zero_ticks_per_ms_faults_witness :
  (exists st,
      Fused.systime_init true 32 (Some (samples [])) 16 1 0 Fused.boot = Done st /\
      Fused.systime_ms true 0 st = Fault) /\
  Split.systime_ms true 0 (Split.set_ticks1ms 0 split_running) = Fault.
Proof.
  split.
  - eexists. split; [vm_compute; reflexivity|].
    refine (proj1 (proj2 (proj2
              (divide_build_zero_ticks_per_ms_faults 0 _
                 (Split.set_ticks1ms 0 split_running) _ _))));
      reflexivity.
  - refine (proj1 (proj2 (proj2 (proj2 (proj2
              (divide_build_zero_ticks_per_ms_faults 0
                 (Fused.set_ticks1ms 0 fused_running)
                 (Split.set_ticks1ms 0 split_running) _ _))))));
      reflexivity.
Defined.

(** ** What a query leaves between the counter and the accounted value *)

Lemma catchup_div_done (now per last acc l a : Z) :
  0 <= per ->
  catchup_div now per last acc = Done (l, a) ->
  0 < per /\
  wrap (now - l) = wrap (now - last) mod per /\
  a = wrap (acc + wrap (now - last) / per).
Proof.
  intros Hp H. unfold catchup_div in H.
  destruct (per =? 0) eqn:Z0; [discriminate|].
  apply Z.eqb_neq in Z0. assert (P : 0 < per) by lia.
  destruct (catchup_div_closed now per last acc P) as [_ R].
  injection H as <- <-. rewrite wrap_add_r. auto.
Qed.

Lemma fused_accumulate_residual (div_inst : bool) (fuel : nat) (now : Z)
    (st st1 : Fused.state) :
  0 <= Fused.ticks1ms st ->
  Fused.accumulate div_inst fuel now st = Done st1 ->
  Fused.ticks1ms st1 = Fused.ticks1ms st /\
  Fused.sec_offset st1 = Fused.sec_offset st /\
  (if div_inst
   then wrap (now - Fused.last_systime_ticks st1) < Fused.ticks1ms st
   else wrap (now - Fused.last_systime_ticks st1) <= Fused.ticks1ms st) /\
  (if div_inst
   then wrap (Fused.milisec st1 - Fused.last_ms st1) < 1000
   else wrap (Fused.milisec st1 - Fused.last_ms st1) <= 1000).
Proof.
  intros Ht H.
  destruct st as [k tk tm mk t1 t10 t100 ms sc so hwm ltt lst lms hw].
  unfold Fused.accumulate in H.
  cbn [Fused.ticks1ms Fused.ticks10ms Fused.ticks100ms Fused.milisec Fused.sec
       Fused.last_systime_ticks Fused.last_ms Fused.set_milisec Fused.set_sec
       Fused.set_last_systime_ticks Fused.set_last_ms Fused.hw_reads Fused.ticks
       Fused.tickmult Fused.mask Fused.sec_offset Fused.use_hw_systicks
       Fused.last_timer_ticks Fused.systickshw] in *.
  destruct div_inst.
  - destruct (catchup_div now t1 lst ms) as [[l m]| |] eqn:E1;
      cbn [bind] in H; try discriminate.
    destruct (catchup_div m 1000 lms sc) as [[l2 s2]| |] eqn:E2;
      cbn [bind] in H; try discriminate.
    injection H as <-.
    destruct (catchup_div_done _ _ _ _ _ _ Ht E1) as [P1 [R1 _]].
    destruct (catchup_div_done m 1000 lms sc l2 s2 ltac:(lia) E2) as [P2 [R2 _]].
    simpl. rewrite R1, R2.
    repeat split; try (apply Z.mod_pos_bound; lia).
  - destruct (catchup_gt fuel now t100 100 lst ms) as [[l1 m1]| |] eqn:E1;
      cbn [bind] in H; try discriminate.
    destruct (catchup_gt fuel now t10 10 l1 m1) as [[l2 m2]| |] eqn:E2;
      cbn [bind] in H; try discriminate.
    destruct (catchup_gt fuel now t1 1 l2 m2) as [[l3 m3]| |] eqn:E3;
      cbn [bind] in H; try discriminate.
    destruct (catchup_gt fuel m3 1000 1 lms sc) as [[l4 s4]| |] eqn:E4;
      cbn [bind] in H; try discriminate.
    injection H as <-.
    apply catchup_gt_post in E3, E4. simpl. repeat split; lia.
Qed.

(** X14.  The "last" query after the "current" one.  Right after
    [systime3(&a)], [systimelast3(&b)] returns the same milliseconds and
    fills the same seconds and milliseconds, but its [ticks] field is the
    accounted tick, not the tick counter: it trails the ticks [systime3]
    reported by the residual, which is below one millisecond of ticks in
    the divide build and at most one millisecond in the loop build.  The
    milliseconds not yet folded into seconds are likewise below 1000,
    respectively at most 1000. *)
Theorem fused_last_trails_current (div_inst : bool) (fuel : nat)
    (a b ta : Fused.systime3_t) (ms : Z) (st st1 : Fused.state) :
  0 <= Fused.ticks1ms st ->
  Fused.systime3 div_inst fuel (Some a) st = Done (ms, Some ta, st1) ->
  exists tb,
    Fused.systimelast3 (Some b) st1 = (ms, Some tb, st1) /\
    Fused.t_sec tb = Fused.t_sec ta /\
    Fused.t_msec tb = Fused.t_msec ta /\
    Fused.t_ticks tb = Fused.last_systime_ticks st1 /\
    (if div_inst
     then wrap (Fused.t_ticks ta - Fused.t_ticks tb) < Fused.ticks1ms st
     else wrap (Fused.t_ticks ta - Fused.t_ticks tb) <= Fused.ticks1ms st) /\
    (if div_inst
     then wrap (ms - Fused.last_ms st1) < 1000
     else wrap (ms - Fused.last_ms st1) <= 1000).
Proof.
  intros Ht H. unfold Fused.systime3 in H.
  destruct (if Fused.use_hw_systicks st then Fused.call_systickshw st
            else Fused.systicks st) as [[now st0]| |] eqn:Q;
    cbn [bind] in H; try discriminate.
  assert (K : Fused.ticks1ms st0 = Fused.ticks1ms st).
  { unfold Fused.systicks, Fused.call_systickshw in Q.
    destruct (Fused.use_hw_systicks st); destruct (Fused.systickshw st);
      simpl in Q; try discriminate; injection Q as <- <-; reflexivity. }
  destruct (Fused.accumulate div_inst fuel now st0) as [s1| |] eqn:A;
    cbn [bind] in H; try discriminate.
  injection H as <- <- <-.
  destruct (fused_accumulate_residual div_inst fuel now st0 s1)
    as [_ [_ [R1 R2]]]; [rewrite K; exact Ht | exact A |].
  rewrite K in R1.
  eexists. unfold Fused.systimelast3. simpl.
  split; [reflexivity|]. simpl. repeat (split; [reflexivity|]).
  split; assumption.
Qed.

Lemma fused_last_trails_current_witness :
  exists st1 tb,
    Fused.systime3 false 8 (Some Fused.local_t) fused_running
      = Done (4, Some (Fused.mk_systime3 0 4 5000), st1) /\
    Fused.systimelast3 (Some Fused.local_t) st1 = (4, Some tb, st1) /\
    Fused.t_ticks tb = 4000.
Proof.
  eexists.
  destruct (fused_last_trails_current false 8 Fused.local_t Fused.local_t
              (Fused.mk_systime3 0 4 5000) 4 fused_running
              (Fused.mkState 3%nat 5000 1 65535 1000 10000 100000 4 0 0 false
                 5000 4000 0 (Some (held [0; 0] 5000))))
    as [tb [E [_ [_ [Et _]]]]].
  - simpl; lia.
  - vm_compute; reflexivity.
  - exists tb. split; [vm_compute; reflexivity|]. split; [exact E | exact Et].
Defined.

Lemma split_sec_loop_residual (ms_fuel : nat) :
  forall (fuel : nat) (st st' : Split.state),
    Split.systime_sec_loop ms_fuel fuel st = Done st' ->
    wrap (Split.systime_curr_ms st' - Split.last_ms st') < 1000.
Proof.
  induction fuel as [|f IH]; intros st st'; simpl;
    destruct (Split.systime_ms false ms_fuel st) as [[m st1]| |] eqn:E;
    simpl; try discriminate;
    pose proof (split_ms_keeps _ _ _ _ _ E) as [Km _];
    destruct (wrap (m - Split.last_ms st1) >=? 1000) eqn:G; try discriminate;
    try (intros H; injection H as <-; rewrite <- Km;
         rewrite Z.geb_leb in G; apply Z.leb_gt in G; exact G).
  apply IH.
Qed.

(** X15.  What the layered packaging leaves unaccounted.  Whenever
    [systime_ms] returns, the tick counter is ahead of the accounted tick
    by less than [ticks1ms] in the divide build and by at most [ticks1ms]
    in the loop build.  Whenever [systime_sec] returns, from any state, in
    either build and against any timer, the millisecond counter is ahead
    of the accounted millisecond by less than 1000: the seconds loop
    tests [>=], the millisecond loops [>]. *)
Theorem split_residuals_after_query (div_inst : bool) (fuel : nat)
    (now m : Z) (st st0 sm : Split.state) :
  0 <= Split.ticks1ms st ->
  Split.systime_tick st = Done (now, st0) ->
  Split.systime_ms div_inst fuel st = Done (m, sm) ->
  (if div_inst
   then wrap (now - Split.lastsystime_ticks sm) < Split.ticks1ms sm
   else wrap (now - Split.lastsystime_ticks sm) <= Split.ticks1ms sm) /\
  (forall (f : nat) (s : Z) (st2 ss : Split.state),
      Split.systime_sec div_inst f st2 = Done (s, ss) ->
      wrap (Split.systime_curr_ms ss - Split.last_ms ss) < 1000).
Proof.
  intros Ht Hq Hm. split.
  - destruct div_inst.
    + apply (split_ms_div_residual fuel now m st st0 sm); auto.
      assert (N : Split.ticks1ms st <> 0); [|lia].
      intros Z0.
      split_state_cases st; try discriminate; subst t1; discriminate.
    + apply (split_ms_loop_residual fuel now m st st0 sm); auto.
  - clear. intros f s st2 ss Hs.
    unfold Split.systime_sec in Hs. destruct div_inst.
    + destruct (Split.systime_ms true f st2) as [[m1 s1]| |] eqn:E;
        cbn [bind] in Hs; try discriminate.
      pose proof (split_ms_keeps _ _ _ _ _ E) as [Km _].
      destruct (catchup_div m1 1000 (Split.last_ms s1) (Split.systime_curr_sec s1))
        as [[lm sc]| |] eqn:D; cbn [bind] in Hs; try discriminate.
      injection Hs as _ <-.
      assert (P : 0 <= 1000) by lia.
      destruct (catchup_div_done _ _ _ _ _ _ P D) as [_ [R _]].
      destruct s1; simpl in *. subst m1. rewrite R.
      apply Z.mod_pos_bound. lia.
    + destruct (Split.systime_sec_loop f f st2) as [s1| |] eqn:E;
        cbn [bind] in Hs; try discriminate.
      injection Hs as _ <-. exact (split_sec_loop_residual _ _ _ _ E).
Qed.

Lemma split_residuals_after_query_witness :
  exists sm ss,
    Split.systime_ms false 8 split_running = Done (4, sm) /\
    Split.systime_sec false 8 split_running = Done (0, ss) /\
    wrap (5000 - Split.lastsystime_ticks sm) <= 1000 /\
    wrap (Split.systime_curr_ms ss - Split.last_ms ss) < 1000.
Proof.
  do 2 eexists. split; [vm_compute; reflexivity|].
  split; [vm_compute; reflexivity|].
  destruct (split_residuals_after_query false 8 5000 4 split_running
              (Split.mkState 3%nat (Some (held [0; 0] 5000)) Split.tick_internal
                 5000 5000 65535 1 0 1000 50000 0 0 0)
              (Split.mkState 3%nat (Some (held [0; 0] 5000)) Split.tick_internal
                 5000 5000 65535 1 4000 1000 50000 4 0 0))
    as [A B];
    [simpl; lia | vm_compute; reflexivity | vm_compute; reflexivity |].
  split; [exact A|].
  apply (B 8%nat 0 split_running). vm_compute. reflexivity.
Defined.

(** ** Initialisation and the mode it selects *)

Lemma fused_direct_poll (src : hwsrc) :
  forall (n : nat) (s : Fused.state),
    Fused.use_hw_systicks s = true ->
    Fused.systickshw s = Some src ->
    poll Fused.systicks n s =
      Done (map (fun i => wrap (src i)) (seq (Fused.hw_reads s) n),
            Fused.set_hw_reads (Fused.hw_reads s + n) s).
Proof.
  induction n as [|n IH]; intros s Hu Hs.
  - simpl. rewrite Nat.add_0_r. destruct s; reflexivity.
  - cbn [poll seq map]. unfold Fused.systicks at 1, Fused.call_systickshw.
    rewrite Hu, Hs. cbn [bind].
    rewrite IH by (destruct s; assumption).
    cbn [bind]. destruct s; simpl. rewrite Nat.add_succ_r. reflexivity.
Qed.

Lemma split_direct_poll (src : hwsrc) :
  forall (n : nat) (s : Split.state),
    Split.systime_tick_current s = Split.tick_fcn (Some src) ->
    poll Split.systime_tick n s =
      Done (map (fun i => wrap (src i)) (seq (Split.hw_reads s) n),
            Split.set_hw_reads (Split.hw_reads s + n) s).
Proof.
  induction n as [|n IH]; intros s Hu.
  - simpl. rewrite Nat.add_0_r. destruct s; reflexivity.
  - cbn [poll seq map]. unfold Split.systime_tick at 1, Split.call_fcn.
    rewrite Hu. cbn [bind].
    rewrite IH by (destruct s; assumption).
    cbn [bind]. destruct s; simpl. rewrite Nat.add_succ_r. reflexivity.
Qed.

(** X16.  Pass-through mode.  For a 32-bit timer with multiplier 1 the
    init functions compute no mask at all (so the width of
    [unsigned long] does not matter) and select the direct path: from
    then on the tick query returns the raw samples themselves, one per
    call, and the widener's statics (wide counter, last sample) are
    never written. *)
Theorem pass_through_returns_raw_samples (div_inst : bool) (ulong_bits : Z)
    (src : hwsrc) (tpm : Z) (n : nat) (fs : Fused.state) (ss : Split.state) :
  (exists fs',
      Fused.systime_init div_inst ulong_bits (Some src) 32 1 tpm fs = Done fs' /\
      Fused.use_hw_systicks fs' = true /\
      Fused.hw_reads fs' = S (Fused.hw_reads fs) /\
      Fused.ticks fs' = Fused.ticks fs /\
      Fused.last_timer_ticks fs' = Fused.last_timer_ticks fs /\
      Fused.mask fs' = Fused.mask fs /\
      poll Fused.systicks n fs' =
        Done (map (fun i => wrap (src i)) (seq (S (Fused.hw_reads fs)) n),
              Fused.set_hw_reads (S (Fused.hw_reads fs) + n) fs')) /\
  (exists ss',
      Split.systime_tick_init ulong_bits (Some src) 32 1 ss = Done ss' /\
      Split.systime_tick_current ss' = Split.tick_fcn (Some src) /\
      Split.hw_reads ss' = S (Split.hw_reads ss) /\
      Split.systime_curr_ticks ss' = Split.systime_curr_ticks ss /\
      Split.last_timer_ticks ss' = Split.last_timer_ticks ss /\
      Split.systickshw ss' = Split.systickshw ss /\
      Split.tickmult ss' = Split.tickmult ss /\
      Split.mask ss' = Split.mask ss /\
      poll Split.systime_tick n ss' =
        Done (map (fun i => wrap (src i)) (seq (S (Split.hw_reads ss)) n),
              Split.set_hw_reads (S (Split.hw_reads ss) + n) ss')).
Proof.
  split.
  - unfold Fused.systime_init.
    change ((32 =? 8 * 4) && (1 =? 1)) with true. cbn [bind].
    unfold Fused.systicks, Fused.call_systickshw.
    destruct fs as [k tk tm mk t1 t10 t100 ms sc so hwm ltt lst lms hw].
    destruct div_inst; simpl; eexists; (split; [reflexivity|]);
      repeat (split; [reflexivity|]);
      rewrite (fused_direct_poll src) by reflexivity; reflexivity.
  - unfold Split.systime_tick_init.
    change ((32 =? 8 * 4) && (1 =? 1)) with true. cbn [bind].
    unfold Split.systime_tick, Split.call_fcn.
    destruct ss as [k hw cur ltt ct mk tm lst t1 t50 cms cs lms].
    simpl. eexists. split; [reflexivity|].
    repeat (split; [reflexivity|]).
    rewrite (split_direct_poll src) by reflexivity. reflexivity.
Qed.

Lemma mask_value (W : Z) : 0 <= W <= 32 -> wrap (Z.shiftl 1 W - 1) = 2 ^ W - 1.
Proof.
  intros HW. rewrite Z.shiftl_1_l. apply wrap_small.
  assert (0 < 2 ^ W) by (apply Z.pow_pos_nonneg; lia).
  assert (2 ^ W <= 2 ^ 32) by (apply Z.pow_le_mono_r; lia).
  change (2 ^ 32) with 4294967296 in *. lia.
Qed.

(** X18.  The init functions reset nothing.  In widened mode
    [systime_init] and [systime_tick_init] take their first sample
    against whatever last sample and wide counter the statics hold, with
    the new mask and multiplier; the milliseconds, the seconds, the
    offset and the accounted values are left as they were.  From the
    zero-initialised statics the wide counter therefore starts at
    [multiplier * (first sample mod 2^W)], the time since the timer's
    own zero. *)
Theorem init_resets_nothing (div_inst : bool) (ulong_bits : Z) (src : hwsrc)
    (hw_bits mult tpm : Z) (fs : Fused.state) (ss : Split.state) :
  0 <= hw_bits <= 32 ->
  hw_bits < ulong_bits ->
  (hw_bits =? 8 * 4) && (mult =? 1) = false ->
  (exists fs',
      Fused.systime_init div_inst ulong_bits (Some src) hw_bits mult tpm fs
        = Done fs' /\
      Fused.ticks fs' =
        wrap (Fused.ticks fs
              + mult * ((wrap (src (Fused.hw_reads fs)) - Fused.last_timer_ticks fs)
                        mod 2 ^ hw_bits)) /\
      Fused.last_timer_ticks fs' = wrap (src (Fused.hw_reads fs)) /\
      Fused.milisec fs' = Fused.milisec fs /\
      Fused.sec fs' = Fused.sec fs /\
      Fused.sec_offset fs' = Fused.sec_offset fs /\
      Fused.last_systime_ticks fs' = Fused.last_systime_ticks fs /\
      Fused.last_ms fs' = Fused.last_ms fs) /\
  (exists ss',
      Split.systime_tick_init ulong_bits (Some src) hw_bits mult ss = Done ss' /\
      Split.systime_curr_ticks ss' =
        wrap (Split.systime_curr_ticks ss
              + mult * ((wrap (src (Split.hw_reads ss)) - Split.last_timer_ticks ss)
                        mod 2 ^ hw_bits)) /\
      Split.last_timer_ticks ss' = wrap (src (Split.hw_reads ss)) /\
      Split.ticks1ms ss' = Split.ticks1ms ss /\
      Split.ticks50ms ss' = Split.ticks50ms ss /\
      Split.lastsystime_ticks ss' = Split.lastsystime_ticks ss /\
      Split.systime_curr_ms ss' = Split.systime_curr_ms ss /\
      Split.systime_curr_sec ss' = Split.systime_curr_sec ss /\
      Split.last_ms ss' = Split.last_ms ss).
Proof.
  intros HW L P. apply Z.ltb_lt in L. split.
  - unfold Fused.systime_init, mask_of. rewrite P, L. cbn [bind].
    rewrite mask_value by exact HW.
    destruct fs as [k tk tm mk t1 t10 t100 ms sc so hwm ltt lst lms hw].
    unfold Fused.systicks, Fused.call_systickshw.
    destruct div_inst; simpl; eexists; (split; [reflexivity|]); simpl;
      rewrite land_mask, wrap_add_r, (Z.mul_comm mult) by exact HW;
      repeat split; reflexivity.
  - unfold Split.systime_tick_init, mask_of. rewrite P, L. cbn [bind].
    rewrite mask_value by exact HW.
    destruct ss as [k hw cur ltt ct mk tm lst t1 t50 cms cs lms].
    unfold Split.systime_tick, Split.systime_tick_internal, Split.call_fcn.
    simpl. eexists. split; [reflexivity|]. simpl.
    rewrite land_mask, wrap_add_r, (Z.mul_comm mult) by exact HW.
    repeat split; reflexivity.
Qed.

Lemma init_resets_nothing_witness :
  (exists fs',
      Fused.systime_init false 32 (Some (samples [70000])) 16 10 1000 Fused.boot
        = Done fs' /\
      Fused.ticks fs' = 44640) /\
  (exists ss',
      Split.systime_tick_init 32 (Some (samples [70000])) 16 10 Split.boot
        = Done ss' /\
      Split.systime_curr_ticks ss' = 44640).
Proof.
  destruct (init_resets_nothing false 32 (samples [70000]) 16 10 1000
              Fused.boot Split.boot)
    as [[fs' [E1 [T1 _]]] [ss' [E2 [T2 _]]]];
    [lia | lia | reflexivity |].
  split; [exists fs' | exists ss']; (split; [assumption|]).
  - rewrite T1. vm_compute. reflexivity.
  - rewrite T2. vm_compute. reflexivity.
Defined.

(** X19.  The layered packaging before [systime_time_init].  The statics
    of systime_ms.c start with [ticks1ms = 10000] and [ticks50ms = 0],
    and [systime_tick_init] leaves them so.  In that state the divide
    build of [systime_ms] works, with 10000 ticks to the millisecond; the
    loop build never returns once the tick counter has left zero, its
    first loop subtracting chunks of zero ticks. *)
Theorem split_ms_before_time_init (ulong_bits : Z) (fcn : option hwsrc)
    (hw_bits mult now : Z) (st st1 : Split.state) :
  Split.systime_tick_init ulong_bits fcn hw_bits mult Split.boot = Done st ->
  Split.systime_tick st = Done (now, st1) ->
  now <> 0 ->
  Split.ticks1ms st = 10000 /\ Split.ticks50ms st = 0 /\
  (forall fuel, exists st',
      Split.systime_ms true fuel st = Done (now / 10000, st')) /\
  (forall fuel, Split.systime_ms false fuel st = Timeout) /\
  (forall fuel, Split.systime_sec false fuel st = Timeout).
Proof.
  intros Hi Hq Hn.
  assert (K : Split.ticks1ms st = 10000 /\ Split.ticks50ms st = 0 /\
              Split.lastsystime_ticks st = 0 /\ Split.systime_curr_ms st = 0).
  { unfold Split.systime_tick_init in Hi.
    destruct ((hw_bits =? 8 * 4) && (mult =? 1)); cbn [bind] in Hi;
      [|destruct (mask_of ulong_bits hw_bits); cbn [bind] in Hi;
        try discriminate];
      unfold Split.systime_tick, Split.systime_tick_internal, Split.call_fcn in Hi;
      simpl in Hi; destruct fcn; simpl in Hi; try discriminate;
      injection Hi as <-; repeat split. }
  destruct K as [K1 [K50 [Kl Km]]].
  assert (U : 0 <= now < 4294967296).
  { unfold Split.systime_tick, Split.systime_tick_internal, Split.call_fcn in Hq.
    destruct (Split.systime_tick_current st) as [|[f|]];
      [destruct (Split.systickshw st)| |]; simpl in Hq; try discriminate;
      injection Hq as <- _; apply wrap_range. }
  assert (R : wrap (now - Split.lastsystime_ticks st) = now)
    by (rewrite Kl, Z.sub_0_r; apply wrap_small; exact U).
  assert (Hang : forall fuel, Split.systime_ms false fuel st = Timeout)
    by (apply (split_ms_hangs now st st1 Hq K50); lia).
  split; [exact K1|]. split; [exact K50|]. split; [|split].
  - intros fuel. unfold Split.systime_ms. rewrite Hq. cbn [bind].
    assert (Q : Split.ticks1ms st1 = 10000 /\ Split.lastsystime_ticks st1 = 0 /\
                Split.systime_curr_ms st1 = 0).
    { unfold Split.systime_tick, Split.systime_tick_internal, Split.call_fcn in Hq.
      destruct (Split.systime_tick_current st) as [|[f|]];
        [destruct (Split.systickshw st)| |]; simpl in Hq; try discriminate;
        injection Hq as _ <-; simpl; auto. }
    destruct Q as [Q1 [Q2 Q3]]. rewrite Q1, Q2, Q3.
    destruct (catchup_div_closed now 10000 0 0 ltac:(lia)) as [E _].
    rewrite E. cbn [bind]. rewrite Z.sub_0_r, !Z.add_0_l.
    rewrite (wrap_small now) by exact U.
    assert (0 <= now / 10000 <= now)
      by (split; [apply Z.div_pos; lia | apply div_le_self; lia]).
    rewrite (wrap_small (now / 10000)) by lia.
    eexists. destruct st1; reflexivity.
  - exact Hang.
  - intros fuel. unfold Split.systime_sec.
    destruct fuel; simpl; rewrite Hang; reflexivity.
Qed.

Lemma split_ms_before_time_init_witness :
  exists st,
    Split.systime_tick_init 32 (Some (samples [0; 25000])) 16 1 Split.boot = Done st /\
    (exists st', Split.systime_ms true 0 st = Done (2, st')) /\
    Split.systime_ms false 100 st = Timeout.
Proof.
  eexists. split; [vm_compute; reflexivity|].
  destruct (split_ms_before_time_init 32 (Some (samples [0; 25000])) 16 1 25000
              (Split.mkState 1%nat (Some (samples [0; 25000])) Split.tick_internal
                 0 0 65535 1 0 10000 0 0 0 0)
              (Split.mkState 2%nat (Some (samples [0; 25000])) Split.tick_internal
                 25000 25000 65535 1 0 10000 0 0 0 0))
    as [_ [_ [A [B _]]]];
    [vm_compute; reflexivity | vm_compute; reflexivity | discriminate |].
  split; [exact (A 0%nat) | exact (B 100%nat)].
Defined.
